(** * Customer-Segmentation-Dashboard: the data preparation script

    A shallow embedding of [src/data_preparation.py] and the properties of
    its cleaning and feature-derivation stages.

    The script works on a pandas [DataFrame]: named columns, each of one
    dtype.  Numbers are IEEE binary64 values (Rocq's primitive floats), the
    missing number is NaN, the missing date is NaT.  Calls that leave the
    process (the database, the file system, the clock, the date parser and
    the text rendering of the summary) are read from a [World].

    pandas is modelled as of the 1.x / 2.x series without copy-on-write
    (a chained [fillna(..., inplace=True)] updates the frame) and numpy as
    of 1.22 or later (percentiles by the [linear] method). *)

From Stdlib Require Import ZArith List String Ascii Bool Lia.
From Stdlib Require Import Floats Uint63 DecimalString.
Import ListNotations.

Set Warnings "-inexact-float".

Local Open Scope string_scope.
Local Open Scope Z_scope.

(** ** Binary64 helpers *)

Module B64.

Definition isna (x : float) : bool := PrimFloat.is_nan x.

(** The conversion int64 -> float64 (round to nearest), for |z| < 2^63. *)
Definition of_Z (z : Z) : float :=
  if z <? 0
  then PrimFloat.opp (PrimFloat.of_uint63 (Uint63.of_Z (- z)))
  else PrimFloat.of_uint63 (Uint63.of_Z z).

(** Truncation towards zero; [None] on NaN and the infinities. *)
Definition trunc (x : float) : option Z :=
  match Prim2SF x with
  | S754_zero _ => Some 0
  | S754_finite s m e =>
      let a := if 0 <=? e then Zpos m * 2 ^ e else Z.quot (Zpos m) (2 ^ (- e)) in
      Some (if s then - a else a)
  | S754_infinity _ | S754_nan => None
  end.

(** The position of a non-NaN value in the order of the comparisons:
    sign class first, then exponent, then mantissa. *)
Definition rank (x : spec_float) : Z * Z * Z :=
  match x with
  | S754_infinity true => (-2, 0, 0)
  | S754_finite true m e => (-1, - e, - Zpos m)
  | S754_zero _ => (0, 0, 0)
  | S754_nan => (0, 0, 0)
  | S754_finite false m e => (1, e, Zpos m)
  | S754_infinity false => (2, 0, 0)
  end.

Definition lex_lt (p q : Z * Z * Z) : Prop :=
  let '(a, b, c) := p in
  let '(a', b', c') := q in
  a < a' \/ (a = a' /\ (b < b' \/ (b = b' /\ c < c'))).

(** Insertion sort by [<=]; applied to lists without NaN. *)
Fixpoint insert (x : float) (l : list float) : list float :=
  match l with
  | [] => [x]
  | y :: r => if PrimFloat.leb x y then x :: l else y :: insert x r
  end.

Definition sort (l : list float) : list float := fold_right insert [] l.

Definition dropna (l : list float) : list float :=
  filter (fun x => negb (isna x)) l.

End B64.

(** int64 arithmetic wraps around. *)
Definition wrap64 (z : Z) : Z := (z + 2 ^ 63) mod 2 ^ 64 - 2 ^ 63.

(** ** Exceptions and results *)

Inductive exn : Type :=
| KeyError (key : string)
| ParserError (text : string)       (* pd.to_datetime, errors='raise' *)
| IntCastingNaNError                (* astype(int) on NaN or inf; a ValueError *)
| Exception (msg : string).         (* raised by the database or the file system *)

(** [Unmodelled] marks a use of pandas on a dtype outside the column contract
    that this development does not describe; it is not a Python outcome. *)
Inductive result (A : Type) : Type :=
| Ok (a : A)
| Raise (e : exn)
| Unmodelled (what : string).

Arguments Ok {A} a.
Arguments Raise {A} e.
Arguments Unmodelled {A} what.

Definition exn_str (e : exn) : string :=
  match e with
  | KeyError k => "'" ++ k ++ "'"
  | ParserError t => "Unknown datetime string format, unable to parse: " ++ t
  | IntCastingNaNError => "Cannot convert non-finite values (NA or inf) to integer"
  | Exception m => m
  end.

Definition rbind {A B} (r : result A) (f : A -> result B) : result B :=
  match r with
  | Ok a => f a
  | Raise e => Raise e
  | Unmodelled w => Unmodelled w
  end.

(** ** Series and frames *)

Inductive Series : Type :=
| Float64 (xs : list float)                     (* NaN is the missing value *)
| Int64 (xs : list Z)
| Object (xs : list (option string))            (* str or None *)
| Datetime64 (xs : list (option Z))             (* ns since the epoch; None is NaT *)
| Category (cats : list string) (xs : list (option string)).

(** Columns in order, with their names. *)
Definition DataFrame : Type := list (string * Series).

Definition series_len (s : Series) : nat :=
  match s with
  | Float64 xs => List.length xs
  | Int64 xs => List.length xs
  | Object xs => List.length xs
  | Datetime64 xs => List.length xs
  | Category _ xs => List.length xs
  end.

(** [len(df)] *)
Definition nrows (df : DataFrame) : nat :=
  match df with
  | [] => 0%nat
  | (_, s) :: _ => series_len s
  end.

Fixpoint get_col (name : string) (df : DataFrame) : option Series :=
  match df with
  | [] => None
  | (n, s) :: r => if String.eqb n name then Some s else get_col name r
  end.

(** [name in df.columns] *)
Definition has_col (name : string) (df : DataFrame) : bool :=
  match get_col name df with Some _ => true | None => false end.

(** [df[name]] *)
Definition getitem (df : DataFrame) (name : string) : result Series :=
  match get_col name df with
  | Some s => Ok s
  | None => Raise (KeyError name)
  end.

(** [df[name] = s]: overwrites the column in place, or appends it. *)
Fixpoint set_col (name : string) (s : Series) (df : DataFrame) : DataFrame :=
  match df with
  | [] => [(name, s)]
  | (n, s0) :: r =>
      if String.eqb n name then (n, s) :: r else (n, s0) :: set_col name s r
  end.

(** Boolean-mask selection. *)
Fixpoint select {A} (mask : list bool) (xs : list A) : list A :=
  match mask, xs with
  | b :: m, x :: r => if b then x :: select m r else select m r
  | _, _ => []
  end.

Definition series_select (mask : list bool) (s : Series) : Series :=
  match s with
  | Float64 xs => Float64 (select mask xs)
  | Int64 xs => Int64 (select mask xs)
  | Object xs => Object (select mask xs)
  | Datetime64 xs => Datetime64 (select mask xs)
  | Category c xs => Category c (select mask xs)
  end.

Definition frame_select (mask : list bool) (df : DataFrame) : DataFrame :=
  map (fun c => (fst c, series_select mask (snd c))) df.

Fixpoint zip_with {A B C} (f : A -> B -> C) (xs : list A) (ys : list B) : list C :=
  match xs, ys with
  | x :: r, y :: s => f x y :: zip_with f r s
  | _, _ => []
  end.

(** ** The pandas and numpy operations the script calls *)

(** Numeric columns: int64 and float64. *)
Definition as_floats (s : Series) : result (list float) :=
  match s with
  | Float64 xs => Ok xs
  | Int64 xs => Ok (map B64.of_Z xs)
  | _ => Unmodelled "numeric operation on a column that is not numeric"
  end.

(** [np.median] after the NaNs are dropped: the mean of the middle element,
    or of the two middle elements. *)
Definition np_median (xs : list float) : float :=
  let v := B64.sort (B64.dropna xs) in
  let n := List.length v in
  match n with
  | O => PrimFloat.nan
  | _ =>
      if Nat.odd n
      then (nth (n / 2) v PrimFloat.nan / 1)%float
      else ((nth (n / 2 - 1) v PrimFloat.nan + nth (n / 2) v PrimFloat.nan) / 2)%float
  end.

(** [Series.median()] *)
Definition median (s : Series) : result float :=
  rbind (as_floats s) (fun xs => Ok (np_median xs)).

(** numpy's [_lerp]. *)
Definition lerp (a b t : float) : float :=
  let d := (b - a)%float in
  if (0.5 <=? t)%float then (b - d * (1 - t))%float else (a + d * t)%float.

(** [np.percentile(values, 100 q, method='linear')] after the NaNs are
    dropped: virtual index [n q + (1 + q (1 - 1 - 1)) - 1], its two
    neighbours, and [_lerp] between them. *)
Definition np_quantile (xs : list float) (q : float) : float :=
  let v := B64.sort (B64.dropna xs) in
  let n := List.length v in
  match n with
  | O => PrimFloat.nan
  | S n1 =>
      let h := (B64.of_Z (Z.of_nat n) * q + (1 + q * (1 - 1 - 1)) - 1)%float in
      let last := nth n1 v PrimFloat.nan in
      if (B64.of_Z (Z.of_nat n1) <=? h)%float then lerp last last (h - (-1))%float
      else if (h <? 0)%float then lerp (nth 0 v PrimFloat.nan) (nth 0 v PrimFloat.nan) (h - 0)%float
      else
        match B64.trunc h with
        | Some k =>
            lerp (nth (Z.to_nat k) v PrimFloat.nan)
                 (nth (Z.to_nat (k + 1)) v PrimFloat.nan)
                 (h - B64.of_Z k)%float
        | None => PrimFloat.nan
        end
  end.

(** [Series.quantile(q)] *)
Definition quantile (s : Series) (q : float) : result float :=
  rbind (as_floats s) (fun xs => Ok (np_quantile xs q)).

(** [Series.fillna(v)] with a number. *)
Definition fillna_float (v : float) (xs : list float) : list float :=
  map (fun x => if B64.isna x then v else x) xs.

Definition fillna_number (s : Series) (v : float) : result Series :=
  match s with
  | Float64 xs => Ok (Float64 (fillna_float v xs))
  | Int64 xs => Ok (Int64 xs)
  | _ => Unmodelled "fillna with a number on a column that is not numeric"
  end.

(** [Series.fillna(v)] with a string. *)
Definition fillna_object (v : string) (xs : list (option string)) : list (option string) :=
  map (fun o => match o with Some _ => o | None => Some v end) xs.

Definition fillna_text (s : Series) (v : string) : result Series :=
  match s with
  | Object xs => Ok (Object (fillna_object v xs))
  | Int64 xs => Ok (Int64 xs)
  | _ => Unmodelled "fillna with a string on a column that is not text"
  end.

(** [Series.clip(upper=u)]: a NaN bound clips nothing, a missing value stays
    missing. *)
Definition clip_cell (u x : float) : float :=
  if B64.isna x || (x <=? u)%float then x else u.

Definition clip_floats (u : float) (xs : list float) : list float :=
  if B64.isna u then xs else map (clip_cell u) xs.

Definition clip_upper (s : Series) (u : float) : result Series :=
  match s with
  | Float64 xs => Ok (Float64 (clip_floats u xs))
  | Int64 xs =>
      (* an int64 column is cast to float64 only when a value is replaced *)
      if forallb (fun x => (B64.of_Z x <=? u)%float) xs || B64.isna u
      then Ok (Int64 xs)
      else Ok (Float64 (clip_floats u (map B64.of_Z xs)))
  | _ => Unmodelled "clip on a column that is not numeric"
  end.

(** Keys of [duplicated]: missing values are equal to each other, and so are
    the two zeros. *)
Inductive key : Type :=
| KNull
| KInt (z : Z)
| KNum (f : spec_float)
| KStr (s : string)
| KStamp (t : Z).

Definition sf_eq_dec (a b : spec_float) : {a = b} + {a <> b}.
Proof. decide equality; auto using Bool.bool_dec, Pos.eq_dec, Z.eq_dec. Defined.

Definition key_eq_dec (a b : key) : {a = b} + {a <> b}.
Proof. decide equality; auto using Z.eq_dec, string_dec, sf_eq_dec. Defined.

Definition key_of_float (x : float) : key :=
  if B64.isna x then KNull
  else if (x =? 0)%float then KNum (S754_zero false)
  else KNum (Prim2SF x).

Definition key_of_text (o : option string) : key :=
  match o with Some s => KStr s | None => KNull end.

Definition key_of_stamp (o : option Z) : key :=
  match o with Some t => KStamp t | None => KNull end.

Definition keys (s : Series) : list key :=
  match s with
  | Float64 xs => map key_of_float xs
  | Int64 xs => map KInt xs
  | Object xs => map key_of_text xs
  | Datetime64 xs => map key_of_stamp xs
  | Category _ xs => map key_of_text xs
  end.

Definition mem_key (k : key) (seen : list key) : bool :=
  if in_dec key_eq_dec k seen then true else false.

(** [~ Series.duplicated(keep='first')]: true on the first row of each key. *)
Fixpoint first_mask (seen : list key) (ks : list key) : list bool :=
  match ks with
  | [] => []
  | k :: r => negb (mem_key k seen) :: first_mask (k :: seen) r
  end.

(** [df.drop_duplicates(subset=[name], keep='first', inplace=True)] *)
Definition drop_duplicates (name : string) (df : DataFrame) : result DataFrame :=
  match get_col name df with
  | None => Raise (KeyError name)
  | Some s => Ok (frame_select (first_mask [] (keys s)) df)
  end.

(** [np.searchsorted(bins, x, side='left')] on increasing bins. *)
Fixpoint searchsorted_left (bins : list float) (x : float) : nat :=
  match bins with
  | [] => O
  | b :: r => if (b <? x)%float then S (searchsorted_left r x) else O
  end.

(** One value of [pd.cut(.., bins, labels)] with [right=True]: bin [i] is
    (bins[i-1], bins[i]]; outside all bins, and for NaN, the category is
    missing. *)
Definition cut_cell (bins : list float) (labels : list string) (x : float) : option string :=
  if B64.isna x then None
  else
    let i := searchsorted_left bins x in
    if (Nat.eqb i 0 || Nat.eqb i (List.length bins))%bool then None
    else nth_error labels (i - 1).

Definition cut (s : Series) (bins : list float) (labels : list string) : result Series :=
  rbind (as_floats s) (fun xs => Ok (Category labels (map (cut_cell bins labels) xs))).

(** [Series.replace(0, 1)] *)
Definition replace_0_1 (s : Series) : result Series :=
  match s with
  | Float64 xs => Ok (Float64 (map (fun x => if (x =? 0)%float then 1%float else x) xs))
  | Int64 xs => Ok (Int64 (map (fun z => if z =? 0 then 1 else z) xs))
  | _ => Unmodelled "replace(0, 1) on a column that is not numeric"
  end.

(** [a / b] on numeric columns: true division, always float64. *)
Definition series_div (a b : Series) : result Series :=
  rbind (as_floats a) (fun xs =>
  rbind (as_floats b) (fun ys =>
  Ok (Float64 (zip_with PrimFloat.div xs ys)))).

(** [s * k], [k + s] with a Python int, and [a * b]: int64 columns stay
    int64 (wrapping), anything with a float64 column is float64. *)
Definition series_mul_int (s : Series) (k : Z) : result Series :=
  match s with
  | Float64 xs => Ok (Float64 (map (fun x => (x * B64.of_Z k)%float) xs))
  | Int64 xs => Ok (Int64 (map (fun z => wrap64 (z * k)) xs))
  | _ => Unmodelled "arithmetic on a column that is not numeric"
  end.

Definition series_radd_int (k : Z) (s : Series) : result Series :=
  match s with
  | Float64 xs => Ok (Float64 (map (fun x => (B64.of_Z k + x)%float) xs))
  | Int64 xs => Ok (Int64 (map (fun z => wrap64 (k + z)) xs))
  | _ => Unmodelled "arithmetic on a column that is not numeric"
  end.

Definition series_mul (a b : Series) : result Series :=
  match a, b with
  | Int64 xs, Int64 ys => Ok (Int64 (zip_with (fun x y => wrap64 (x * y)) xs ys))
  | _, _ =>
      rbind (as_floats a) (fun xs =>
      rbind (as_floats b) (fun ys =>
      Ok (Float64 (zip_with PrimFloat.mul xs ys))))
  end.

(** Nanoseconds in a day. *)
Definition ns_per_day : Z := 86400000000000.

(** [(now - s).dt.days]: whole days of each difference, rounded down; int64
    when no date is missing, float64 with NaN otherwise. *)
Definition days_since (now : Z) (s : Series) : result Series :=
  match s with
  | Datetime64 ts =>
      if forallb (fun o => match o with Some _ => true | None => false end) ts
      then Ok (Int64 (map (fun o => match o with
                                    | Some t => (now - t) / ns_per_day
                                    | None => 0
                                    end) ts))
      else Ok (Float64 (map (fun o => match o with
                                      | Some t => B64.of_Z ((now - t) / ns_per_day)
                                      | None => PrimFloat.nan
                                      end) ts))
  | _ => Unmodelled "datetime arithmetic on a column that is not datetime64"
  end.

(** [s / k] with a Python int. *)
Definition series_div_int (s : Series) (k : Z) : result Series :=
  rbind (as_floats s) (fun xs => Ok (Float64 (map (fun x => (x / B64.of_Z k)%float) xs))).

(** [Series.astype(int)]: truncates; refuses NaN and the infinities. *)
Fixpoint trunc_all (xs : list float) : result (list Z) :=
  match xs with
  | [] => Ok []
  | x :: r =>
      match B64.trunc x with
      | None => Raise IntCastingNaNError
      | Some z => rbind (trunc_all r) (fun zs => Ok (z :: zs))
      end
  end.

Definition astype_int (s : Series) : result Series :=
  match s with
  | Float64 xs => rbind (trunc_all xs) (fun zs => Ok (Int64 zs))
  | Int64 xs => Ok (Int64 xs)
  | _ => Unmodelled "astype(int) on a column that is not numeric"
  end.

(** ** The world outside the process *)

Record World : Type := {
  (** the k-th reading of [datetime.now()], in ns since the epoch *)
  datetime_now : nat -> Z;
  (** [pd.to_datetime] on one string: [None] when it is not a date,
      [Some None] when it reads as missing (NaT) *)
  to_datetime_text : string -> option (option Z);
  (** [pyodbc.connect]: the error it raises, if any *)
  pyodbc_connect : option string;
  (** [open(path).read()]: contents, or the error raised *)
  open_read : string -> string + string;
  (** [pd.read_sql(query, conn)]: the table, or the error raised *)
  pd_read_sql : string -> DataFrame + string;
  (** [os.makedirs(dir, exist_ok=True)] and [df.to_csv(path, index=False)]:
      the error raised, if any *)
  os_makedirs : string -> option string;
  df_to_csv : string -> DataFrame -> option string;
  (** [str(s.value_counts())] and [f"{s.mean():.2f}"] *)
  str_value_counts : Series -> string;
  fmt_mean : Series -> result string
}.

(** What a run has done so far: clock readings taken, lines printed. *)
Record state : Type := {
  clock_reads : nat;
  stdout : list string
}.

Definition M (A : Type) : Type := state -> result A * state.

Definition ret {A} (a : A) : M A := fun st => (Ok a, st).

Definition bind {A B} (m : M A) (f : A -> M B) : M B :=
  fun st =>
    match m st with
    | (Ok a, st') => f a st'
    | (Raise e, st') => (Raise e, st')
    | (Unmodelled w, st') => (Unmodelled w, st')
    end.

Definition lift {A} (r : result A) : M A := fun st => (r, st).

Definition print (line : string) : M unit :=
  fun st => (Ok tt, {| clock_reads := clock_reads st;
                       stdout := (stdout st ++ [line])%list |}).

(** [try: body  except Exception as e: handler(e)] *)
Definition try_except {A} (body : M A) (handler : exn -> M A) : M A :=
  fun st =>
    match body st with
    | (Raise e, st') => handler e st'
    | other => other
    end.

Declare Scope py_scope.
Delimit Scope py_scope with py.
Notation "x <- m ;; k" := (bind m (fun x => k))
  (at level 61, m at next level, right associativity) : py_scope.
Notation "m ;; k" := (bind m (fun _ => k))
  (at level 61, right associativity) : py_scope.
Local Open Scope py_scope.

Definition str_nat (n : nat) : string := NilZero.string_of_uint (Nat.to_uint n).

Definition nl : string := String (ascii_of_nat 10) EmptyString.

(** [os.path.dirname] on a POSIX path. *)
Fixpoint before_last_slash (p : string) : option string :=
  match p with
  | EmptyString => None
  | String c r =>
      match before_last_slash r with
      | Some d => Some (String c d)
      | None => if Ascii.eqb c "/" then Some EmptyString else None
      end
  end.

Fixpoint all_slashes (p : string) : bool :=
  match p with
  | EmptyString => true
  | String c r => Ascii.eqb c "/" && all_slashes r
  end.

Fixpoint rstrip_slashes (p : string) : string :=
  match p with
  | EmptyString => EmptyString
  | String c r => if all_slashes p then EmptyString else String c (rstrip_slashes r)
  end.

Definition dirname (p : string) : string :=
  match before_last_slash p with
  | None => EmptyString
  | Some head => if all_slashes head then head ++ "/" else rstrip_slashes head
  end.

(** ** The script *)

Definition age_bins : list float := [0; 25; 35; 45; 55; 65; 100]%float.
Definition age_labels : list string := ["18-25"; "26-35"; "36-45"; "46-55"; "56-65"; "65+"].

Definition revenue_bins : list float := [0; 100; 500; 1000; 5000; PrimFloat.infinity]%float.
Definition revenue_labels : list string := ["Very Low"; "Low"; "Medium"; "High"; "Very High"].

Definition date_columns : list string := ["JoinDate"; "LastPurchaseDate"; "FirstPurchaseDate"].

Definition default_output_path : string := "data/customer_segmentation_output.csv".

Section Script.

Variable W : World.

(** [datetime.now()] *)
Definition now : M Z :=
  fun st => (Ok (datetime_now W (clock_reads st)),
             {| clock_reads := S (clock_reads st); stdout := stdout st |}).

(** [pd.to_datetime(s)] with the default [errors='raise']. *)
Fixpoint parse_all (xs : list (option string)) : result (list (option Z)) :=
  match xs with
  | [] => Ok []
  | None :: r => rbind (parse_all r) (fun ts => Ok (None :: ts))
  | Some text :: r =>
      match to_datetime_text W text with
      | None => Raise (ParserError text)
      | Some t => rbind (parse_all r) (fun ts => Ok (t :: ts))
      end
  end.

Definition to_datetime (s : Series) : result Series :=
  match s with
  | Datetime64 ts => Ok (Datetime64 ts)
  | Object xs => rbind (parse_all xs) (fun ts => Ok (Datetime64 ts))
  | Int64 xs => Ok (Datetime64 (map Some xs))
  | _ => Unmodelled "to_datetime on a float64 or categorical column"
  end.

Definition create_connection : M (option unit) :=
  try_except
    (match pyodbc_connect W with
     | Some err => lift (Raise (Exception err))
     | None =>
         print "Database connection successful" ;;
         ret (Some tt)
     end)
    (fun e =>
       print ("Error connecting to database: " ++ exn_str e) ;;
       ret None).

Definition load_segmentation_query : M string :=
  match open_read W "src/segmentation_query.sql" with
  | inl query => ret query
  | inr err => lift (Raise (Exception err))
  end.

Definition fetch_customer_data (conn : unit) : M (option DataFrame) :=
  try_except
    (query <- load_segmentation_query ;;
     match pd_read_sql W query with
     | inr err => lift (Raise (Exception err))
     | inl df =>
         print ("Fetched " ++ str_nat (nrows df) ++ " customer records") ;;
         ret (Some df)
     end)
    (fun e =>
       print ("Error fetching data: " ++ exn_str e) ;;
       ret None).

(** The loop of lines 76-78 over one column name. *)
Definition convert_date_column (col : string) (df : DataFrame) : result DataFrame :=
  match get_col col df with
  | None => Ok df
  | Some s => rbind (to_datetime s) (fun s' => Ok (set_col col s' df))
  end.

Fixpoint convert_date_columns (cols : list string) (df : DataFrame) : result DataFrame :=
  match cols with
  | [] => Ok df
  | col :: r => rbind (convert_date_column col df) (convert_date_columns r)
  end.

Definition clean_data (df : DataFrame) : M DataFrame :=
  print "Cleaning data..." ;;
  (* Handle missing values *)
  age <- lift (getitem df "Age") ;;
  m <- lift (median age) ;;
  age <- lift (fillna_number age m) ;;
  let df := set_col "Age" age df in
  gender <- lift (getitem df "Gender") ;;
  gender <- lift (fillna_text gender "Unknown") ;;
  let df := set_col "Gender" gender df in
  location <- lift (getitem df "Location") ;;
  location <- lift (fillna_text location "Unknown") ;;
  let df := set_col "Location" location df in
  (* Convert date columns to datetime *)
  df <- lift (convert_date_columns date_columns df) ;;
  (* Remove duplicates *)
  df <- lift (drop_duplicates "CustomerID" df) ;;
  (* Handle outliers in monetary values (using IQR method) *)
  monetary <- lift (getitem df "Monetary") ;;
  Q1 <- lift (quantile monetary 0.25) ;;
  monetary <- lift (getitem df "Monetary") ;;
  Q3 <- lift (quantile monetary 0.75) ;;
  let IQR := (Q3 - Q1)%float in
  monetary <- lift (getitem df "Monetary") ;;
  capped <- lift (clip_upper monetary (Q3 + 1.5 * IQR)%float) ;;
  let df := set_col "Monetary_Capped" capped df in
  print ("Data cleaned. Final record count: " ++ str_nat (nrows df)) ;;
  ret df.

Definition add_derived_features (df : DataFrame) : M DataFrame :=
  print "Adding derived features..." ;;
  (* Calculate customer tenure in months *)
  t <- now ;;
  join <- lift (getitem df "JoinDate") ;;
  days <- lift (days_since t join) ;;
  months <- lift (series_div_int days 30) ;;
  tenure <- lift (astype_int months) ;;
  let df := set_col "TenureMonths" tenure df in
  (* Calculate days since last purchase *)
  t <- now ;;
  last <- lift (getitem df "LastPurchaseDate") ;;
  days <- lift (days_since t last) ;;
  let df := set_col "DaysSinceLastPurchase" days df in
  (* Calculate average days between purchases *)
  lifetime <- lift (getitem df "CustomerLifetimeDays") ;;
  frequency <- lift (getitem df "Frequency") ;;
  frequency <- lift (replace_0_1 frequency) ;;
  avg <- lift (series_div lifetime frequency) ;;
  let df := set_col "AvgDaysBetweenPurchases" avg df in
  (* Create age groups *)
  age <- lift (getitem df "Age") ;;
  groups <- lift (cut age age_bins age_labels) ;;
  let df := set_col "AgeGroup" groups df in
  (* Create revenue tiers *)
  monetary <- lift (getitem df "Monetary") ;;
  tiers <- lift (cut monetary revenue_bins revenue_labels) ;;
  let df := set_col "RevenueTier" tiers df in
  (* Calculate customer lifetime value (CLV) estimate *)
  monetary <- lift (getitem df "Monetary") ;;
  rate <- lift (getitem df "PurchaseFrequencyRate") ;;
  yearly <- lift (series_mul_int rate 365) ;;
  factor <- lift (series_radd_int 1 yearly) ;;
  clv <- lift (series_mul monetary factor) ;;
  let df := set_col "EstimatedCLV" clv df in
  print "Derived features added" ;;
  ret df.

Definition export_to_csv (df : DataFrame) (output_path : string) : M unit :=
  try_except
    (match os_makedirs W (dirname output_path) with
     | Some err => lift (Raise (Exception err))
     | None =>
         match df_to_csv W output_path df with
         | Some err => lift (Raise (Exception err))
         | None => print ("Data exported successfully to " ++ output_path)
         end
     end)
    (fun e => print ("Error exporting data: " ++ exn_str e)).

Definition generate_summary_stats (df : DataFrame) : M unit :=
  print (nl ++ "=== Customer Segmentation Summary ===") ;;
  print ("Total Customers: " ++ str_nat (nrows df)) ;;
  print (nl ++ "Segment Distribution:") ;;
  segment <- lift (getitem df "CustomerSegment") ;;
  print (str_value_counts W segment) ;;
  print (nl ++ "Average Metrics:") ;;
  recency <- lift (getitem df "Recency") ;;
  r <- lift (fmt_mean W recency) ;;
  print ("  - Average Recency: " ++ r ++ " days") ;;
  frequency <- lift (getitem df "Frequency") ;;
  f <- lift (fmt_mean W frequency) ;;
  print ("  - Average Frequency: " ++ f ++ " purchases") ;;
  monetary <- lift (getitem df "Monetary") ;;
  m <- lift (fmt_mean W monetary) ;;
  print ("  - Average Monetary: $" ++ m) ;;
  print (nl ++ "Activity Status:") ;;
  activity <- lift (getitem df "ActivityStatus") ;;
  print (str_value_counts W activity) ;;
  print (nl ++ "========================================").

(** [conn.close()]; taken not to raise. *)
Definition conn_close (conn : unit) : M unit := ret tt.

Definition main : M unit :=
  print ("Starting data preparation for Customer Segmentation Dashboard..." ++ nl) ;;
  (* Create database connection *)
  conn <- create_connection ;;
  match conn with
  | None => print "Failed to connect to database. Exiting."
  | Some conn =>
      (* Fetch customer data *)
      df <- fetch_customer_data conn ;;
      match df with
      | None =>
          print "Failed to fetch data. Exiting." ;;
          conn_close conn
      | Some df =>
          (* Close database connection *)
          conn_close conn ;;
          (* Clean and process data *)
          df <- clean_data df ;;
          df <- add_derived_features df ;;
          (* Export processed data *)
          export_to_csv df default_output_path ;;
          (* Generate summary statistics *)
          generate_summary_stats df ;;
          print (nl ++ "Data preparation completed successfully!") ;;
          print "You can now import the output CSV into Power BI."
      end
  end.

End Script.

(** The steps of [clean_data] between a table and the table it returns,
    written as equations on the intermediate values. *)
Definition clean_data_steps (W : World) (df out : DataFrame) : Prop :=
  exists age m age' gender gender' location location' df3 df4 monetary Q1 Q3 capped,
    get_col "Age" df = Some age /\
    median age = Ok m /\
    fillna_number age m = Ok age' /\
    get_col "Gender" df = Some gender /\
    fillna_text gender "Unknown" = Ok gender' /\
    get_col "Location" df = Some location /\
    fillna_text location "Unknown" = Ok location' /\
    convert_date_columns W date_columns
      (set_col "Location" location' (set_col "Gender" gender' (set_col "Age" age' df)))
      = Ok df3 /\
    drop_duplicates "CustomerID" df3 = Ok df4 /\
    get_col "Monetary" df4 = Some monetary /\
    quantile monetary 0.25 = Ok Q1 /\
    quantile monetary 0.75 = Ok Q3 /\
    clip_upper monetary (Q3 + 1.5 * (Q3 - Q1))%float = Ok capped /\
    out = set_col "Monetary_Capped" capped df4.

(** A state after more lines have been printed. *)
Definition printed (st : state) (lines : list string) : state :=
  {| clock_reads := clock_reads st; stdout := (stdout st ++ lines)%list |}.

Definition banner : string :=
  "Starting data preparation for Customer Segmentation Dashboard..." ++ nl.

(** The state after a completed [clean_data]. *)
Definition cleaned_state (st : state) (out : DataFrame) : state :=
  {| clock_reads := clock_reads st;
     stdout := (stdout st ++ ["Cleaning data...";
                              ("Data cleaned. Final record count: " ++ str_nat (nrows out))%string])%list |}.

(** Dtypes of the column contract. *)
Definition is_numeric (s : Series) : bool :=
  match s with Float64 _ | Int64 _ => true | _ => false end.

Definition is_text (s : Series) : bool :=
  match s with Object _ => true | _ => false end.

Definition is_date_like (s : Series) : bool :=
  match s with Object _ | Datetime64 _ | Int64 _ => true | _ => false end.

(** A number that is neither NaN nor an infinity. *)
Definition is_finite (x : float) : bool :=
  match Prim2SF x with
  | S754_zero _ | S754_finite _ _ _ => true
  | S754_infinity _ | S754_nan => false
  end.

(** The columns [clean_data] assigns, the columns [add_derived_features]
    assigns, and the columns [generate_summary_stats] reads, in order. *)
Definition cleaned_columns : list string :=
  ["Age"; "Gender"; "Location"; "JoinDate"; "LastPurchaseDate"; "FirstPurchaseDate";
   "Monetary_Capped"].

Definition derived_columns : list string :=
  ["TenureMonths"; "DaysSinceLastPurchase"; "AvgDaysBetweenPurchases"; "AgeGroup";
   "RevenueTier"; "EstimatedCLV"].

Definition summary_columns : list string :=
  ["CustomerSegment"; "Recency"; "Frequency"; "Monetary"; "ActivityStatus"].

(** A table whose columns all have [n] rows. *)
Definition rectangular (n : nat) (df : DataFrame) : Prop :=
  Forall (fun c => series_len (snd c) = n) df.

(** The number of rows a mask keeps. *)
Definition count_true (mask : list bool) : nat := List.length (filter (fun b => b) mask).

(** ** A sample world and sample tables *)

Module Sample.

Definition digit (c : ascii) : option Z :=
  let n := Z.of_nat (nat_of_ascii c) in
  if (48 <=? n) && (n <=? 57) then Some (n - 48) else None.

Fixpoint digits (acc : Z) (s : string) : option Z :=
  match s with
  | EmptyString => Some acc
  | String c r =>
      match digit c with
      | Some d => digits (10 * acc + d) r
      | None => None
      end
  end.

(** Days from 1970-01-01 to a date of the proleptic Gregorian calendar. *)
Definition days_from_civil (y m d : Z) : Z :=
  let y' := if m <=? 2 then y - 1 else y in
  let era := y' / 400 in
  let yoe := y' - era * 400 in
  let doy := (153 * (m + (if 2 <? m then -3 else 9)) + 2) / 5 + d - 1 in
  let doe := yoe * 365 + yoe / 4 - yoe / 100 + doy in
  era * 146097 + doe - 719468.

(** A date parser that reads only [YYYY-MM-DD]; the empty string is NaT. *)
Definition iso_date (s : string) : option (option Z) :=
  if String.eqb s "" then Some None
  else if negb (Nat.eqb (String.length s) 10) then None
  else if negb (String.eqb (substring 4 1 s) "-" && String.eqb (substring 7 1 s) "-") then None
  else
    match digits 0 (substring 0 4 s), digits 0 (substring 5 2 s), digits 0 (substring 8 2 s) with
    | Some y, Some m, Some d =>
        if (1 <=? m) && (m <=? 12) && (1 <=? d) && (d <=? 31)
        then Some (Some (days_from_civil y m d * ns_per_day))
        else None
    | _, _, _ => None
    end.

(** Rows A, B, C: A and C share CustomerID 7, B has no Age. *)
Definition table : DataFrame := [
  ("CustomerID", Int64 [7; 8; 7]);
  ("Age", Float64 [30; PrimFloat.nan; 50]%float);
  ("Gender", Object [Some "F"; None; Some "M"]);
  ("Location", Object [Some "Pune"; Some "Delhi"; None]);
  ("JoinDate", Object [Some "2023-01-15"; Some "2022-06-01"; Some "2021-11-30"]);
  ("LastPurchaseDate", Object [Some "2024-02-20"; None; Some "2024-01-05"]);
  ("FirstPurchaseDate", Object [Some "2023-02-01"; Some "2022-06-10"; Some "2021-12-01"]);
  ("Monetary", Float64 [100; 250.5; 4000]%float);
  ("Frequency", Int64 [0; 5; 12]);
  ("CustomerLifetimeDays", Int64 [90; 400; 760]);
  ("PurchaseFrequencyRate", Float64 [0.01; 0.0125; 0.5]%float);
  ("Recency", Int64 [10; 300; 56]);
  ("CustomerSegment", Object [Some "New"; Some "At Risk"; Some "Loyal"]);
  ("ActivityStatus", Object [Some "Active"; Some "Inactive"; Some "Active"])
].

(** 2024-03-01 12:00:00, and a clock that advances 1 ms per reading. *)
Definition noon : Z := (days_from_civil 2024 3 1 * 24 + 12) * 3600000000000.

Definition world : World := {|
  datetime_now := fun k => noon + Z.of_nat k * 1000000;
  to_datetime_text := iso_date;
  pyodbc_connect := None;
  open_read := fun _ => inl "SELECT * FROM customer_segments";
  pd_read_sql := fun _ => inl table;
  os_makedirs := fun _ => None;
  df_to_csv := fun _ _ => None;
  str_value_counts := fun _ => "<counts>";
  fmt_mean := fun _ => Ok "<mean>"
|}.

Definition start : state := {| clock_reads := 0; stdout := [] |}.

(** The same world thirty days later. *)
Definition later_world : World := {|
  datetime_now := fun k => datetime_now world k + 30 * ns_per_day;
  to_datetime_text := to_datetime_text world;
  pyodbc_connect := pyodbc_connect world;
  open_read := open_read world;
  pd_read_sql := pd_read_sql world;
  os_makedirs := os_makedirs world;
  df_to_csv := df_to_csv world;
  str_value_counts := str_value_counts world;
  fmt_mean := fmt_mean world
|}.

(** [table] after [clean_data]. *)
Definition cleaned : DataFrame := [
  ("CustomerID", Int64 [7; 8]);
  ("Age", Float64 [30; 40]%float);
  ("Gender", Object [Some "F"; Some "Unknown"]);
  ("Location", Object [Some "Pune"; Some "Delhi"]);
  ("JoinDate", Datetime64 [Some 1673740800000000000; Some 1654041600000000000]);
  ("LastPurchaseDate", Datetime64 [Some 1708387200000000000; None]);
  ("FirstPurchaseDate", Datetime64 [Some 1675209600000000000; Some 1654819200000000000]);
  ("Monetary", Float64 [100; 250.5]%float);
  ("Frequency", Int64 [0; 5]);
  ("CustomerLifetimeDays", Int64 [90; 400]);
  ("PurchaseFrequencyRate", Float64 [0.01; 0.0125]%float);
  ("Recency", Int64 [10; 300]);
  ("CustomerSegment", Object [Some "New"; Some "At Risk"]);
  ("ActivityStatus", Object [Some "Active"; Some "Inactive"]);
  ("Monetary_Capped", Float64 [100; 250.5]%float)
].

(** [cleaned] with the join date of the second customer missing. *)
Definition cleaned_without_join_date : DataFrame :=
  set_col "JoinDate" (Datetime64 [Some 1673740800000000000; None]) cleaned.

(** [cleaned] after [add_derived_features] in [world]. *)
Definition derived : DataFrame :=
  (cleaned ++ [
    ("TenureMonths", Int64 [13; 21]);
    ("DaysSinceLastPurchase", Float64 [10; PrimFloat.nan]%float);
    ("AvgDaysBetweenPurchases", Float64 [90; 80]%float);
    ("AgeGroup", Category age_labels [Some "26-35"; Some "36-45"]);
    ("RevenueTier", Category revenue_labels [Some "Very Low"; Some "Low"]);
    ("EstimatedCLV", Float64 [465.00000000000006; 1393.40625]%float)
  ])%list.

(** Worlds with one fault each. *)
Definition with_faults (connect : option string) (sql : DataFrame + string)
    (csv : option string) : World := {|
  datetime_now := datetime_now world;
  to_datetime_text := to_datetime_text world;
  pyodbc_connect := connect;
  open_read := open_read world;
  pd_read_sql := fun _ => sql;
  os_makedirs := os_makedirs world;
  df_to_csv := fun _ _ => csv;
  str_value_counts := str_value_counts world;
  fmt_mean := fmt_mean world
|}.

Definition no_database : World :=
  with_faults (Some "Login timeout expired") (inl table) None.

Definition no_query_result : World :=
  with_faults None (inr "Invalid object name 'customers'") None.

Definition read_only_disk : World :=
  with_faults None (inl table) (Some "[Errno 13] Permission denied").

(** The query result without its Age column. *)
Definition table_without_age : DataFrame :=
  filter (fun c => negb (String.eqb (fst c) "Age")) table.

Definition no_age_column : World :=
  with_faults None (inl table_without_age) None.

(** A JoinDate that is not a date. *)
Definition table_bad_date : DataFrame :=
  set_col "JoinDate" (Object [Some "2023-01-15"; Some "15th of June"; Some "2021-11-30"])
    table.

(** Five customers, one of them an outlier in Monetary. *)
Definition spenders : DataFrame := [
  ("CustomerID", Int64 [1; 2; 3; 4; 5]);
  ("Age", Float64 [22; 31; 47; 58; 70]%float);
  ("Gender", Object [Some "F"; Some "M"; Some "F"; None; Some "M"]);
  ("Location", Object [Some "Pune"; Some "Delhi"; Some "Goa"; Some "Pune"; None]);
  ("Monetary", Float64 [100; 120; 130; 150; 4000]%float)
].

Definition spenders_cleaned : DataFrame :=
  Eval vm_compute in
    match fst (clean_data world spenders start) with
    | Ok df => df
    | _ => []
    end.

(** The query result without its CustomerSegment column. *)
Definition table_without_segment : DataFrame :=
  filter (fun c => negb (String.eqb (fst c) "CustomerSegment")) table.

Definition no_segment_column : World :=
  with_faults None (inl table_without_segment) None.

Definition table_without_segment_cleaned : DataFrame :=
  Eval vm_compute in
    match fst (clean_data world table_without_segment start) with
    | Ok df => df
    | _ => []
    end.

Definition table_without_segment_derived : DataFrame :=
  Eval vm_compute in
    match fst (add_derived_features world table_without_segment_cleaned start) with
    | Ok df => df
    | _ => []
    end.

Definition after (reads : nat) (lines : list string) : state :=
  {| clock_reads := reads; stdout := lines |}.

End Sample.

(** * Properties *)

(** ** The order of binary64 comparisons *)

Module B64Facts.
Import B64.

Lemma SFcompare_rank (x y : spec_float) :
  x <> S754_nan -> y <> S754_nan ->
  exists c, SFcompare x y = Some c /\
    (c = Lt <-> lex_lt (rank x) (rank y)) /\
    (c = Gt <-> lex_lt (rank y) (rank x)).
Proof.
  intros Hx Hy.
  destruct x as [sx|sx| |sx mx ex], y as [sy|sy| |sy my ey]; try congruence;
    try destruct sx; try destruct sy; cbn [SFcompare rank lex_lt];
    try (eexists; split; [reflexivity|]; split; split; intros; try lia; congruence).
  - destruct (Z.compare_spec ex ey) as [E|E|E].
    + rewrite Pos.compare_cont_spec.
      destruct (Pos.compare_spec mx my) as [F|F|F]; cbn [CompOpp Pos.switch_Eq];
        (eexists; split; [reflexivity|]; split; split; intros; try lia; congruence).
    + eexists; split; [reflexivity|]; split; split; intros; try lia; congruence.
    + eexists; split; [reflexivity|]; split; split; intros; try lia; congruence.
  - destruct (Z.compare_spec ex ey) as [E|E|E].
    + rewrite Pos.compare_cont_spec.
      destruct (Pos.compare_spec mx my) as [F|F|F]; cbn [Pos.switch_Eq];
        (eexists; split; [reflexivity|]; split; split; intros; try lia; congruence).
    + eexists; split; [reflexivity|]; split; split; intros; try lia; congruence.
    + eexists; split; [reflexivity|]; split; split; intros; try lia; congruence.
Qed.

Lemma isna_spec (x : float) : isna x = true <-> Prim2SF x = S754_nan.
Proof.
  unfold isna, Prim2SF. destruct (PrimFloat.is_nan x); [tauto|].
  split; [discriminate|].
  destruct (PrimFloat.is_zero x); [discriminate|].
  destruct (PrimFloat.is_infinity x); [discriminate|].
  destruct (Z.frexp x) as [r e].
  destruct (shr_fexp _ _ _ _ _) as [m e'].
  destruct (shr_m m); discriminate.
Qed.

Lemma isna_false (x : float) : isna x = false <-> Prim2SF x <> S754_nan.
Proof.
  rewrite <- isna_spec. destruct (isna x); split; congruence.
Qed.

Lemma ltb_lex (x y : float) :
  isna x = false -> isna y = false ->
  ((x <? y)%float = true <-> lex_lt (rank (Prim2SF x)) (rank (Prim2SF y))).
Proof.
  intros Hx%isna_false Hy%isna_false. rewrite FloatAxioms.ltb_spec. unfold SFltb.
  destruct (SFcompare_rank _ _ Hx Hy) as (c & -> & HLt & _).
  rewrite <- HLt. destruct c; split; congruence.
Qed.

Lemma leb_lex (x y : float) :
  isna x = false -> isna y = false ->
  ((x <=? y)%float = true <-> ~ lex_lt (rank (Prim2SF y)) (rank (Prim2SF x))).
Proof.
  intros Hx%isna_false Hy%isna_false. rewrite FloatAxioms.leb_spec. unfold SFleb.
  destruct (SFcompare_rank _ _ Hx Hy) as (c & -> & _ & HGt).
  rewrite <- HGt. destruct c; split; congruence.
Qed.

Lemma leb_not_nan (x y : float) :
  (x <=? y)%float = true -> isna x = false /\ isna y = false.
Proof.
  rewrite FloatAxioms.leb_spec. unfold SFleb. intros H.
  split; apply isna_false; intros E; rewrite E in H;
    [|destruct (Prim2SF x)]; discriminate.
Qed.

Lemma ltb_not_nan (x y : float) :
  (x <? y)%float = true -> isna x = false /\ isna y = false.
Proof.
  rewrite FloatAxioms.ltb_spec. unfold SFltb. intros H.
  split; apply isna_false; intros E; rewrite E in H;
    [|destruct (Prim2SF x)]; discriminate.
Qed.

Lemma lex_lt_trans p q r : lex_lt p q -> lex_lt q r -> lex_lt p r.
Proof.
  destruct p as [[a b] c], q as [[a' b'] c'], r as [[a'' b''] c''].
  unfold lex_lt. lia.
Qed.

Lemma lex_lt_total p q : lex_lt p q \/ ~ lex_lt p q.
Proof.
  destruct p as [[a b] c], q as [[a' b'] c']. unfold lex_lt. lia.
Qed.

Lemma lex_lt_irrefl p : ~ lex_lt p p.
Proof. destruct p as [[a b] c]. unfold lex_lt. lia. Qed.

Lemma leb_refl (x : float) : isna x = false -> (x <=? x)%float = true.
Proof.
  intros Hx. apply leb_lex; auto. apply lex_lt_irrefl.
Qed.

(** On numbers, [y < x] is the negation of [x <= y]. *)
Lemma ltb_negb_leb (x y : float) :
  isna x = false -> isna y = false ->
  (y <? x)%float = negb (x <=? y)%float.
Proof.
  intros Hx Hy.
  pose proof (ltb_lex y x Hy Hx) as HL. pose proof (leb_lex x y Hx Hy) as HE.
  destruct (y <? x)%float, (x <=? y)%float; cbn; try reflexivity; exfalso.
  - apply (proj1 HE); [reflexivity|]. apply HL. reflexivity.
  - destruct (lex_lt_total (rank (Prim2SF y)) (rank (Prim2SF x))) as [H|H].
    + apply HL in H. discriminate.
    + apply HE in H. discriminate.
Qed.

Lemma ltb_trans (x y z : float) :
  (x <? y)%float = true -> (y <? z)%float = true -> (x <? z)%float = true.
Proof.
  intros H1 H2.
  destruct (ltb_not_nan _ _ H1) as [Hx Hy]. destruct (ltb_not_nan _ _ H2) as [_ Hz].
  apply ltb_lex; auto.
  apply lex_lt_trans with (q := rank (Prim2SF y)); apply ltb_lex; auto.
Qed.

Lemma leb_ltb_false (x y : float) :
  (x <=? y)%float = true -> (y <? x)%float = false.
Proof.
  intros H. destruct (leb_not_nan _ _ H) as [Hx Hy].
  rewrite ltb_negb_leb, H; auto.
Qed.

Lemma not_leb_leb (x y : float) :
  isna x = false -> isna y = false ->
  (x <=? y)%float = false -> (y <=? x)%float = true.
Proof.
  intros Hx Hy H.
  apply leb_lex; auto. intros L.
  pose proof (leb_lex x y Hx Hy) as HE.
  assert (~ lex_lt (rank (Prim2SF y)) (rank (Prim2SF x))) as N.
  { intros L'. eapply lex_lt_irrefl. eapply lex_lt_trans; eauto. }
  apply HE in N. congruence.
Qed.

End B64Facts.

(** ** Sums and means of finite numbers are not NaN *)

Module B64Arith.

Lemma shr_1_nonneg (r : shr_record) : 0 <= shr_m r -> 0 <= shr_m (shr_1 r).
Proof.
  destruct r as [m b s]. cbn [shr_m]. intros H.
  destruct m as [|p|p]; [cbn; lia| |lia].
  destruct p; cbn; lia.
Qed.

Lemma iter_shr_1_nonneg (p : positive) (r : shr_record) :
  0 <= shr_m r -> 0 <= shr_m (iter_pos shr_1 p r).
Proof.
  revert r. induction p as [p IH|p IH|]; intros r H; cbn [iter_pos].
  - apply IH, IH, shr_1_nonneg, H.
  - apply IH, IH, H.
  - apply shr_1_nonneg, H.
Qed.

Lemma shr_fexp_nonneg (prec emax m e : Z) (l : location) :
  0 <= m -> 0 <= shr_m (fst (shr_fexp prec emax m e l)).
Proof.
  intros H. unfold shr_fexp, shr.
  assert (H0 : 0 <= shr_m (shr_record_of_loc m l)).
  { destruct l as [|[]]; exact H. }
  destruct (fexp prec emax (Zdigits2 m + e) - e); cbn [fst]; auto.
  now apply iter_shr_1_nonneg.
Qed.

Lemma binary_round_aux_not_nan (prec emax : Z) (sx : bool) (mx ex : Z) (lx : location) :
  0 <= mx -> binary_round_aux prec emax sx mx ex lx <> S754_nan.
Proof.
  intros H. unfold binary_round_aux.
  pose proof (shr_fexp_nonneg prec emax mx ex lx H) as H1.
  destruct (shr_fexp prec emax mx ex lx) as [mrs' e']. cbn [fst] in H1.
  assert (H2 : 0 <= round_nearest_even (shr_m mrs') (loc_of_shr_record mrs')).
  { unfold round_nearest_even. destruct (loc_of_shr_record mrs') as [|[]];
      try destruct (Z.even _); lia. }
  pose proof (shr_fexp_nonneg prec emax _ e' loc_Exact H2) as H3.
  destruct (shr_fexp prec emax _ e' loc_Exact) as [mrs'' e'']. cbn [fst] in H3.
  destruct (shr_m mrs'') as [|p|p]; [discriminate| |lia].
  destruct (e'' <=? emax - prec); discriminate.
Qed.

Lemma SFdiv_not_nan (prec emax : Z) (x : spec_float) sy my ey :
  x <> S754_nan -> SFdiv prec emax x (S754_finite sy my ey) <> S754_nan.
Proof.
  intros Hx. destruct x as [sx|sx| |sx mx ex]; cbn [SFdiv]; try discriminate; try congruence.
  unfold SFdiv_core_binary.
  set (m' := match _ - _ - _ with Z0 => _ | Zpos _ => _ | Zneg _ => _ end).
  assert (Hm : 0 <= m').
  { unfold m'. destruct (_ - _ - _); try lia. apply Z.shiftl_nonneg. lia. }
  pose proof (Z.div_pos m' (Z.pos my) Hm ltac:(lia)) as Hq.
  unfold Z.div in Hq. destruct (Z.div_eucl m' (Z.pos my)) as [q r].
  now apply binary_round_aux_not_nan.
Qed.

Lemma SFadd_not_nan (prec emax : Z) (x y : spec_float) :
  (forall s, x <> S754_infinity s) -> (forall s, y <> S754_infinity s) ->
  x <> S754_nan -> y <> S754_nan -> SFadd prec emax x y <> S754_nan.
Proof.
  intros Hx Hy Hnx Hny.
  destruct x as [sx|sx| |sx mx ex]; try congruence; [|];
    destruct y as [sy|sy| |sy my ey]; try congruence; cbn [SFadd];
    try (destruct sx, sy; discriminate); try discriminate.
  unfold binary_normalize.
    destruct (_ + _); [discriminate| |]; unfold binary_round;
      destruct (shl_align _ _ _); apply binary_round_aux_not_nan; lia.
Qed.

Lemma is_finite_spec (x : float) :
  is_finite x = true ->
  Prim2SF x <> S754_nan /\ forall s, Prim2SF x <> S754_infinity s.
Proof.
  unfold is_finite. destruct (Prim2SF x); try discriminate; split; intros; discriminate.
Qed.

Lemma finite_div_not_nan (x d : float) sy my ey :
  Prim2SF d = S754_finite sy my ey ->
  B64.isna x = false -> B64.isna (x / d)%float = false.
Proof.
  intros Hd Hx. apply B64Facts.isna_false. rewrite FloatAxioms.div_spec, Hd.
  apply SFdiv_not_nan. now apply B64Facts.isna_false.
Qed.

Lemma finite_add_not_nan (a b : float) :
  is_finite a = true -> is_finite b = true -> B64.isna (a + b)%float = false.
Proof.
  intros [Ha1 Ha2]%is_finite_spec [Hb1 Hb2]%is_finite_spec.
  apply B64Facts.isna_false. rewrite FloatAxioms.add_spec. now apply SFadd_not_nan.
Qed.

Lemma mean_of_one_not_nan (a : float) :
  is_finite a = true -> B64.isna (a / 1)%float = false.
Proof.
  intros Ha. apply (finite_div_not_nan a 1 false 4503599627370496 (-52) eq_refl).
  apply B64Facts.isna_false. now apply is_finite_spec.
Qed.

Lemma mean_of_two_not_nan (a b : float) :
  is_finite a = true -> is_finite b = true -> B64.isna ((a + b) / 2)%float = false.
Proof.
  intros Ha Hb. apply (finite_div_not_nan _ 2 false 4503599627370496 (-51) eq_refl).
  now apply finite_add_not_nan.
Qed.

End B64Arith.

(** ** Frames *)

Lemma get_col_set_col_same (n : string) (s : Series) (df : DataFrame) :
  get_col n (set_col n s df) = Some s.
Proof.
  induction df as [|[m s0] r IH]; cbn.
  - now rewrite String.eqb_refl.
  - destruct (String.eqb m n) eqn:E; cbn; rewrite E; auto.
Qed.

Lemma get_col_set_col_other (n m : string) (s : Series) (df : DataFrame) :
  String.eqb m n = false ->
  get_col n (set_col m s df) = get_col n df.
Proof.
  intros Hne. induction df as [|[k s0] r IH]; cbn.
  - now rewrite Hne.
  - destruct (String.eqb k m) eqn:E; cbn.
    + apply String.eqb_eq in E. subst k. now rewrite Hne.
    + destruct (String.eqb k n); auto.
Qed.

Lemma set_col_same_id (n : string) (s : Series) (df : DataFrame) :
  get_col n df = Some s -> set_col n s df = df.
Proof.
  induction df as [|[m s0] r IH]; cbn; [discriminate|].
  destruct (String.eqb m n) eqn:E.
  - intros [= ->]. reflexivity.
  - intros H. now rewrite IH.
Qed.

Lemma get_col_frame_select (n : string) (mask : list bool) (df : DataFrame) :
  get_col n (frame_select mask df) = option_map (series_select mask) (get_col n df).
Proof.
  induction df as [|[m s0] r IH]; cbn; [reflexivity|].
  destruct (String.eqb m n); auto.
Qed.

Lemma zip_with_map_r {A B B' C} (f : A -> B' -> C) (g : B -> B') xs ys :
  zip_with f xs (map g ys) = zip_with (fun x y => f x (g y)) xs ys.
Proof.
  revert ys. induction xs as [|x r IH]; intros [|y s]; cbn; f_equal; auto.
Qed.

(** ** Running the script *)

Lemma bind_inv {A B} (m : M A) (f : A -> M B) st b st' :
  bind m f st = (Ok b, st') ->
  exists a st1, m st = (Ok a, st1) /\ f a st1 = (Ok b, st').
Proof.
  unfold bind. destruct (m st) as [[a|e|w] st1]; try discriminate. eauto.
Qed.

Lemma lift_inv {A} (r : result A) st a st' :
  lift r st = (Ok a, st') -> r = Ok a /\ st' = st.
Proof. unfold lift. intros [= -> ->]. auto. Qed.

Lemma rbind_inv {A B} (r : result A) (f : A -> result B) b :
  rbind r f = Ok b -> exists a, r = Ok a /\ f a = Ok b.
Proof. destruct r; cbn; try discriminate. eauto. Qed.

Lemma getitem_inv df n s : getitem df n = Ok s -> get_col n df = Some s.
Proof. unfold getitem. destruct (get_col n df); congruence. Qed.

(** One step back through a run that ended in [Ok]. *)
Ltac run_step H :=
  let a := fresh "v" in
  let s := fresh "s" in
  let E := fresh "E" in
  apply bind_inv in H; destruct H as (a & s & E & H); cbv beta zeta in H;
  apply lift_inv in E; destruct E as [E ->];
  cbn [clock_reads stdout] in E;
  try (injection E as <-).

Ltac run_inv H := repeat run_step H.

(** Column look-ups through the assignments made so far. *)
Ltac cols :=
  repeat first
    [ rewrite get_col_set_col_same
    | rewrite get_col_set_col_other by reflexivity ].

(** One step forward, by an equation on the value the step computes. *)
Ltac run_fwd H := cols; rewrite H; cbv beta iota zeta.

Ltac cols_in H :=
  repeat first
    [ rewrite get_col_set_col_same in H
    | rewrite get_col_set_col_other in H by reflexivity ].

(** ** The feature derivation stage *)

(** What a completed run of [add_derived_features] has computed: the six
    assignments, in order, each from columns of the input table. *)
Lemma add_derived_features_inv (W : World) (df : DataFrame) (st : state) out st' :
  add_derived_features W df st = (Ok out, st') ->
  exists tenure days avg groups tiers clv,
    out = set_col "EstimatedCLV" clv
            (set_col "RevenueTier" tiers
               (set_col "AgeGroup" groups
                  (set_col "AvgDaysBetweenPurchases" avg
                     (set_col "DaysSinceLastPurchase" days
                        (set_col "TenureMonths" tenure df))))) /\
    (exists join d m,
        get_col "JoinDate" df = Some join /\
        days_since (datetime_now W (clock_reads st)) join = Ok d /\
        series_div_int d 30 = Ok m /\ astype_int m = Ok tenure) /\
    (exists last,
        get_col "LastPurchaseDate" df = Some last /\
        days_since (datetime_now W (S (clock_reads st))) last = Ok days) /\
    (exists lifetime frequency replaced,
        get_col "CustomerLifetimeDays" df = Some lifetime /\
        get_col "Frequency" df = Some frequency /\
        replace_0_1 frequency = Ok replaced /\
        series_div lifetime replaced = Ok avg) /\
    (exists age,
        get_col "Age" df = Some age /\ cut age age_bins age_labels = Ok groups) /\
    (exists monetary,
        get_col "Monetary" df = Some monetary /\
        cut monetary revenue_bins revenue_labels = Ok tiers) /\
    (exists monetary rate yearly factor,
        get_col "Monetary" df = Some monetary /\
        get_col "PurchaseFrequencyRate" df = Some rate /\
        series_mul_int rate 365 = Ok yearly /\
        series_radd_int 1 yearly = Ok factor /\
        series_mul monetary factor = Ok clv).
Proof.
  intros H. unfold add_derived_features in H. run_inv H.
  unfold ret in H. injection H as <- <-.
  repeat match goal with
         | E : getitem _ _ = Ok _ |- _ => apply getitem_inv in E; cols_in E
         end.
  do 6 eexists. split; [reflexivity|].
  repeat apply conj; eauto 12.
Qed.

(** ** Age groups (C6) *)

Ltac bins_below H :=
  match type of H with
  | (?c <? ?a)%float = true =>
      rewrite ?H;
      repeat match goal with
        | |- context [(?b <? a)%float] =>
            rewrite (B64Facts.ltb_trans b c a eq_refl H)
        end
  end.

Lemma age_group_of (a : float) :
  ((0 <? a)%float = true -> (a <=? 100)%float = true ->
     exists l, In l age_labels /\ cut_cell age_bins age_labels a = Some l) /\
  ((0 <? a)%float = true -> (a <=? 25)%float = true ->
     cut_cell age_bins age_labels a = Some "18-25") /\
  ((25 <? a)%float = true -> (a <=? 35)%float = true ->
     cut_cell age_bins age_labels a = Some "26-35") /\
  ((35 <? a)%float = true -> (a <=? 45)%float = true ->
     cut_cell age_bins age_labels a = Some "36-45") /\
  ((45 <? a)%float = true -> (a <=? 55)%float = true ->
     cut_cell age_bins age_labels a = Some "46-55") /\
  ((55 <? a)%float = true -> (a <=? 65)%float = true ->
     cut_cell age_bins age_labels a = Some "56-65") /\
  ((65 <? a)%float = true -> (a <=? 100)%float = true ->
     cut_cell age_bins age_labels a = Some "65+") /\
  ((a <=? 0)%float = true \/ (100 <? a)%float = true ->
     cut_cell age_bins age_labels a = None) /\
  cut_cell age_bins age_labels 25 = Some "18-25" /\
  cut_cell age_bins age_labels 25.0001 = Some "26-35".
Proof.
  assert (Hbin : forall lo hi l n,
             (lo <? a)%float = true -> (a <=? hi)%float = true ->
             searchsorted_left age_bins a = S n ->
             nth_error age_labels n = Some l ->
             cut_cell age_bins age_labels a = Some l).
  { intros lo hi l n Hlo Hhi Hs Hl. unfold cut_cell.
    destruct (B64Facts.ltb_not_nan _ _ Hlo) as [_ ->].
    rewrite Hs.
    assert (Hn : (n < List.length age_labels)%nat)
      by (apply nth_error_Some; rewrite Hl; discriminate).
    cbn in Hn.
    replace (Nat.eqb (S n) 0) with false by reflexivity.
    replace (Nat.eqb (S n) (List.length age_bins)) with false
      by (symmetry; apply Nat.eqb_neq; cbn; lia).
    cbn [orb]. now replace (S n - 1)%nat with n by lia. }
  assert (H1 : (0 <? a)%float = true -> (a <=? 25)%float = true ->
               cut_cell age_bins age_labels a = Some "18-25").
  { intros Hlo Hhi. apply (Hbin _ _ _ 0%nat Hlo Hhi); [|reflexivity].
    cbn [searchsorted_left age_bins]. rewrite Hlo.
    now rewrite (B64Facts.leb_ltb_false _ _ Hhi). }
  assert (H2 : (25 <? a)%float = true -> (a <=? 35)%float = true ->
               cut_cell age_bins age_labels a = Some "26-35").
  { intros Hlo Hhi. apply (Hbin _ _ _ 1%nat Hlo Hhi); [|reflexivity].
    cbn [searchsorted_left age_bins]. bins_below Hlo.
    now rewrite (B64Facts.leb_ltb_false _ _ Hhi). }
  assert (H3 : (35 <? a)%float = true -> (a <=? 45)%float = true ->
               cut_cell age_bins age_labels a = Some "36-45").
  { intros Hlo Hhi. apply (Hbin _ _ _ 2%nat Hlo Hhi); [|reflexivity].
    cbn [searchsorted_left age_bins]. bins_below Hlo.
    now rewrite (B64Facts.leb_ltb_false _ _ Hhi). }
  assert (H4 : (45 <? a)%float = true -> (a <=? 55)%float = true ->
               cut_cell age_bins age_labels a = Some "46-55").
  { intros Hlo Hhi. apply (Hbin _ _ _ 3%nat Hlo Hhi); [|reflexivity].
    cbn [searchsorted_left age_bins]. bins_below Hlo.
    now rewrite (B64Facts.leb_ltb_false _ _ Hhi). }
  assert (H5 : (55 <? a)%float = true -> (a <=? 65)%float = true ->
               cut_cell age_bins age_labels a = Some "56-65").
  { intros Hlo Hhi. apply (Hbin _ _ _ 4%nat Hlo Hhi); [|reflexivity].
    cbn [searchsorted_left age_bins]. bins_below Hlo.
    now rewrite (B64Facts.leb_ltb_false _ _ Hhi). }
  assert (H6 : (65 <? a)%float = true -> (a <=? 100)%float = true ->
               cut_cell age_bins age_labels a = Some "65+").
  { intros Hlo Hhi. apply (Hbin _ _ _ 5%nat Hlo Hhi); [|reflexivity].
    cbn [searchsorted_left age_bins]. bins_below Hlo.
    now rewrite (B64Facts.leb_ltb_false _ _ Hhi). }
  repeat split; auto.
  - intros Hlo Hhi.
    destruct (B64Facts.ltb_not_nan _ _ Hlo) as [_ Ha].
    assert (Hsplit : forall b, B64.isna b = false ->
               (b <? a)%float = true \/ (a <=? b)%float = true).
    { intros b Hb. rewrite (B64Facts.ltb_negb_leb a b Ha Hb).
      destruct (a <=? b)%float; auto. }
    destruct (Hsplit 25%float eq_refl) as [L25|U25];
      [|exists "18-25"; split; [cbn; tauto|auto]].
    destruct (Hsplit 35%float eq_refl) as [L35|U35];
      [|exists "26-35"; split; [cbn; tauto|auto]].
    destruct (Hsplit 45%float eq_refl) as [L45|U45];
      [|exists "36-45"; split; [cbn; tauto|auto]].
    destruct (Hsplit 55%float eq_refl) as [L55|U55];
      [|exists "46-55"; split; [cbn; tauto|auto]].
    destruct (Hsplit 65%float eq_refl) as [L65|U65];
      [|exists "56-65"; split; [cbn; tauto|auto]].
    exists "65+"; split; [cbn; tauto|auto].
  - intros [Hle|Hgt]; unfold cut_cell.
    + destruct (B64Facts.leb_not_nan _ _ Hle) as [-> _].
      cbn [searchsorted_left age_bins].
      now rewrite (B64Facts.leb_ltb_false _ _ Hle).
    + destruct (B64Facts.ltb_not_nan _ _ Hgt) as [_ ->].
      cbn [searchsorted_left age_bins]. bins_below Hgt. reflexivity.
Qed.

(** C6: the AgeGroup column holds [cut_cell age_bins age_labels] of every
    Age; on (0, 100] that is the one label whose bin (lo, hi] contains the
    age, 25 falls in 18-25 and 25.0001 in 26-35; outside (0, 100] the group
    is missing, and nothing is raised. *)
Theorem C6_age_group_bins :
  (forall (W : World) (df : DataFrame) (st : state) out st' age ages,
      get_col "Age" df = Some age -> as_floats age = Ok ages ->
      add_derived_features W df st = (Ok out, st') ->
      get_col "AgeGroup" out
        = Some (Category age_labels (map (cut_cell age_bins age_labels) ages))) /\
  (forall a : float,
      ((0 <? a)%float = true -> (a <=? 100)%float = true ->
         exists l, In l age_labels /\ cut_cell age_bins age_labels a = Some l) /\
      ((0 <? a)%float = true -> (a <=? 25)%float = true ->
         cut_cell age_bins age_labels a = Some "18-25") /\
      ((25 <? a)%float = true -> (a <=? 35)%float = true ->
         cut_cell age_bins age_labels a = Some "26-35") /\
      ((35 <? a)%float = true -> (a <=? 45)%float = true ->
         cut_cell age_bins age_labels a = Some "36-45") /\
      ((45 <? a)%float = true -> (a <=? 55)%float = true ->
         cut_cell age_bins age_labels a = Some "46-55") /\
      ((55 <? a)%float = true -> (a <=? 65)%float = true ->
         cut_cell age_bins age_labels a = Some "56-65") /\
      ((65 <? a)%float = true -> (a <=? 100)%float = true ->
         cut_cell age_bins age_labels a = Some "65+") /\
      ((a <=? 0)%float = true \/ (100 <? a)%float = true ->
         cut_cell age_bins age_labels a = None) /\
      cut_cell age_bins age_labels 25 = Some "18-25" /\
      cut_cell age_bins age_labels 25.0001 = Some "26-35").
Proof.
  split; [|exact age_group_of].
  intros W df st out st' age ages Ha Hf Hrun.
  apply add_derived_features_inv in Hrun.
  destruct Hrun as (tenure & days & avg & groups & tiers & clv & -> & _ & _ & _ & Hg & _).
  destruct Hg as (age0 & Ha0 & Hcut).
  rewrite Ha in Ha0. injection Ha0 as <-.
  unfold cut in Hcut. rewrite Hf in Hcut. cbn [rbind] in Hcut. injection Hcut as <-.
  cols. reflexivity.
Qed.

Lemma zip_with_ext_r {A B C} (f g : A -> B -> C) (P : B -> Prop) xs ys :
  (forall x y, P y -> f x y = g x y) ->
  Forall P ys -> zip_with f xs ys = zip_with g xs ys.
Proof.
  intros Hfg HP. revert xs.
  induction HP as [|y s Hy _ IH]; intros [|x r]; cbn; try reflexivity.
  f_equal; auto.
Qed.

(** C8: with a purchase count that is a non-negative integer, the average
    is CustomerLifetimeDays / max(Frequency, 1) on every row; the division
    step returns, and Frequency 0 with CustomerLifetimeDays 90 gives 90. *)
Theorem C8_avg_days_between_purchases
    (W : World) (df : DataFrame) (st : state) out st' lifetime cs fr :
  get_col "CustomerLifetimeDays" df = Some lifetime ->
  as_floats lifetime = Ok cs ->
  get_col "Frequency" df = Some (Int64 fr) ->
  Forall (fun f => 0 <= f) fr ->
  let expected :=
    Float64 (zip_with (fun c f => (c / B64.of_Z (Z.max f 1))%float) cs fr) in
  rbind (replace_0_1 (Int64 fr)) (series_div lifetime) = Ok expected /\
  (add_derived_features W df st = (Ok out, st') ->
   get_col "AvgDaysBetweenPurchases" out = Some expected) /\
  rbind (replace_0_1 (Int64 [0])) (series_div (Int64 [90])) = Ok (Float64 [90%float]).
Proof.
  intros Hl Hcs Hf Hpos expected.
  assert (Hstep : rbind (replace_0_1 (Int64 fr)) (series_div lifetime) = Ok expected).
  { cbn [replace_0_1 rbind]. unfold series_div. rewrite Hcs. cbn [rbind as_floats].
    unfold expected. do 2 f_equal. rewrite !zip_with_map_r.
    apply zip_with_ext_r with (P := fun f => 0 <= f); [|exact Hpos].
    intros c f Hf0. do 2 f_equal.
    destruct (Z.eqb_spec f 0); lia. }
  split; [exact Hstep|]. split; [|reflexivity].
  intros Hrun. apply add_derived_features_inv in Hrun.
  destruct Hrun as (tenure & days & avg & groups & tiers & clv & -> & _ & _ & Havg & _).
  destruct Havg as (lifetime' & frequency & replaced & Hl' & Hf' & Hr & Hd).
  cols. rewrite Hl in Hl'. rewrite Hf in Hf'.
  injection Hl' as <-. injection Hf' as <-.
  cbn [rbind] in Hstep. rewrite Hr in Hstep. cbn [rbind] in Hstep. congruence.
Qed.

(** C9 as stated fails: a row with Monetary 100 and PurchaseFrequencyRate
    0.01 gets 465.00000000000006, which is not equal to 465.0. *)
Lemma C9_counterexample :
  exists out st' clv rest,
    add_derived_features Sample.world Sample.cleaned Sample.start = (Ok out, st') /\
    get_col "Monetary" out = Some (Float64 [100; 250.5]%float) /\
    get_col "PurchaseFrequencyRate" out = Some (Float64 [0.01; 0.0125]%float) /\
    get_col "EstimatedCLV" out = Some (Float64 (clv :: rest)) /\
    (clv =? 465)%float = false.
Proof.
  exists Sample.derived,
         (Sample.after 2 ["Adding derived features..."; "Derived features added"]),
         465.00000000000006%float, [1393.40625%float].
  repeat split; vm_compute; reflexivity.
Qed.

(** C9, amended: EstimatedCLV is Monetary * (1 + PurchaseFrequencyRate * 365)
    evaluated in binary64, each operation rounded; the three column
    operations return, and for Monetary 100 and rate 0.01 the value is
    465.00000000000006. *)
Theorem C9_estimated_clv_binary64
    (W : World) (df : DataFrame) (st : state) out st' ms rs :
  get_col "Monetary" df = Some (Float64 ms) ->
  get_col "PurchaseFrequencyRate" df = Some (Float64 rs) ->
  let expected :=
    Float64 (zip_with (fun m r => (m * (1 + r * 365))%float) ms rs) in
  rbind (series_mul_int (Float64 rs) 365)
    (fun yearly => rbind (series_radd_int 1 yearly) (series_mul (Float64 ms)))
    = Ok expected /\
  (add_derived_features W df st = (Ok out, st') ->
   get_col "EstimatedCLV" out = Some expected) /\
  (100 * (1 + 0.01 * 365))%float = 465.00000000000006%float.
Proof.
  intros Hm Hr expected.
  assert (Hstep : rbind (series_mul_int (Float64 rs) 365)
            (fun yearly => rbind (series_radd_int 1 yearly) (series_mul (Float64 ms)))
          = Ok expected).
  { cbn [series_mul_int series_radd_int series_mul rbind as_floats].
    unfold expected. do 2 f_equal. rewrite map_map, zip_with_map_r. reflexivity. }
  split; [exact Hstep|]. split; [|reflexivity].
  intros Hrun. apply add_derived_features_inv in Hrun.
  destruct Hrun as (tenure & days & avg & groups & tiers & clv & -> & _ & _ & _ & _ & _ & Hclv).
  destruct Hclv as (monetary & rate & yearly & factor & Hm' & Hr' & Hy & Hf & Hc).
  cols. rewrite Hm in Hm'. rewrite Hr in Hr'.
  injection Hm' as <-. injection Hr' as <-.
  rewrite Hy in Hstep. cbn [rbind] in Hstep. rewrite Hf in Hstep. cbn [rbind] in Hstep.
  congruence.
Qed.

(** C5 as stated fails: the stage has no [now] parameter, and the same
    table run under two clocks, thirty days apart, gives two different
    tables. *)
Lemma C5_counterexample :
  exists out1 out2 st1 st2,
    add_derived_features Sample.world Sample.cleaned Sample.start = (Ok out1, st1) /\
    add_derived_features Sample.later_world Sample.cleaned Sample.start = (Ok out2, st2) /\
    get_col "TenureMonths" out1 = Some (Int64 [13; 21]) /\
    get_col "TenureMonths" out2 = Some (Int64 [14; 22]) /\
    get_col "DaysSinceLastPurchase" out1 = Some (Float64 [10; PrimFloat.nan]%float) /\
    get_col "DaysSinceLastPurchase" out2 = Some (Float64 [40; PrimFloat.nan]%float).
Proof.
  do 4 eexists. repeat apply conj; vm_compute; reflexivity.
Qed.

(** C5, amended: the stage reads the ambient clock twice, and its result
    depends on the world only through those two readings: two runs on the
    same table that see the same two readings return the same result. *)
Theorem C5_determined_by_two_clock_readings
    (W1 W2 : World) (st1 st2 : state) (df : DataFrame) :
  datetime_now W1 (clock_reads st1) = datetime_now W2 (clock_reads st2) ->
  datetime_now W1 (S (clock_reads st1)) = datetime_now W2 (S (clock_reads st2)) ->
  fst (add_derived_features W1 df st1) = fst (add_derived_features W2 df st2).
Proof.
  intros H1 H2.
  unfold add_derived_features, bind, print, now, lift, ret.
  cbn [clock_reads stdout]. rewrite H1, H2.
  repeat match goal with
         | |- context [match ?r with Ok _ => _ | Raise _ => _ | Unmodelled _ => _ end] =>
             destruct r; cbn [fst]
         end; reflexivity.
Qed.

(** ** Missing dates (C3) *)

Lemma trunc_all_nan (f : option Z -> float) (ts : list (option Z)) :
  B64.trunc (f None / B64.of_Z 30)%float = None ->
  In None ts ->
  trunc_all (map (fun x => (x / B64.of_Z 30)%float) (map f ts)) = Raise IntCastingNaNError.
Proof.
  intros Hnan. induction ts as [|o r IH]; intros Hin; [destruct Hin|].
  cbn [map trunc_all]. destruct Hin as [->|Hin].
  - now rewrite Hnan.
  - destruct (B64.trunc (f o / B64.of_Z 30)%float); [|reflexivity].
    rewrite IH by assumption. reflexivity.
Qed.

(** A missing JoinDate on any row makes the whole stage raise. *)
Lemma missing_join_date_raises (W : World) (df : DataFrame) (st : state) ts :
  get_col "JoinDate" df = Some (Datetime64 ts) ->
  In None ts ->
  fst (add_derived_features W df st) = Raise IntCastingNaNError.
Proof.
  intros Hj Hin.
  unfold add_derived_features, bind, print, now, lift, getitem.
  cbn [clock_reads stdout]. rewrite Hj.
  unfold days_since.
  replace (forallb _ ts) with false.
  2:{ symmetry. apply Bool.not_true_is_false. intros Hall.
      rewrite forallb_forall in Hall. specialize (Hall None Hin). discriminate. }
  cbn [series_div_int as_floats rbind astype_int].
  rewrite trunc_all_nan; [reflexivity|reflexivity|assumption].
Qed.

(** C3 fails on the code: with one JoinDate missing the stage raises and
    returns no table, while a missing LastPurchaseDate only leaves that
    row's DaysSinceLastPurchase missing. *)
Theorem C3_missing_join_date_aborts_the_stage :
  fst (add_derived_features Sample.world Sample.cleaned_without_join_date Sample.start)
    = Raise IntCastingNaNError /\
  get_col "LastPurchaseDate" Sample.cleaned
    = Some (Datetime64 [Some 1708387200000000000; None]) /\
  fst (add_derived_features Sample.world Sample.cleaned Sample.start)
    = Ok Sample.derived /\
  get_col "DaysSinceLastPurchase" Sample.derived
    = Some (Float64 [10; PrimFloat.nan]%float).
Proof. repeat split; vm_compute; reflexivity. Qed.

(** ** The cleaning stage *)

Lemma clean_data_inv (W : World) (df : DataFrame) (st : state) out st' :
  clean_data W df st = (Ok out, st') ->
  clean_data_steps W df out /\ st' = cleaned_state st out.
Proof.
  intros H. unfold clean_data in H. run_inv H.
  unfold ret in H. injection H as <- <-.
  repeat match goal with
         | E : getitem _ _ = Ok _ |- _ => apply getitem_inv in E; cols_in E
         end.
  split.
  - unfold clean_data_steps.
    match goal with
    | A : get_col "Monetary" _ = Some ?a, B : get_col "Monetary" _ = Some ?b,
      C : get_col "Monetary" _ = Some ?c |- _ =>
        rewrite A in B; injection B as <-; rewrite A in C; injection C as <-
    end.
    do 13 eexists. repeat apply conj; eauto.
  - unfold cleaned_state. cbn [clock_reads stdout].
    rewrite <- !app_assoc. reflexivity.
Qed.

Lemma clean_data_run (W : World) (df : DataFrame) (st : state) out :
  clean_data_steps W df out ->
  clean_data W df st = (Ok out, cleaned_state st out).
Proof.
  intros (age & m & age' & gender & gender' & location & location' & df3 & df4
          & monetary & Q1 & Q3 & capped
          & Ha & Hm & Ha' & Hg & Hg' & Hl & Hl' & Hc & Hd & Hmon & HQ1 & HQ3 & Hcap & ->).
  unfold clean_data, bind, print, lift, ret, getitem.
  run_fwd Ha; run_fwd Hm; run_fwd Ha'; run_fwd Hg; run_fwd Hg'; run_fwd Hl;
    run_fwd Hl'; run_fwd Hc; run_fwd Hd; run_fwd Hmon; run_fwd HQ1; run_fwd HQ3;
    run_fwd Hcap.
  unfold cleaned_state. cbn [clock_reads stdout].
  rewrite <- !app_assoc. reflexivity.
Qed.

(** *** Masks *)

Lemma select_length_le {A} (mask : list bool) (xs : list A) :
  (List.length (select mask xs) <= List.length (filter (fun b => b) mask))%nat.
Proof.
  revert xs. induction mask as [|b m IH]; intros [|x r]; cbn [select filter List.length];
    try lia.
  specialize (IH r). destruct b; cbn [List.length]; lia.
Qed.

Lemma select_length_eq {A} (mask : list bool) (xs : list A) :
  List.length xs = List.length mask ->
  List.length (select mask xs) = List.length (filter (fun b => b) mask).
Proof.
  revert xs. induction mask as [|b m IH]; intros [|x r]; cbn [select filter List.length];
    try lia.
  intros [= H]. specialize (IH r H). destruct b; cbn [List.length]; lia.
Qed.

Lemma select_map {A B} (f : A -> B) (mask : list bool) (xs : list A) :
  select mask (map f xs) = map f (select mask xs).
Proof.
  revert xs. induction mask as [|b m IH]; intros [|x r]; cbn; try reflexivity.
  rewrite IH. now destruct b.
Qed.

Lemma select_Forall {A} (P : A -> Prop) (mask : list bool) (xs : list A) :
  Forall P xs -> Forall P (select mask xs).
Proof.
  intros H. revert mask. induction H as [|x r Hx _ IH]; intros [|b m]; cbn; auto.
  destruct b; auto.
Qed.

Lemma select_all_true {A} (mask : list bool) (xs : list A) :
  Forall (fun b => b = true) mask ->
  (List.length xs <= List.length mask)%nat ->
  select mask xs = xs.
Proof.
  intros H. revert xs. induction H as [|b m -> _ IH]; intros [|x r]; cbn; try lia; auto.
  intros Hl. f_equal. apply IH. lia.
Qed.

Lemma keys_series_select (mask : list bool) (s : Series) :
  keys (series_select mask s) = select mask (keys s).
Proof. destruct s; cbn; now rewrite select_map. Qed.

Lemma series_len_select_le (mask : list bool) (s : Series) :
  (series_len (series_select mask s) <= List.length (filter (fun b => b) mask))%nat.
Proof. destruct s; cbn; apply select_length_le. Qed.

Lemma first_mask_length (seen ks : list key) :
  List.length (first_mask seen ks) = List.length ks.
Proof. revert seen. induction ks as [|k r IH]; intros seen; cbn; auto. Qed.

Lemma mem_key_true (k : key) (seen : list key) : mem_key k seen = true <-> In k seen.
Proof. unfold mem_key. destruct (in_dec key_eq_dec k seen); split; auto; discriminate. Qed.

Lemma mem_key_false (k : key) (seen : list key) : mem_key k seen = false <-> ~ In k seen.
Proof. unfold mem_key. destruct (in_dec key_eq_dec k seen); split; auto; try discriminate; tauto. Qed.

(** The rows kept carry pairwise different keys, none of them seen before. *)
Lemma first_mask_NoDup (seen ks : list key) :
  NoDup (select (first_mask seen ks) ks) /\
  forall k, In k (select (first_mask seen ks) ks) -> ~ In k seen.
Proof.
  revert seen. induction ks as [|k r IH]; intros seen; cbn.
  - split; [constructor|tauto].
  - destruct (IH (k :: seen)) as [Hnd Hout].
    destruct (mem_key k seen) eqn:E; cbn.
    + split; [exact Hnd|]. intros k' Hin Hs. apply (Hout k' Hin). now right.
    + apply mem_key_false in E. split.
      * constructor; [|exact Hnd]. intros Hin. apply (Hout k Hin). now left.
      * intros k' [<-|Hin]; [exact E|]. intros Hs. apply (Hout k' Hin). now right.
Qed.

(** A row is kept exactly when no earlier row carries its key. *)
Lemma first_mask_first (seen pre : list key) (k : key) (post : list key) :
  nth (List.length pre) (first_mask seen (pre ++ k :: post)) false = true <->
  ~ In k pre /\ ~ In k seen.
Proof.
  revert seen. induction pre as [|p r IH]; intros seen; cbn.
  - destruct (mem_key k seen) eqn:E; cbn.
    + apply mem_key_true in E. split; [discriminate|tauto].
    + apply mem_key_false in E. tauto.
  - rewrite IH. cbn. tauto.
Qed.

(** A table without duplicates keeps all its rows. *)
Lemma first_mask_again (seen seen' ks : list key) :
  (forall k, In k seen' -> In k seen) ->
  Forall (fun b => b = true)
    (first_mask seen' (select (first_mask seen ks) ks)).
Proof.
  revert seen seen'. induction ks as [|k r IH]; intros seen seen' Hsub; cbn.
  - constructor.
  - destruct (mem_key k seen) eqn:E; cbn.
    + apply IH. intros k' H. right. auto.
    + constructor.
      * apply mem_key_false in E.
        destruct (mem_key k seen') eqn:E'; [|reflexivity].
        apply mem_key_true in E'. elim E. auto.
      * apply IH. intros k' [->|H]; [now left|right; auto].
Qed.

Lemma frame_select_id (mask : list bool) (df : DataFrame) :
  Forall (fun b => b = true) mask ->
  Forall (fun c => (series_len (snd c) <= List.length mask)%nat) df ->
  frame_select mask df = df.
Proof.
  intros Hm Hdf. unfold frame_select.
  induction Hdf as [|[n s] r Hs _ IH]; cbn; [reflexivity|].
  rewrite IH. f_equal. f_equal. cbn in Hs.
  destruct s; cbn in *; now rewrite select_all_true.
Qed.

Lemma frame_select_lengths (mask : list bool) (df : DataFrame) :
  Forall (fun c => (series_len (snd c) <= List.length (filter (fun b => b) mask))%nat)
         (frame_select mask df).
Proof.
  unfold frame_select. induction df as [|[n s] r IH]; cbn; constructor; auto.
  cbn. apply series_len_select_le.
Qed.

Lemma set_col_lengths (n : string) (s : Series) (df : DataFrame) (bound : nat) :
  (series_len s <= bound)%nat ->
  Forall (fun c => (series_len (snd c) <= bound)%nat) df ->
  Forall (fun c => (series_len (snd c) <= bound)%nat) (set_col n s df).
Proof.
  intros Hs H. induction H as [|[m s0] r Hc Hr IH]; cbn.
  - constructor; auto.
  - destruct (String.eqb m n); constructor; auto.
Qed.

Lemma get_col_lengths (n : string) (s : Series) (df : DataFrame) (bound : nat) :
  Forall (fun c => (series_len (snd c) <= bound)%nat) df ->
  get_col n df = Some s -> (series_len s <= bound)%nat.
Proof.
  intros H. induction H as [|[m s0] r Hc Hr IH]; cbn; [discriminate|].
  destruct (String.eqb m n); auto. intros [= <-]. exact Hc.
Qed.

(** *** Date columns *)

Lemma to_datetime_shape (W : World) (s s' : Series) :
  to_datetime W s = Ok s' -> exists ts, s' = Datetime64 ts.
Proof.
  destruct s; cbn; intros H; try discriminate.
  - injection H as <-. eauto.
  - apply rbind_inv in H. destruct H as (ts & _ & [= <-]). eauto.
  - injection H as <-. eauto.
Qed.

Lemma convert_date_column_inv (W : World) (c : string) (df df' : DataFrame) :
  convert_date_column W c df = Ok df' ->
  (get_col c df = None /\ df' = df) \/
  (exists s ts, get_col c df = Some s /\ to_datetime W s = Ok (Datetime64 ts) /\
                df' = set_col c (Datetime64 ts) df).
Proof.
  unfold convert_date_column. destruct (get_col c df) as [s|]; intros H.
  - right. apply rbind_inv in H. destruct H as (s' & Hs & [= <-]).
    destruct (to_datetime_shape _ _ _ Hs) as [ts ->]. eauto.
  - left. injection H as <-. auto.
Qed.

(** Columns outside the list are left as they are. *)
Lemma convert_date_columns_other (W : World) (cols : list string) (df df' : DataFrame) n :
  convert_date_columns W cols df = Ok df' ->
  ~ In n cols -> get_col n df' = get_col n df.
Proof.
  revert df. induction cols as [|c r IH]; intros df H Hn; cbn in H.
  - now injection H as <-.
  - apply rbind_inv in H. destruct H as (df1 & H1 & H2).
    rewrite (IH _ H2) by (intros Hin; apply Hn; now right).
    apply convert_date_column_inv in H1.
    destruct H1 as [[_ ->]|(s & ts & _ & _ & ->)]; [reflexivity|].
    apply get_col_set_col_other. apply String.eqb_neq. intros ->. apply Hn. now left.
Qed.

(** A column of the list ends as the conversion of what it was. *)
Lemma convert_date_columns_col (W : World) (cols : list string) (df df' : DataFrame) c :
  NoDup cols -> In c cols ->
  convert_date_columns W cols df = Ok df' ->
  match get_col c df with
  | None => get_col c df' = None
  | Some s => exists ts, to_datetime W s = Ok (Datetime64 ts) /\
                         get_col c df' = Some (Datetime64 ts)
  end.
Proof.
  intros Hnd. revert df. induction Hnd as [|c0 r Hc0 Hnd IH]; intros df Hin H;
    [destruct Hin|].
  cbn in H. apply rbind_inv in H. destruct H as (df1 & H1 & H2).
  apply convert_date_column_inv in H1. destruct Hin as [->|Hin].
  - rewrite (convert_date_columns_other _ _ _ _ c H2 Hc0).
    destruct H1 as [[E ->]|(s & ts & E & Hs & ->)]; rewrite E; [reflexivity|].
    exists ts. split; [exact Hs|]. apply get_col_set_col_same.
  - specialize (IH df1 Hin H2).
    assert (Hsame : get_col c df1 = get_col c df).
    { destruct H1 as [[_ ->]|(s & ts & _ & _ & ->)]; [reflexivity|].
      apply get_col_set_col_other. apply String.eqb_neq. intros ->. contradiction. }
    now rewrite Hsame in IH.
Qed.

(** Converted columns are converted to themselves. *)
Lemma convert_date_columns_id (W : World) (cols : list string) (df : DataFrame) :
  (forall c s, In c cols -> get_col c df = Some s -> exists ts, s = Datetime64 ts) ->
  convert_date_columns W cols df = Ok df.
Proof.
  induction cols as [|c r IH]; intros H; cbn; [reflexivity|].
  unfold convert_date_column.
  destruct (get_col c df) as [s|] eqn:E; cbn.
  - destruct (H c s (or_introl eq_refl) E) as [ts ->]. cbn.
    rewrite (set_col_same_id _ _ _ E). apply IH. intros c' s' Hin. apply H. now right.
  - apply IH. intros c' s' Hin. apply H. now right.
Qed.

Lemma date_columns_NoDup : NoDup date_columns.
Proof.
  unfold date_columns. repeat constructor; cbn; intros H;
    repeat (destruct H as [H|H]; [discriminate H|]); exact H.
Qed.

(** [parse_all] returns, or raises on a string that is not a date. *)
Lemma parse_all_total (W : World) (xs : list (option string)) :
  (exists ts, parse_all W xs = Ok ts) \/
  (exists text, In (Some text) xs /\ to_datetime_text W text = None /\
                parse_all W xs = Raise (ParserError text)).
Proof.
  induction xs as [|[text|] r IH]; cbn.
  - left. eauto.
  - destruct (to_datetime_text W text) as [t|] eqn:E.
    + destruct IH as [[ts ->]|(t' & Hin & Ht & ->)]; cbn; [left; eauto|].
      right. exists t'. auto.
    + right. exists text. auto.
  - destruct IH as [[ts ->]|(t' & Hin & Ht & ->)]; cbn; [left; eauto|].
    right. exists t'. auto.
Qed.

Lemma parse_all_raises (W : World) (xs : list (option string)) text :
  In (Some text) xs -> to_datetime_text W text = None ->
  exists text', In (Some text') xs /\ to_datetime_text W text' = None /\
                parse_all W xs = Raise (ParserError text').
Proof.
  intros Hin Hbad.
  destruct (parse_all_total W xs) as [[ts Hok]|H]; [|exact H]. exfalso.
  revert ts Hok. induction xs as [|[t|] r IH]; intros ts Hok; [destruct Hin| |].
  - cbn in Hok. destruct Hin as [[= ->]|Hin].
    + rewrite Hbad in Hok. discriminate.
    + destruct (to_datetime_text W t); [|discriminate].
      apply rbind_inv in Hok. destruct Hok as (ts' & Hok & _). eauto.
  - cbn in Hok. destruct Hin as [[=]|Hin].
    apply rbind_inv in Hok. destruct Hok as (ts' & Hok & _). eauto.
Qed.

(** A date column holding a string that is not a date stops the loop of
    lines 76-78 with a [ParserError]. *)
Lemma convert_date_columns_raises (W : World) (cols : list string) (df : DataFrame) c xs text :
  NoDup cols ->
  (forall c' s, In c' cols -> get_col c' df = Some s -> is_date_like s = true) ->
  In c cols -> get_col c df = Some (Object xs) ->
  In (Some text) xs -> to_datetime_text W text = None ->
  exists text', to_datetime_text W text' = None /\
                convert_date_columns W cols df = Raise (ParserError text').
Proof.
  intros Hnd. revert df. induction Hnd as [|c0 r Hc0 Hnd IH];
    intros df Hlike Hin Hc Htext Hbad; [destruct Hin|].
  cbn [convert_date_columns]. unfold convert_date_column.
  destruct Hin as [->|Hin].
  - rewrite Hc. cbn [to_datetime].
    destruct (parse_all_raises W xs text Htext Hbad) as (t' & _ & Ht' & ->).
    cbn. eauto.
  - assert (Hne : String.eqb c0 c = false).
    { apply String.eqb_neq. intros ->. contradiction. }
    assert (Hstep : forall s', exists text',
               to_datetime_text W text' = None /\
               convert_date_columns W r (set_col c0 s' df) = Raise (ParserError text')).
    { intros s'. apply IH; auto.
      - intros c' s Hc' Hs.
        rewrite get_col_set_col_other in Hs.
        + apply (Hlike c' s); auto. now right.
        + apply String.eqb_neq. intros ->. contradiction.
      - now rewrite get_col_set_col_other. }
    destruct (get_col c0 df) as [s0|] eqn:E0.
    + pose proof (Hlike c0 s0 (or_introl eq_refl) E0) as Hl.
      destruct s0; try discriminate Hl; cbn [to_datetime rbind].
      * apply Hstep.
      * destruct (parse_all_total W xs0) as [[ts ->]|(t' & _ & Ht' & ->)]; cbn.
        -- apply Hstep.
        -- eauto.
      * apply Hstep.
    + cbn [rbind]. apply IH; auto. intros c' s Hc'. apply Hlike. now right.
Qed.

(** *** Imputation *)

Lemma median_numeric (s : Series) :
  is_numeric s = true -> exists xs, as_floats s = Ok xs /\ median s = Ok (np_median xs).
Proof.
  destruct s; try discriminate; intros _; eexists; split; reflexivity.
Qed.

Lemma fillna_number_numeric (s : Series) (v : float) :
  is_numeric s = true -> exists s', fillna_number s v = Ok s' /\ is_numeric s' = true.
Proof.
  destruct s; try discriminate; intros _; eexists; split; reflexivity.
Qed.

Lemma fillna_text_text (s : Series) (v : string) :
  is_text s = true -> exists s', fillna_text s v = Ok s' /\ is_text s' = true.
Proof.
  destruct s; try discriminate; intros _; eexists; split; reflexivity.
Qed.

(** The three imputations leave the date columns alone. *)
Lemma imputed_date_column (c : string) (a g l : Series) (df : DataFrame) :
  In c date_columns ->
  get_col c (set_col "Location" l (set_col "Gender" g (set_col "Age" a df))) = get_col c df.
Proof.
  unfold date_columns. cbn [In].
  intros [<-|[<-|[<-|[]]]]; cols; reflexivity.
Qed.

(** The run of [clean_data] up to the date conversion, when the three
    imputed columns have the dtypes of the column contract. *)
Lemma clean_data_until_dates (W : World) (df : DataFrame) age gender location :
  get_col "Age" df = Some age -> is_numeric age = true ->
  get_col "Gender" df = Some gender -> is_text gender = true ->
  get_col "Location" df = Some location -> is_text location = true ->
  exists age' gender' location',
    forall st e,
      convert_date_columns W date_columns
        (set_col "Location" location' (set_col "Gender" gender' (set_col "Age" age' df)))
        = Raise e ->
      clean_data W df st
        = (Raise e, {| clock_reads := clock_reads st;
                       stdout := (stdout st ++ ["Cleaning data..."])%list |}).
Proof.
  intros Ha Hna Hg Hng Hl Hnl.
  destruct (median_numeric age Hna) as (xs & _ & Hm).
  destruct (fillna_number_numeric age (np_median xs) Hna) as (age' & Ha' & _).
  destruct (fillna_text_text gender "Unknown" Hng) as (gender' & Hg' & _).
  destruct (fillna_text_text location "Unknown" Hnl) as (location' & Hl' & _).
  exists age', gender', location'. intros st e Hc.
  unfold clean_data, bind, print, lift, ret, getitem.
  run_fwd Ha; run_fwd Hm; run_fwd Ha'; run_fwd Hg; run_fwd Hg'; run_fwd Hl;
    run_fwd Hl'; run_fwd Hc.
  reflexivity.
Qed.

(** C10: when a date column that is present holds a string that is not a
    date, [clean_data] raises the parser's error instead of returning a
    table, and [main] lets that error through: the run ends there. *)
Theorem C10_unparseable_date_aborts_the_run
    (W : World) (df : DataFrame) (st : state) age gender location c xs text :
  get_col "Age" df = Some age -> is_numeric age = true ->
  get_col "Gender" df = Some gender -> is_text gender = true ->
  get_col "Location" df = Some location -> is_text location = true ->
  (forall c' s, In c' date_columns -> get_col c' df = Some s -> is_date_like s = true) ->
  In c date_columns -> get_col c df = Some (Object xs) ->
  In (Some text) xs -> to_datetime_text W text = None ->
  exists text',
    to_datetime_text W text' = None /\
    fst (clean_data W df st) = Raise (ParserError text') /\
    (forall query,
        pyodbc_connect W = None ->
        open_read W "src/segmentation_query.sql" = inl query ->
        pd_read_sql W query = inl df ->
        fst (main W st) = Raise (ParserError text')).
Proof.
  intros Ha Hna Hg Hng Hl Hnl Hlike Hc Hxs Htext Hbad.
  destruct (clean_data_until_dates W df age gender location Ha Hna Hg Hng Hl Hnl)
    as (age' & gender' & location' & Hrun).
  destruct (convert_date_columns_raises W date_columns
              (set_col "Location" location' (set_col "Gender" gender' (set_col "Age" age' df)))
              c xs text date_columns_NoDup) as (text' & Hbad' & Hconv); auto.
  - intros c' s Hc'. rewrite imputed_date_column by assumption. now apply Hlike.
  - now rewrite imputed_date_column.
  - exists text'. split; [exact Hbad'|]. split.
    + now rewrite (Hrun st _ Hconv).
    + intros query Hconn Hopen Hsql.
      unfold main, create_connection, fetch_customer_data, conn_close,
        load_segmentation_query, try_except, bind, print, lift, ret.
      rewrite Hconn. cbv beta iota zeta. rewrite Hopen. cbv beta iota zeta.
      rewrite Hsql. cbv beta iota zeta. now rewrite (Hrun _ _ Hconv).
Qed.

(** *** Outlier capping (C2) *)

Lemma clip_floats_length (u : float) (xs : list float) :
  List.length (clip_floats u xs) = List.length xs.
Proof. unfold clip_floats. destruct (B64.isna u); [reflexivity|apply length_map]. Qed.

Lemma clip_floats_nth (u : float) (xs : list float) (i : nat) (m c : float) :
  nth_error xs i = Some m -> nth_error (clip_floats u xs) i = Some c ->
  c = if B64.isna u then m else clip_cell u m.
Proof.
  unfold clip_floats. intros Hm Hc. destruct (B64.isna u).
  - congruence.
  - rewrite nth_error_map, Hm in Hc. cbn in Hc. congruence.
Qed.

Lemma clip_cell_bounds (u m : float) :
  B64.isna m = false -> B64.isna u = false ->
  (clip_cell u m <=? m)%float = true /\ (clip_cell u m <=? u)%float = true.
Proof.
  intros Hm Hu. unfold clip_cell. rewrite Hm. cbn [orb].
  destruct (m <=? u)%float eqn:E.
  - split; [now apply B64Facts.leb_refl|exact E].
  - split; [now apply B64Facts.not_leb_leb|now apply B64Facts.leb_refl].
Qed.

Lemma clip_cell_below (u m : float) : (m <=? u)%float = true -> clip_cell u m = m.
Proof. intros H. unfold clip_cell. rewrite H. now rewrite Bool.orb_true_r. Qed.

Lemma clip_cell_cases (u m : float) : clip_cell u m = m \/ clip_cell u m = u.
Proof. unfold clip_cell. destruct (_ || _)%bool; auto. Qed.

(** C2: in the table [clean_data] returns, with Q1 and Q3 the quartiles of
    its Monetary column and the fence Q3 + 1.5 (Q3 - Q1), every capped value
    is at most the row's Monetary and at most the fence, and a value at or
    below the fence, however low, is kept as it is. *)
Theorem C2_monetary_capped_bounds
    (W : World) (df : DataFrame) (st : state) out st' ms :
  clean_data W df st = (Ok out, st') ->
  get_col "Monetary" out = Some (Float64 ms) ->
  let Q1 := np_quantile ms 0.25 in
  let Q3 := np_quantile ms 0.75 in
  let fence := (Q3 + 1.5 * (Q3 - Q1))%float in
  exists caps,
    get_col "Monetary_Capped" out = Some (Float64 caps) /\
    List.length caps = List.length ms /\
    forall i m c,
      nth_error ms i = Some m -> nth_error caps i = Some c ->
      (B64.isna m = false -> B64.isna fence = false ->
       (c <=? m)%float = true /\ (c <=? fence)%float = true) /\
      ((m <=? fence)%float = true -> c = m) /\
      (c = m \/ c = fence).
Proof.
  intros Hrun Hmon Q1 Q3 fence.
  apply clean_data_inv in Hrun.
  destruct Hrun as [(age & m & age' & gender & gender' & location & location' & df3 & df4
          & monetary & q1 & q3 & capped
          & _ & _ & _ & _ & _ & _ & _ & _ & _ & Hm & HQ1 & HQ3 & Hcap & ->) _].
  cols_in Hmon. rewrite Hm in Hmon. injection Hmon as ->.
  cbn in HQ1, HQ3. injection HQ1 as <-. injection HQ3 as <-.
  cbn in Hcap. injection Hcap as <-.
  exists (clip_floats fence ms). cols.
  split; [reflexivity|]. split; [apply clip_floats_length|].
  intros i x c Hx Hc.
  pose proof (clip_floats_nth fence ms i x c Hx Hc) as Hcx.
  split; [|split].
  - intros Hnm Hnf. rewrite Hcx, Hnf. now apply clip_cell_bounds.
  - intros Hle. rewrite Hcx.
    destruct (B64Facts.leb_not_nan _ _ Hle) as [_ ->]. now apply clip_cell_below.
  - rewrite Hcx. destruct (B64.isna fence); [now left|apply clip_cell_cases].
Qed.

(** *** The order of the cleaning steps (C1) *)

Lemma not_date_column (n : string) :
  (if in_dec string_dec n date_columns then true else false) = false ->
  ~ In n date_columns.
Proof. destruct (in_dec string_dec n date_columns); [discriminate|auto]. Qed.

(** C1: [clean_data] imputes first (Age with the median of all rows of the
    input, Gender and Location with "Unknown"), then converts the date
    columns, then keeps the first row of every CustomerID in input order,
    and last caps Monetary with the quartiles of the rows that are left. *)
Theorem C1_cleaning_steps_in_order
    (W : World) (df : DataFrame) (st : state) out st' ages genders locations ids :
  get_col "Age" df = Some (Float64 ages) ->
  get_col "Gender" df = Some (Object genders) ->
  get_col "Location" df = Some (Object locations) ->
  get_col "CustomerID" df = Some ids ->
  clean_data W df st = (Ok out, st') ->
  let mask := first_mask [] (keys ids) in
  (* imputation, over all rows of the input *)
  get_col "Age" out
    = Some (Float64 (select mask (fillna_float (np_median ages) ages))) /\
  get_col "Gender" out = Some (Object (select mask (fillna_object "Unknown" genders))) /\
  get_col "Location" out
    = Some (Object (select mask (fillna_object "Unknown" locations))) /\
  (* date columns *)
  (forall c s, In c date_columns -> get_col c df = Some s ->
     exists ts, to_datetime W s = Ok (Datetime64 ts) /\
                get_col c out = Some (Datetime64 (select mask ts))) /\
  (* deduplication: first row of each key, input order *)
  get_col "CustomerID" out = Some (series_select mask ids) /\
  NoDup (keys (series_select mask ids)) /\
  (forall pre k post, keys ids = (pre ++ k :: post)%list ->
     (nth (List.length pre) mask false = true <-> ~ In k pre)) /\
  (* capping, from the rows that are left *)
  (exists monetary Q1 Q3 capped,
     get_col "Monetary" df = Some monetary /\
     get_col "Monetary" out = Some (series_select mask monetary) /\
     quantile (series_select mask monetary) 0.25 = Ok Q1 /\
     quantile (series_select mask monetary) 0.75 = Ok Q3 /\
     clip_upper (series_select mask monetary) (Q3 + 1.5 * (Q3 - Q1))%float = Ok capped /\
     get_col "Monetary_Capped" out = Some capped).
Proof.
  intros Ha Hg Hl Hid Hrun mask.
  apply clean_data_inv in Hrun.
  destruct Hrun as [(age & m & age' & gender & gender' & location & location' & df3 & df4
          & monetary & q1 & q3 & capped
          & Ha0 & Hm & Ha' & Hg0 & Hg' & Hl0 & Hl' & Hc & Hd & Hmon & HQ1 & HQ3 & Hcap & ->) _].
  rewrite Ha in Ha0. injection Ha0 as <-.
  rewrite Hg in Hg0. injection Hg0 as <-.
  rewrite Hl in Hl0. injection Hl0 as <-.
  cbn in Hm. injection Hm as <-.
  cbn in Ha'. injection Ha' as <-.
  cbn in Hg'. injection Hg' as <-.
  cbn in Hl'. injection Hl' as <-.
  assert (Hother : forall n, ~ In n date_columns ->
             get_col n df3
             = get_col n (set_col "Location" (Object (fillna_object "Unknown" locations))
                            (set_col "Gender" (Object (fillna_object "Unknown" genders))
                               (set_col "Age" (Float64 (fillna_float (np_median ages) ages)) df)))).
  { intros n Hn. apply (convert_date_columns_other _ _ _ _ n Hc Hn). }
  unfold drop_duplicates in Hd.
  rewrite (Hother "CustomerID") in Hd by (apply not_date_column; reflexivity).
  cols_in Hd. rewrite Hid in Hd. injection Hd as <-. fold mask.
  repeat apply conj.
  - cols. rewrite get_col_frame_select, Hother by (apply not_date_column; reflexivity).
    cols. reflexivity.
  - cols. rewrite get_col_frame_select, Hother by (apply not_date_column; reflexivity).
    cols. reflexivity.
  - cols. rewrite get_col_frame_select, Hother by (apply not_date_column; reflexivity).
    cols. reflexivity.
  - intros c s Hin Hs.
    pose proof (convert_date_columns_col _ _ _ _ c date_columns_NoDup Hin Hc) as Hcol.
    rewrite imputed_date_column, Hs in Hcol by assumption.
    destruct Hcol as (ts & Hts & Hcol). exists ts. split; [exact Hts|].
    rewrite get_col_set_col_other.
    + rewrite get_col_frame_select, Hcol. reflexivity.
    + unfold date_columns in Hin. cbn [In] in Hin.
      destruct Hin as [<-|[<-|[<-|[]]]]; reflexivity.
  - cols. rewrite get_col_frame_select, Hother by (apply not_date_column; reflexivity).
    cols. rewrite Hid. reflexivity.
  - rewrite keys_series_select. apply first_mask_NoDup.
  - intros pre k post Hk. unfold mask. rewrite Hk, first_mask_first. cbn. tauto.
  - rewrite get_col_frame_select, Hother in Hmon by (apply not_date_column; reflexivity).
    cols_in Hmon.
    destruct (get_col "Monetary" df) as [mon0|] eqn:Emon; [|discriminate].
    cbn in Hmon. injection Hmon as <-.
    exists mon0, q1, q3, capped. repeat apply conj; auto.
    + cols. rewrite get_col_frame_select, Hother by (apply not_date_column; reflexivity).
      cols. rewrite Emon. reflexivity.
    + cols. reflexivity.
Qed.

(** *** Running the stage twice (C7) *)

Lemma insert_In (x y : float) (l : list float) :
  In y (B64.insert x l) -> y = x \/ In y l.
Proof.
  induction l as [|z r IH]; cbn.
  - intros [<-|[]]. now left.
  - destruct (x <=? z)%float; cbn.
    + intros [<-|H]; auto.
    + intros [<-|H]; [auto|]. destruct (IH H); auto.
Qed.

Lemma sort_In (y : float) (l : list float) : In y (B64.sort l) -> In y l.
Proof.
  induction l as [|x r IH]; cbn; [tauto|].
  intros H. apply insert_In in H. destruct H as [->|H]; auto.
Qed.

Lemma insert_length (x : float) (l : list float) :
  List.length (B64.insert x l) = S (List.length l).
Proof.
  induction l as [|z r IH]; cbn; [reflexivity|].
  destruct (x <=? z)%float; cbn; auto.
Qed.

Lemma sort_length (l : list float) : List.length (B64.sort l) = List.length l.
Proof.
  unfold B64.sort. induction l as [|x r IH]; cbn [fold_right]; [reflexivity|].
  now rewrite insert_length, IH.
Qed.

(** The median of a column with a finite value in it is a number. *)
Lemma np_median_defined (xs : list float) :
  Forall (fun x => B64.isna x = true \/ is_finite x = true) xs ->
  B64.dropna xs <> [] ->
  B64.isna (np_median xs) = false.
Proof.
  intros Hfin Hne. unfold np_median.
  set (v := B64.sort (B64.dropna xs)).
  assert (Hv : forall x, In x v -> is_finite x = true).
  { intros x Hx. apply sort_In in Hx. unfold B64.dropna in Hx.
    apply filter_In in Hx. destruct Hx as [Hin Hna].
    rewrite Forall_forall in Hfin. destruct (Hfin x Hin) as [H|H]; [|exact H].
    rewrite H in Hna. discriminate. }
  assert (Hlen : List.length v <> 0%nat).
  { unfold v. rewrite sort_length. destruct (B64.dropna xs); [congruence|discriminate]. }
  destruct (List.length v) as [|n] eqn:E; [congruence|].
  assert (Hnth : forall k, (k < S n)%nat -> is_finite (nth k v PrimFloat.nan) = true).
  { intros k Hk. apply Hv, nth_In. now rewrite E. }
  assert (Hhalf : (S n / 2 < S n)%nat) by (apply Nat.div_lt; lia).
  destruct (Nat.odd (S n)).
  - apply B64Arith.mean_of_one_not_nan, Hnth, Hhalf.
  - apply B64Arith.mean_of_two_not_nan; apply Hnth; lia.
Qed.

Lemma np_median_all_nan (xs : list float) :
  B64.dropna xs = [] -> np_median xs = PrimFloat.nan.
Proof. intros H. unfold np_median. now rewrite H. Qed.

Lemma fillna_float_id (v : float) (xs : list float) :
  Forall (fun x => B64.isna x = false) xs -> fillna_float v xs = xs.
Proof.
  intros H. unfold fillna_float. induction H as [|x r Hx _ IH]; cbn; [reflexivity|].
  now rewrite Hx, IH.
Qed.

Lemma fillna_float_nan (xs : list float) :
  Forall (fun x => x = PrimFloat.nan) xs -> fillna_float PrimFloat.nan xs = xs.
Proof.
  intros H. unfold fillna_float. induction H as [|x r -> _ IH]; cbn; [reflexivity|].
  now rewrite IH.
Qed.

Lemma dropna_all_nan (xs : list float) :
  Forall (fun x => x = PrimFloat.nan) xs -> B64.dropna xs = [].
Proof.
  intros H. induction H as [|x r -> _ IH]; cbn; [reflexivity|]. exact IH.
Qed.

Lemma dropna_nil_fill (v : float) (xs : list float) :
  B64.dropna xs = [] -> Forall (fun x => x = v) (fillna_float v xs).
Proof.
  unfold B64.dropna, fillna_float. induction xs as [|x r IH]; cbn; [constructor|].
  destruct (B64.isna x); cbn; [|discriminate]. intros H. constructor; auto.
Qed.

Lemma fillna_float_filled (v : float) (xs : list float) :
  B64.isna v = false -> Forall (fun x => B64.isna x = false) (fillna_float v xs).
Proof.
  intros Hv. unfold fillna_float. induction xs as [|x r IH]; cbn; constructor; auto.
  destruct (B64.isna x) eqn:E; auto.
Qed.

(** After the imputation and any selection of rows, a second imputation
    changes nothing. *)
Lemma fillna_float_settled (mask : list bool) (xs : list float) :
  Forall (fun x => B64.isna x = true \/ is_finite x = true) xs ->
  let sel := select mask (fillna_float (np_median xs) xs) in
  fillna_float (np_median sel) sel = sel.
Proof.
  intros Hfin sel.
  destruct (B64.dropna xs) as [|x0 r0] eqn:E.
  - assert (Hall : Forall (fun x => x = PrimFloat.nan) sel).
    { apply select_Forall. rewrite (np_median_all_nan xs E). now apply dropna_nil_fill. }
    rewrite (np_median_all_nan sel (dropna_all_nan sel Hall)).
    now apply fillna_float_nan.
  - apply fillna_float_id, select_Forall, fillna_float_filled.
    apply np_median_defined; [exact Hfin|]. rewrite E. discriminate.
Qed.

Lemma fillna_object_id (v : string) (xs : list (option string)) :
  Forall (fun o => o <> None) xs -> fillna_object v xs = xs.
Proof.
  intros H. unfold fillna_object. induction H as [|[x|] r Hx _ IH]; cbn;
    [reflexivity| |congruence].
  now rewrite IH.
Qed.

Lemma fillna_object_filled (v : string) (xs : list (option string)) :
  Forall (fun o => o <> None) (fillna_object v xs).
Proof.
  unfold fillna_object. induction xs as [|[x|] r IH]; cbn; constructor; auto; discriminate.
Qed.

Lemma fillna_text_settled (mask : list bool) (s s' : Series) (v : string) :
  fillna_text s v = Ok s' ->
  fillna_text (series_select mask s') v = Ok (series_select mask s').
Proof.
  destruct s; cbn; intros H; try discriminate; injection H as <-; cbn; [reflexivity|].
  now rewrite fillna_object_id by (apply select_Forall, fillna_object_filled).
Qed.

Lemma fillna_number_settled (mask : list bool) (s s' : Series) (m : float) :
  (forall xs, s = Float64 xs ->
              Forall (fun x => B64.isna x = true \/ is_finite x = true) xs) ->
  median s = Ok m -> fillna_number s m = Ok s' ->
  exists m', median (series_select mask s') = Ok m' /\
             fillna_number (series_select mask s') m' = Ok (series_select mask s').
Proof.
  intros Hfin Hm Hf. destruct s; cbn in *; try discriminate.
  - injection Hm as <-. injection Hf as <-. cbn. eexists. split; [reflexivity|].
    f_equal. f_equal. now apply fillna_float_settled, Hfin.
  - injection Hf as <-. cbn. eexists. split; reflexivity.
Qed.

Lemma clip_upper_length (s c : Series) (u : float) :
  clip_upper s u = Ok c -> series_len c = series_len s.
Proof.
  destruct s; cbn; intros H; try discriminate.
  - injection H as <-. cbn. apply clip_floats_length.
  - destruct (_ || _)%bool; injection H as <-; cbn; [reflexivity|].
    now rewrite clip_floats_length, length_map.
Qed.

(** C7: when every Age is a finite number or missing, the table that
    [clean_data] returns is returned unchanged by a second [clean_data]. *)
Theorem C7_clean_data_idempotent
    (W : World) (df : DataFrame) (st : state) out st' :
  (forall ages, get_col "Age" df = Some (Float64 ages) ->
                Forall (fun a => B64.isna a = true \/ is_finite a = true) ages) ->
  clean_data W df st = (Ok out, st') ->
  clean_data W out st' = (Ok out, cleaned_state st' out).
Proof.
  intros Hfin Hrun. apply clean_data_inv in Hrun.
  destruct Hrun as [(age & m & age' & gender & gender' & location & location' & df3 & df4
          & monetary & q1 & q3 & capped
          & Ha & Hm & Ha' & Hg & Hg' & Hl & Hl' & Hc & Hd & Hmon & HQ1 & HQ3 & Hcap & ->) _].
  unfold drop_duplicates in Hd.
  destruct (get_col "CustomerID" df3) as [ids|] eqn:Eid; [|discriminate].
  injection Hd as <-.
  set (mask := first_mask [] (keys ids)) in *.
  set (out := set_col "Monetary_Capped" capped (frame_select mask df3)).
  assert (Hother : forall n, ~ In n date_columns ->
             get_col n df3
             = get_col n (set_col "Location" location'
                            (set_col "Gender" gender' (set_col "Age" age' df)))).
  { intros n Hn. apply (convert_date_columns_other _ _ _ _ n Hc Hn). }
  assert (Fage : get_col "Age" out = Some (series_select mask age')).
  { unfold out. cols. rewrite get_col_frame_select, Hother
      by (apply not_date_column; reflexivity). cols. reflexivity. }
  assert (Fgender : get_col "Gender" out = Some (series_select mask gender')).
  { unfold out. cols. rewrite get_col_frame_select, Hother
      by (apply not_date_column; reflexivity). cols. reflexivity. }
  assert (Flocation : get_col "Location" out = Some (series_select mask location')).
  { unfold out. cols. rewrite get_col_frame_select, Hother
      by (apply not_date_column; reflexivity). cols. reflexivity. }
  assert (Fid : get_col "CustomerID" out = Some (series_select mask ids)).
  { unfold out. cols. rewrite get_col_frame_select, Eid. reflexivity. }
  destruct (fillna_number_settled mask age age' m) as (m' & Hm' & Ha''); auto.
  { intros xs ->. now apply Hfin. }
  apply clean_data_run.
  exists (series_select mask age'), m', (series_select mask age'),
    (series_select mask gender'), (series_select mask gender'),
    (series_select mask location'), (series_select mask location'),
    out, out, monetary, q1, q3, capped.
  rewrite (set_col_same_id "Age" _ out Fage).
  rewrite (set_col_same_id "Gender" _ out Fgender).
  rewrite (set_col_same_id "Location" _ out Flocation).
  repeat apply conj; auto.
  - cols_in Hg. eapply fillna_text_settled; eauto.
  - cols_in Hl. eapply fillna_text_settled; eauto.
  - apply convert_date_columns_id. intros c s Hin Hs.
    unfold out in Hs. rewrite get_col_set_col_other in Hs.
    2:{ unfold date_columns in Hin. cbn [In] in Hin.
        destruct Hin as [<-|[<-|[<-|[]]]]; reflexivity. }
    rewrite get_col_frame_select in Hs.
    pose proof (convert_date_columns_col _ _ _ _ c date_columns_NoDup Hin Hc) as Hcol.
    destruct (get_col c (set_col "Location" location' _)) as [s0|].
    + destruct Hcol as (ts & _ & Hcol). rewrite Hcol in Hs. cbn in Hs.
      injection Hs as <-. eauto.
    + rewrite Hcol in Hs. discriminate.
  - unfold drop_duplicates. rewrite Fid. f_equal.
    apply frame_select_id.
    + rewrite keys_series_select. apply first_mask_again. auto.
    + rewrite first_mask_length, keys_series_select.
      rewrite select_length_eq by (unfold mask; now rewrite first_mask_length).
      unfold out. apply set_col_lengths; [|apply frame_select_lengths].
      rewrite (clip_upper_length _ _ _ Hcap).
      eapply get_col_lengths; [apply frame_select_lengths|exact Hmon].
  - unfold out. cols. exact Hmon.
  - symmetry. apply set_col_same_id. unfold out. now cols.
Qed.

(** ** Faults at the boundaries (C4) *)

Lemma create_connection_raises (W : World) (st : state) err :
  pyodbc_connect W = Some err ->
  create_connection W st
    = (Ok None, printed st ["Error connecting to database: " ++ err]).
Proof.
  intros H. unfold create_connection, try_except, bind, print, lift, ret.
  rewrite H. reflexivity.
Qed.

Lemma create_connection_returns (W : World) (st : state) :
  pyodbc_connect W = None ->
  create_connection W st = (Ok (Some tt), printed st ["Database connection successful"]).
Proof.
  intros H. unfold create_connection, try_except, bind, print, lift, ret.
  rewrite H. reflexivity.
Qed.

Lemma fetch_customer_data_raises (W : World) (st : state) err :
  open_read W "src/segmentation_query.sql" = inr err \/
  (exists query, open_read W "src/segmentation_query.sql" = inl query /\
                 pd_read_sql W query = inr err) ->
  fetch_customer_data W tt st = (Ok None, printed st ["Error fetching data: " ++ err]).
Proof.
  unfold fetch_customer_data, load_segmentation_query, try_except, bind, print, lift, ret.
  intros [H|(query & H & H')]; rewrite H; cbv beta iota zeta;
    [|rewrite H'; cbv beta iota zeta]; reflexivity.
Qed.

Lemma fetch_customer_data_returns (W : World) (st : state) query df :
  open_read W "src/segmentation_query.sql" = inl query ->
  pd_read_sql W query = inl df ->
  fetch_customer_data W tt st
    = (Ok (Some df),
       printed st ["Fetched " ++ str_nat (nrows df) ++ " customer records"]).
Proof.
  intros H H'.
  unfold fetch_customer_data, load_segmentation_query, try_except, bind, print, lift, ret.
  rewrite H. cbv beta iota zeta. rewrite H'. reflexivity.
Qed.

Lemma export_to_csv_raises (W : World) (df : DataFrame) (path : string) (st : state) err :
  os_makedirs W (dirname path) = Some err \/
  (os_makedirs W (dirname path) = None /\ df_to_csv W path df = Some err) ->
  export_to_csv W df path st = (Ok tt, printed st ["Error exporting data: " ++ err]).
Proof.
  unfold export_to_csv, try_except, bind, print, lift, ret.
  intros [H|[H H']]; rewrite H; [|rewrite H']; reflexivity.
Qed.

Lemma printed_printed (st : state) (l1 l2 : list string) :
  printed (printed st l1) l2 = printed st (l1 ++ l2).
Proof. unfold printed. cbn. now rewrite app_assoc. Qed.

Lemma bind_run {A B} (m : M A) (f : A -> M B) st a st1 :
  m st = (Ok a, st1) -> bind m f st = f a st1.
Proof. intros H. unfold bind. now rewrite H. Qed.

Lemma print_run (line : string) (st : state) : print line st = (Ok tt, printed st [line]).
Proof. reflexivity. Qed.

(** C4 as stated fails twice: a table without its Age column makes [main]
    raise a KeyError, and after a failed write the run goes on to the
    summary and the closing lines. *)
Lemma C4_counterexample :
  fst (main Sample.no_age_column Sample.start) = Raise (KeyError "Age") /\
  fst (main Sample.read_only_disk Sample.start) = Ok tt /\
  In "Error exporting data: [Errno 13] Permission denied"
     (stdout (snd (main Sample.read_only_disk Sample.start))) /\
  In "You can now import the output CSV into Power BI."
     (stdout (snd (main Sample.read_only_disk Sample.start))).
Proof.
  repeat apply conj; vm_compute; try reflexivity;
    repeat (first [left; reflexivity | right]).
Qed.

(** C4, amended: a failed connection and a failed fetch are caught, logged,
    and [main] returns early without raising; a failed write is caught and
    logged by [export_to_csv] without raising, and the run then continues
    with the summary and the closing lines. *)
Theorem C4_boundary_faults_are_caught (W : World) (st : state) :
  (forall err,
      pyodbc_connect W = Some err ->
      main W st
        = (Ok tt, printed st [banner; "Error connecting to database: " ++ err;
                              "Failed to connect to database. Exiting."])) /\
  (forall err,
      pyodbc_connect W = None ->
      open_read W "src/segmentation_query.sql" = inr err \/
      (exists query, open_read W "src/segmentation_query.sql" = inl query /\
                     pd_read_sql W query = inr err) ->
      main W st
        = (Ok tt, printed st [banner; "Database connection successful";
                              "Error fetching data: " ++ err;
                              "Failed to fetch data. Exiting."])) /\
  (forall err query df cleaned derived st1 st2,
      pyodbc_connect W = None ->
      open_read W "src/segmentation_query.sql" = inl query ->
      pd_read_sql W query = inl df ->
      st1 = printed st [banner; "Database connection successful";
                        "Fetched " ++ str_nat (nrows df) ++ " customer records"] ->
      clean_data_steps W df cleaned ->
      add_derived_features W cleaned (cleaned_state st1 cleaned) = (Ok derived, st2) ->
      os_makedirs W (dirname default_output_path) = Some err \/
      (os_makedirs W (dirname default_output_path) = None /\
       df_to_csv W default_output_path derived = Some err) ->
      export_to_csv W derived default_output_path st2
        = (Ok tt, printed st2 ["Error exporting data: " ++ err]) /\
      main W st
        = bind (generate_summary_stats W derived)
            (fun _ => bind (print (nl ++ "Data preparation completed successfully!"))
               (fun _ => print "You can now import the output CSV into Power BI."))
            (printed st2 ["Error exporting data: " ++ err])).
Proof.
  repeat apply conj.
  - intros err H. unfold main.
    rewrite (bind_run _ _ _ _ _ (print_run _ st)).
    rewrite (bind_run _ _ _ _ _ (create_connection_raises W _ err H)).
    rewrite print_run, !printed_printed. reflexivity.
  - intros err H Hf. unfold main.
    rewrite (bind_run _ _ _ _ _ (print_run _ st)).
    rewrite (bind_run _ _ _ _ _ (create_connection_returns W _ H)).
    rewrite (bind_run _ _ _ _ _ (fetch_customer_data_raises W _ err Hf)).
    rewrite (bind_run _ _ _ _ _ (print_run _ _)).
    unfold conn_close, ret. rewrite !printed_printed. reflexivity.
  - intros err query df cleaned derived st1 st2 H Ho Hs -> Hc Hd He.
    split; [now apply export_to_csv_raises|].
    unfold main.
    rewrite (bind_run _ _ _ _ _ (print_run _ st)).
    rewrite (bind_run _ _ _ _ _ (create_connection_returns W _ H)).
    rewrite (bind_run _ _ _ _ _ (fetch_customer_data_returns W _ query df Ho Hs)).
    rewrite (bind_run _ _ _ _ _ (eq_refl : conn_close tt _ = (Ok tt, _))).
    rewrite (bind_run _ _ _ _ _ (clean_data_run W df _ cleaned Hc)).
    rewrite !printed_printed. cbn [app].
    rewrite (bind_run _ _ _ _ _ Hd).
    rewrite (bind_run _ _ _ _ _ (export_to_csv_raises W derived _ st2 err He)).
    reflexivity.
Qed.

(** ** The properties on the sample tables *)

Lemma C1_witness :
  clean_data Sample.world Sample.table Sample.start
    = (Ok Sample.cleaned, cleaned_state Sample.start Sample.cleaned) /\
  get_col "Age" Sample.cleaned = Some (Float64 [30; 40]%float) /\
  get_col "CustomerID" Sample.cleaned = Some (Int64 [7; 8]).
Proof.
  assert (Hrun : clean_data Sample.world Sample.table Sample.start
                 = (Ok Sample.cleaned, cleaned_state Sample.start Sample.cleaned))
    by (vm_compute; reflexivity).
  split; [exact Hrun|].
  destruct (C1_cleaning_steps_in_order Sample.world Sample.table Sample.start
              Sample.cleaned (cleaned_state Sample.start Sample.cleaned)
              [30; PrimFloat.nan; 50]%float
              [Some "F"; None; Some "M"] [Some "Pune"; Some "Delhi"; None]
              (Int64 [7; 8; 7]) eq_refl eq_refl eq_refl eq_refl Hrun)
    as (Hage & _ & _ & _ & Hid & _).
  split; [exact Hage|exact Hid].
Defined.

Lemma C2_witness :
  get_col "Monetary" Sample.spenders_cleaned
    = Some (Float64 [100; 120; 130; 150; 4000]%float) /\
  exists caps,
    get_col "Monetary_Capped" Sample.spenders_cleaned = Some (Float64 caps) /\
    nth_error caps 4 = Some 195%float /\
    (195 <=? 4000)%float = true /\
    nth_error caps 0 = Some 100%float.
Proof.
  split; [reflexivity|].
  destruct (C2_monetary_capped_bounds Sample.world Sample.spenders Sample.start
              Sample.spenders_cleaned
              (cleaned_state Sample.start Sample.spenders_cleaned)
              [100; 120; 130; 150; 4000]%float
              ltac:(vm_compute; reflexivity) eq_refl)
    as (caps & Hcol & _ & Hrows).
  exists caps. split; [exact Hcol|].
  vm_compute in Hcol. injection Hcol as <-.
  destruct (Hrows 4%nat 4000%float 195%float eq_refl eq_refl) as (Hb & _ & _).
  destruct (Hb eq_refl eq_refl) as [Hle _].
  split; [reflexivity|]. split; [exact Hle|reflexivity].
Defined.

Lemma C6_witness :
  (0 <? 30)%float = true /\ (30 <=? 100)%float = true /\
  cut_cell age_bins age_labels 30 = Some "26-35".
Proof.
  split; [reflexivity|]. split; [reflexivity|].
  destruct C6_age_group_bins as [_ Hbins].
  destruct (Hbins 30%float) as (_ & _ & H & _).
  apply H; reflexivity.
Defined.

Lemma C7_witness :
  clean_data Sample.world Sample.table Sample.start
    = (Ok Sample.cleaned, cleaned_state Sample.start Sample.cleaned) /\
  clean_data Sample.world Sample.cleaned (cleaned_state Sample.start Sample.cleaned)
    = (Ok Sample.cleaned,
       cleaned_state (cleaned_state Sample.start Sample.cleaned) Sample.cleaned).
Proof.
  assert (Hrun : clean_data Sample.world Sample.table Sample.start
                 = (Ok Sample.cleaned, cleaned_state Sample.start Sample.cleaned))
    by (vm_compute; reflexivity).
  split; [exact Hrun|].
  apply (C7_clean_data_idempotent Sample.world Sample.table Sample.start); [|exact Hrun].
  intros ages H. vm_compute in H. injection H as <-.
  repeat constructor; first [left; reflexivity | right; reflexivity].
Defined.

Lemma C8_witness :
  Forall (fun f => 0 <= f) [0; 5] /\
  get_col "AvgDaysBetweenPurchases" Sample.derived = Some (Float64 [90; 80]%float).
Proof.
  assert (Hpos : Forall (fun f => 0 <= f) [0; 5]) by (repeat constructor; lia).
  split; [exact Hpos|].
  destruct (C8_avg_days_between_purchases Sample.world Sample.cleaned Sample.start
              Sample.derived
              (Sample.after 2 ["Adding derived features..."; "Derived features added"])
              (Int64 [90; 400]) (map B64.of_Z [90; 400]) [0; 5]
              eq_refl eq_refl eq_refl Hpos)
    as (_ & Hcol & _).
  exact (Hcol ltac:(vm_compute; reflexivity)).
Defined.

Lemma C9_witness :
  get_col "Monetary" Sample.cleaned = Some (Float64 [100; 250.5]%float) /\
  get_col "PurchaseFrequencyRate" Sample.cleaned = Some (Float64 [0.01; 0.0125]%float) /\
  get_col "EstimatedCLV" Sample.derived
    = Some (Float64 [465.00000000000006; 1393.40625]%float).
Proof.
  split; [reflexivity|]. split; [reflexivity|].
  destruct (C9_estimated_clv_binary64 Sample.world Sample.cleaned Sample.start
              Sample.derived
              (Sample.after 2 ["Adding derived features..."; "Derived features added"])
              [100; 250.5]%float [0.01; 0.0125]%float eq_refl eq_refl)
    as (_ & Hcol & _).
  exact (Hcol ltac:(vm_compute; reflexivity)).
Defined.

Lemma C10_witness :
  to_datetime_text Sample.world "15th of June" = None /\
  exists text,
    to_datetime_text Sample.world text = None /\
    fst (clean_data Sample.world Sample.table_bad_date Sample.start)
      = Raise (ParserError text) /\
    fst (main (Sample.with_faults None (inl Sample.table_bad_date) None) Sample.start)
      = Raise (ParserError text).
Proof.
  split; [reflexivity|].
  destruct (C10_unparseable_date_aborts_the_run
              (Sample.with_faults None (inl Sample.table_bad_date) None)
              Sample.table_bad_date Sample.start
              (Float64 [30; PrimFloat.nan; 50]%float)
              (Object [Some "F"; None; Some "M"])
              (Object [Some "Pune"; Some "Delhi"; None])
              "JoinDate" [Some "2023-01-15"; Some "15th of June"; Some "2021-11-30"]
              "15th of June"
              eq_refl eq_refl eq_refl eq_refl eq_refl eq_refl)
    as (text & Hbad & Hclean & Hmain).
  - intros c s [<-|[<-|[<-|[]]]] H; vm_compute in H; injection H as <-; reflexivity.
  - cbn. tauto.
  - reflexivity.
  - cbn. tauto.
  - reflexivity.
  - exists text. split; [exact Hbad|]. split; [exact Hclean|].
    exact (Hmain _ eq_refl eq_refl eq_refl).
Defined.

Lemma C5_witness :
  datetime_now Sample.world 0 = datetime_now Sample.no_database 0 /\
  fst (add_derived_features Sample.world Sample.cleaned Sample.start)
  = fst (add_derived_features Sample.no_database Sample.cleaned
           (Sample.after 0 ["printed earlier"])).
Proof.
  split; [reflexivity|].
  apply C5_determined_by_two_clock_readings; reflexivity.
Defined.

Lemma C4_witness :
  pyodbc_connect Sample.no_database = Some "Login timeout expired" /\
  main Sample.no_database Sample.start
    = (Ok tt, printed Sample.start
                [banner; "Error connecting to database: Login timeout expired";
                 "Failed to connect to database. Exiting."]) /\
  main Sample.no_query_result Sample.start
    = (Ok tt, printed Sample.start
                [banner; "Database connection successful";
                 "Error fetching data: Invalid object name 'customers'";
                 "Failed to fetch data. Exiting."]).
Proof.
  split; [reflexivity|].
  destruct (C4_boundary_faults_are_caught Sample.no_database Sample.start) as (H1 & _).
  destruct (C4_boundary_faults_are_caught Sample.no_query_result Sample.start)
    as (_ & H2 & _).
  split.
  - exact (H1 _ eq_refl).
  - apply H2; [reflexivity|]. right. eexists. split; reflexivity.
Defined.

(** * Further properties of the script *)

(** ** What [clean_data] does to each column *)

Lemma not_in_cons_eqb (n m : string) (l : list string) :
  ~ In n (m :: l) -> String.eqb m n = false /\ ~ In n l.
Proof.
  intros H. split.
  - apply String.eqb_neq. intros ->. apply H. now left.
  - intros Hin. apply H. now right.
Qed.

(** The columns of the table [clean_data] returns, each from the column of
    the input it comes from; [mask] marks the first row of each CustomerID. *)
Lemma clean_data_columns (W : World) (df : DataFrame) (st : state) out st' :
  clean_data W df st = (Ok out, st') ->
  exists ids age m age' gender gender' location location' monetary Q1 Q3 capped,
    let mask := first_mask [] (keys ids) in
    get_col "CustomerID" df = Some ids /\
    (get_col "Age" df = Some age /\ median age = Ok m /\
     fillna_number age m = Ok age' /\
     get_col "Age" out = Some (series_select mask age')) /\
    (get_col "Gender" df = Some gender /\ fillna_text gender "Unknown" = Ok gender' /\
     get_col "Gender" out = Some (series_select mask gender')) /\
    (get_col "Location" df = Some location /\
     fillna_text location "Unknown" = Ok location' /\
     get_col "Location" out = Some (series_select mask location')) /\
    (forall c, In c date_columns ->
       match get_col c df with
       | None => get_col c out = None
       | Some s => exists ts, to_datetime W s = Ok (Datetime64 ts) /\
                              get_col c out = Some (Datetime64 (select mask ts))
       end) /\
    (get_col "Monetary" df = Some monetary /\
     quantile (series_select mask monetary) 0.25 = Ok Q1 /\
     quantile (series_select mask monetary) 0.75 = Ok Q3 /\
     clip_upper (series_select mask monetary) (Q3 + 1.5 * (Q3 - Q1))%float = Ok capped /\
     get_col "Monetary_Capped" out = Some capped) /\
    (forall n, ~ In n cleaned_columns ->
       get_col n out = option_map (series_select mask) (get_col n df)).
Proof.
  intros Hrun. apply clean_data_inv in Hrun.
  destruct Hrun as [(age & m & age' & gender & gender' & location & location' & df3 & df4
          & monetary & q1 & q3 & capped
          & Ha & Hm & Ha' & Hg & Hg' & Hl & Hl' & Hc & Hd & Hmon & HQ1 & HQ3 & Hcap & ->) _].
  cols_in Hg. cols_in Hl.
  assert (Hother : forall n, ~ In n date_columns ->
             get_col n df3
             = get_col n (set_col "Location" location'
                            (set_col "Gender" gender' (set_col "Age" age' df)))).
  { intros n Hn. apply (convert_date_columns_other _ _ _ _ n Hc Hn). }
  unfold drop_duplicates in Hd.
  rewrite (Hother "CustomerID") in Hd by (apply not_date_column; reflexivity).
  cols_in Hd.
  destruct (get_col "CustomerID" df) as [ids|] eqn:Eid; [|discriminate].
  injection Hd as <-.
  rewrite get_col_frame_select, Hother in Hmon by (apply not_date_column; reflexivity).
  cols_in Hmon.
  destruct (get_col "Monetary" df) as [mon0|] eqn:Emon; [|discriminate].
  cbn in Hmon. injection Hmon as <-.
  exists ids, age, m, age', gender, gender', location, location', mon0, q1, q3, capped.
  cbv zeta. repeat apply conj; auto.
  - cols. rewrite get_col_frame_select, Hother by (apply not_date_column; reflexivity).
    cols. reflexivity.
  - cols. rewrite get_col_frame_select, Hother by (apply not_date_column; reflexivity).
    cols. reflexivity.
  - cols. rewrite get_col_frame_select, Hother by (apply not_date_column; reflexivity).
    cols. reflexivity.
  - intros c Hin.
    pose proof (convert_date_columns_col _ _ _ _ c date_columns_NoDup Hin Hc) as Hcol.
    rewrite imputed_date_column in Hcol by assumption.
    assert (Hne : String.eqb "Monetary_Capped" c = false).
    { unfold date_columns in Hin. cbn [In] in Hin.
      destruct Hin as [<-|[<-|[<-|[]]]]; reflexivity. }
    rewrite get_col_set_col_other, get_col_frame_select by exact Hne.
    destruct (get_col c df) as [s|].
    + destruct Hcol as (ts & Hts & ->). exists ts. split; [exact Hts|reflexivity].
    + now rewrite Hcol.
  - cols. reflexivity.
  - intros n Hn. unfold cleaned_columns in Hn.
    apply not_in_cons_eqb in Hn. destruct Hn as [E1 Hn].
    apply not_in_cons_eqb in Hn. destruct Hn as [E2 Hn].
    apply not_in_cons_eqb in Hn. destruct Hn as [E3 Hn].
    assert (Hd : ~ In n date_columns).
    { unfold date_columns. cbn [In] in *. tauto. }
    apply not_in_cons_eqb in Hn. destruct Hn as [_ Hn].
    apply not_in_cons_eqb in Hn. destruct Hn as [_ Hn].
    apply not_in_cons_eqb in Hn. destruct Hn as [_ Hn].
    apply not_in_cons_eqb in Hn. destruct Hn as [E7 _].
    rewrite get_col_set_col_other, get_col_frame_select, Hother by assumption.
    now rewrite !get_col_set_col_other by assumption.
Qed.

(** X1: [clean_data] changes no value of a column it does not assign: every
    column other than Age, Gender, Location, the three date columns and
    Monetary_Capped (so also CustomerID and Monetary) comes out as the input
    column restricted to the first row of each CustomerID. *)
Theorem clean_data_passes_other_columns
    (W : World) (df : DataFrame) (st : state) out st' ids :
  clean_data W df st = (Ok out, st') ->
  get_col "CustomerID" df = Some ids ->
  forall n, ~ In n cleaned_columns ->
    get_col n out
      = option_map (series_select (first_mask [] (keys ids))) (get_col n df).
Proof.
  intros Hrun Hid n Hn.
  destruct (clean_data_columns W df st out st' Hrun)
    as (ids' & age & m & age' & gender & gender' & location & location'
        & monetary & Q1 & Q3 & capped & Hid' & _ & _ & _ & _ & _ & Hpass).
  rewrite Hid in Hid'. injection Hid' as <-. now apply Hpass.
Qed.

Lemma clean_data_passes_other_columns_witness :
  get_col "CustomerID" Sample.table = Some (Int64 [7; 8; 7]) /\
  get_col "Frequency" Sample.table = Some (Int64 [0; 5; 12]) /\
  get_col "Frequency" Sample.cleaned = Some (Int64 [0; 5]).
Proof.
  split; [reflexivity|]. split; [reflexivity|].
  apply (clean_data_passes_other_columns Sample.world Sample.table Sample.start
           Sample.cleaned (cleaned_state Sample.start Sample.cleaned) (Int64 [7; 8; 7])
           ltac:(vm_compute; reflexivity) eq_refl "Frequency").
  cbn. intros H. repeat (destruct H as [H|H]; [discriminate H|]). exact H.
Defined.

(** X2: after [clean_data] no Gender and no Location is missing, and the
    values that were present are the ones of the input. *)
Theorem clean_data_leaves_no_missing_text
    (W : World) (df : DataFrame) (st : state) out st' ids genders locations :
  clean_data W df st = (Ok out, st') ->
  get_col "CustomerID" df = Some ids ->
  get_col "Gender" df = Some (Object genders) ->
  get_col "Location" df = Some (Object locations) ->
  let mask := first_mask [] (keys ids) in
  exists gs ls,
    get_col "Gender" out = Some (Object gs) /\
    get_col "Location" out = Some (Object ls) /\
    Forall (fun o => o <> None) gs /\ Forall (fun o => o <> None) ls /\
    Forall2 (fun before after => before = None \/ after = before)
            (select mask genders) gs /\
    Forall2 (fun before after => before = None \/ after = before)
            (select mask locations) ls.
Proof.
  intros Hrun Hid Hg Hl mask.
  destruct (clean_data_columns W df st out st' Hrun)
    as (ids' & age & m & age' & gender & gender' & location & location'
        & monetary & Q1 & Q3 & capped & Hid' & _ & (Hg0 & Hg' & Hgo)
        & (Hl0 & Hl' & Hlo) & _).
  rewrite Hid in Hid'. injection Hid' as <-.
  rewrite Hg in Hg0. injection Hg0 as <-.
  rewrite Hl in Hl0. injection Hl0 as <-.
  cbn in Hg', Hl'. injection Hg' as <-. injection Hl' as <-.
  assert (Hkeep : forall xs m0,
             Forall2 (fun before after : option string => before = None \/ after = before)
                     (select m0 xs) (select m0 (fillna_object "Unknown" xs))).
  { induction xs as [|[x|] r IH]; intros [|[] m0]; cbn; try constructor; auto. }
  exists (select mask (fillna_object "Unknown" genders)),
         (select mask (fillna_object "Unknown" locations)).
  repeat apply conj; auto;
    try (apply select_Forall, fillna_object_filled).
Qed.

Lemma clean_data_leaves_no_missing_text_witness :
  get_col "Gender" Sample.table = Some (Object [Some "F"; None; Some "M"]) /\
  exists gs ls,
    get_col "Gender" Sample.cleaned = Some (Object gs) /\
    get_col "Location" Sample.cleaned = Some (Object ls) /\
    Forall (fun o => o <> None) gs /\ Forall (fun o => o <> None) ls.
Proof.
  split; [reflexivity|].
  destruct (clean_data_leaves_no_missing_text Sample.world Sample.table Sample.start
              Sample.cleaned (cleaned_state Sample.start Sample.cleaned) (Int64 [7; 8; 7])
              [Some "F"; None; Some "M"] [Some "Pune"; Some "Delhi"; None]
              ltac:(vm_compute; reflexivity) eq_refl eq_refl eq_refl)
    as (gs & ls & H1 & H2 & H3 & H4 & _).
  exists gs, ls. auto.
Defined.

(** X3: when some Age is a finite number and the others are finite or
    missing, no Age is missing after [clean_data]: the missing ones hold the
    median of the input column, the others are kept. *)
Theorem clean_data_leaves_no_missing_age
    (W : World) (df : DataFrame) (st : state) out st' ids ages :
  clean_data W df st = (Ok out, st') ->
  get_col "CustomerID" df = Some ids ->
  get_col "Age" df = Some (Float64 ages) ->
  Forall (fun a => B64.isna a = true \/ is_finite a = true) ages ->
  Exists (fun a => B64.isna a = false) ages ->
  let mask := first_mask [] (keys ids) in
  B64.isna (np_median ages) = false /\
  get_col "Age" out
    = Some (Float64 (select mask
                       (map (fun a => if B64.isna a then np_median ages else a) ages))) /\
  exists xs, get_col "Age" out = Some (Float64 xs) /\
             Forall (fun a => B64.isna a = false) xs.
Proof.
  intros Hrun Hid Ha Hfin Hsome mask.
  destruct (clean_data_columns W df st out st' Hrun)
    as (ids' & age & m & age' & gender & gender' & location & location'
        & monetary & Q1 & Q3 & capped & Hid' & (Ha0 & Hm & Ha' & Hao) & _).
  rewrite Hid in Hid'. injection Hid' as <-.
  rewrite Ha in Ha0. injection Ha0 as <-.
  cbn in Hm. injection Hm as <-. cbn in Ha'. injection Ha' as <-.
  assert (Hmed : B64.isna (np_median ages) = false).
  { apply np_median_defined; [exact Hfin|].
    apply Exists_exists in Hsome. destruct Hsome as (a & Hin & Hna).
    intros Hnil. assert (Hd : In a (B64.dropna ages)).
    { unfold B64.dropna. apply filter_In. split; [exact Hin|]. now rewrite Hna. }
    rewrite Hnil in Hd. destruct Hd. }
  split; [exact Hmed|]. split; [exact Hao|].
  eexists. split; [exact Hao|].
  apply select_Forall. now apply fillna_float_filled.
Qed.

Lemma clean_data_leaves_no_missing_age_witness :
  get_col "Age" Sample.table = Some (Float64 [30; PrimFloat.nan; 50]%float) /\
  get_col "Age" Sample.cleaned = Some (Float64 [30; 40]%float) /\
  exists xs, get_col "Age" Sample.cleaned = Some (Float64 xs) /\
             Forall (fun a => B64.isna a = false) xs.
Proof.
  split; [reflexivity|]. split; [reflexivity|].
  destruct (clean_data_leaves_no_missing_age Sample.world Sample.table Sample.start
              Sample.cleaned (cleaned_state Sample.start Sample.cleaned) (Int64 [7; 8; 7])
              [30; PrimFloat.nan; 50]%float
              ltac:(vm_compute; reflexivity) eq_refl eq_refl)
    as (_ & _ & H).
  - repeat constructor; first [left; reflexivity | right; reflexivity].
  - constructor. reflexivity.
  - exact H.
Defined.

(** ** Deduplication *)

Lemma first_mask_complete (seen ks : list key) (k : key) :
  In k ks -> ~ In k seen -> In k (select (first_mask seen ks) ks).
Proof.
  revert seen. induction ks as [|k0 r IH]; intros seen Hin Hout; [destruct Hin|].
  cbn. destruct (key_eq_dec k0 k) as [->|Hne].
  - apply mem_key_false in Hout. rewrite Hout. cbn. now left.
  - destruct Hin as [Heq|Hin]; [contradiction|].
    assert (Hin' : In k (select (first_mask (k0 :: seen) r) r)).
    { apply IH; [exact Hin|]. intros [Heq|Hs]; [contradiction|contradiction]. }
    destruct (mem_key k0 seen); cbn; auto.
Qed.

Lemma select_In {A} (mask : list bool) (xs : list A) (x : A) :
  In x (select mask xs) -> In x xs.
Proof.
  revert xs. induction mask as [|b m IH]; intros [|y r]; cbn; try tauto.
  destruct b; cbn; [intros [H|H]; auto|auto].
Qed.

Lemma first_mask_unique (seen ks : list key) :
  NoDup ks -> (forall k, In k ks -> ~ In k seen) ->
  Forall (fun b => b = true) (first_mask seen ks).
Proof.
  intros Hnd. revert seen. induction Hnd as [|k r Hk Hnd IH]; intros seen Hout; cbn.
  - constructor.
  - constructor.
    + assert (E : mem_key k seen = false)
        by (apply mem_key_false, Hout; now left).
      now rewrite E.
    + apply IH. intros k' Hin [<-|Hs]; [contradiction|].
      apply (Hout k'); [now right|exact Hs].
Qed.

(** X4: deduplication loses no customer and keeps none twice: the
    CustomerIDs of the table [clean_data] returns are pairwise different,
    and they are exactly the CustomerIDs of the input. *)
Theorem clean_data_keeps_every_customer_once
    (W : World) (df : DataFrame) (st : state) out st' ids :
  clean_data W df st = (Ok out, st') ->
  get_col "CustomerID" df = Some ids ->
  exists ids',
    get_col "CustomerID" out = Some ids' /\
    NoDup (keys ids') /\
    forall k, In k (keys ids') <-> In k (keys ids).
Proof.
  intros Hrun Hid.
  destruct (clean_data_columns W df st out st' Hrun)
    as (ids' & age & m & age' & gender & gender' & location & location'
        & monetary & Q1 & Q3 & capped & Hid' & _ & _ & _ & _ & _ & Hpass).
  rewrite Hid in Hid'. injection Hid' as <-.
  specialize (Hpass "CustomerID"). rewrite Hid in Hpass. cbn [option_map] in Hpass.
  eexists. split.
  - apply Hpass. cbn. intros H. repeat (destruct H as [H|H]; [discriminate H|]). exact H.
  - rewrite keys_series_select. split; [apply first_mask_NoDup|].
    intros k. split; [apply select_In|].
    intros Hin. apply first_mask_complete; auto.
Qed.

Lemma clean_data_keeps_every_customer_once_witness :
  get_col "CustomerID" Sample.table = Some (Int64 [7; 8; 7]) /\
  exists ids',
    get_col "CustomerID" Sample.cleaned = Some ids' /\
    NoDup (keys ids') /\
    In (KInt 8) (keys ids').
Proof.
  split; [reflexivity|].
  destruct (clean_data_keeps_every_customer_once Sample.world Sample.table Sample.start
              Sample.cleaned (cleaned_state Sample.start Sample.cleaned) (Int64 [7; 8; 7])
              ltac:(vm_compute; reflexivity) eq_refl)
    as (ids' & Hcol & Hnd & Hsame).
  exists ids'. split; [exact Hcol|]. split; [exact Hnd|].
  apply Hsame. cbn. auto.
Defined.

(** X5: when the CustomerIDs of the input are already pairwise different,
    [clean_data] drops no row: a column it does not assign, of the length of
    the CustomerID column, comes out unchanged. *)
Theorem clean_data_drops_nothing_without_duplicates
    (W : World) (df : DataFrame) (st : state) out st' ids n s :
  clean_data W df st = (Ok out, st') ->
  get_col "CustomerID" df = Some ids ->
  NoDup (keys ids) ->
  ~ In n cleaned_columns ->
  get_col n df = Some s ->
  series_len s = series_len ids ->
  get_col n out = Some s.
Proof.
  intros Hrun Hid Hnd Hn Hs Hlen.
  destruct (clean_data_columns W df st out st' Hrun)
    as (ids' & age & m & age' & gender & gender' & location & location'
        & monetary & Q1 & Q3 & capped & Hid' & _ & _ & _ & _ & _ & Hpass).
  rewrite Hid in Hid'. injection Hid' as <-.
  rewrite (Hpass n Hn), Hs. cbn [option_map]. f_equal.
  assert (Hall : Forall (fun b => b = true) (first_mask [] (keys ids)))
    by (apply first_mask_unique; auto).
  assert (Hm : List.length (first_mask [] (keys ids)) = series_len ids).
  { rewrite first_mask_length. destruct ids; cbn; apply length_map. }
  destruct s; cbn in *; f_equal; apply select_all_true; auto; lia.
Qed.

Lemma clean_data_drops_nothing_without_duplicates_witness :
  NoDup (keys (Int64 [1; 2; 3; 4; 5])) /\
  get_col "Monetary" Sample.spenders_cleaned
    = Some (Float64 [100; 120; 130; 150; 4000]%float).
Proof.
  assert (Hnd : NoDup (keys (Int64 [1; 2; 3; 4; 5]))).
  { cbn. repeat constructor; cbn; intros H;
      repeat (destruct H as [H|H]; [discriminate H|]); exact H. }
  split; [exact Hnd|].
  apply (clean_data_drops_nothing_without_duplicates Sample.world Sample.spenders
           Sample.start Sample.spenders_cleaned
           (cleaned_state Sample.start Sample.spenders_cleaned)
           (Int64 [1; 2; 3; 4; 5]) "Monetary" (Float64 [100; 120; 130; 150; 4000]%float)
           ltac:(vm_compute; reflexivity) eq_refl Hnd).
  - cbn. intros H. repeat (destruct H as [H|H]; [discriminate H|]). exact H.
  - reflexivity.
  - reflexivity.
Defined.

(** ** The shape of the table *)

Lemma set_col_rectangular (name : string) (s : Series) (df : DataFrame) (n : nat) :
  series_len s = n -> rectangular n df -> rectangular n (set_col name s df).
Proof.
  intros Hs H. unfold rectangular in *. induction H as [|[m s0] r Hc Hr IH]; cbn.
  - constructor; auto.
  - destruct (String.eqb m name); constructor; auto.
Qed.

Lemma get_col_rectangular (name : string) (s : Series) (df : DataFrame) (n : nat) :
  rectangular n df -> get_col name df = Some s -> series_len s = n.
Proof.
  intros H. unfold rectangular in H. induction H as [|[m s0] r Hc Hr IH]; cbn;
    [discriminate|].
  destruct (String.eqb m name); auto. intros [= <-]. exact Hc.
Qed.

Lemma nrows_rectangular (df : DataFrame) (n : nat) :
  rectangular n df -> df <> [] -> nrows df = n.
Proof.
  intros H Hne. destruct H as [|[m s] r Hc _]; [congruence|exact Hc].
Qed.

Lemma set_col_not_nil (name : string) (s : Series) (df : DataFrame) :
  set_col name s df <> [].
Proof.
  destruct df as [|[m s0] r]; cbn; [discriminate|].
  destruct (String.eqb m name); discriminate.
Qed.

Lemma fillna_number_length (s s' : Series) (v : float) :
  fillna_number s v = Ok s' -> series_len s' = series_len s.
Proof.
  destruct s; cbn; intros H; try discriminate; injection H as <-; cbn;
    [apply length_map|reflexivity].
Qed.

Lemma fillna_text_length (s s' : Series) (v : string) :
  fillna_text s v = Ok s' -> series_len s' = series_len s.
Proof.
  destruct s; cbn; intros H; try discriminate; injection H as <-; cbn;
    [reflexivity|apply length_map].
Qed.

Lemma parse_all_length (W : World) (xs : list (option string)) ts :
  parse_all W xs = Ok ts -> List.length ts = List.length xs.
Proof.
  revert ts. induction xs as [|[text|] r IH]; intros ts H; cbn in H.
  - now injection H as <-.
  - destruct (to_datetime_text W text); [|discriminate].
    apply rbind_inv in H. destruct H as (ts' & H & [= <-]). cbn. f_equal. auto.
  - apply rbind_inv in H. destruct H as (ts' & H & [= <-]). cbn. f_equal. auto.
Qed.

Lemma to_datetime_length (W : World) (s s' : Series) :
  to_datetime W s = Ok s' -> series_len s' = series_len s.
Proof.
  destruct s; cbn; intros H; try discriminate.
  - injection H as <-. cbn. apply length_map.
  - apply rbind_inv in H. destruct H as (ts & H & [= <-]). cbn.
    now apply parse_all_length in H.
  - now injection H as <-.
Qed.

Lemma convert_date_columns_rectangular (W : World) (cols : list string)
    (df df' : DataFrame) (n : nat) :
  rectangular n df -> convert_date_columns W cols df = Ok df' -> rectangular n df'.
Proof.
  revert df. induction cols as [|c r IH]; intros df Hr H; cbn in H.
  - now injection H as <-.
  - apply rbind_inv in H. destruct H as (df1 & H1 & H2). apply (IH df1); [|exact H2].
    apply convert_date_column_inv in H1.
    destruct H1 as [[_ ->]|(s & ts & Hs & Hts & ->)]; [exact Hr|].
    apply set_col_rectangular; [|exact Hr].
    rewrite (to_datetime_length _ _ _ Hts). eapply get_col_rectangular; eauto.
Qed.

Lemma series_select_length (mask : list bool) (s : Series) :
  series_len s = List.length mask ->
  series_len (series_select mask s) = count_true mask.
Proof. destruct s; cbn; apply select_length_eq. Qed.

Lemma frame_select_rectangular (mask : list bool) (df : DataFrame) :
  rectangular (List.length mask) df -> rectangular (count_true mask) (frame_select mask df).
Proof.
  unfold rectangular, frame_select. intros H.
  induction H as [|[m s] r Hc _ IH]; cbn; constructor; auto.
  cbn in *. now apply series_select_length.
Qed.

Lemma count_true_le (mask : list bool) : (count_true mask <= List.length mask)%nat.
Proof. unfold count_true. apply filter_length_le. Qed.

(** X6: [clean_data] keeps the table rectangular. When every column of the
    input has [n] rows, every column of the result, Monetary_Capped
    included, has as many rows as there are first occurrences of a
    CustomerID; that number is at most [n], and it is the record count the
    stage prints. *)
Theorem clean_data_keeps_table_rectangular
    (W : World) (df : DataFrame) (st : state) out st' ids n :
  rectangular n df ->
  clean_data W df st = (Ok out, st') ->
  get_col "CustomerID" df = Some ids ->
  let kept := count_true (first_mask [] (keys ids)) in
  rectangular kept out /\
  (kept <= n)%nat /\
  nrows out = kept /\
  stdout st' = (stdout st ++ ["Cleaning data...";
                              ("Data cleaned. Final record count: " ++ str_nat kept)%string])%list.
Proof.
  intros Hrect Hrun Hid kept. apply clean_data_inv in Hrun.
  destruct Hrun as [(age & m & age' & gender & gender' & location & location' & df3 & df4
          & monetary & q1 & q3 & capped
          & Ha & Hm & Ha' & Hg & Hg' & Hl & Hl' & Hc & Hd & Hmon & HQ1 & HQ3 & Hcap & ->) ->].
  cols_in Hg. cols_in Hl.
  assert (Hrect1 : rectangular n
            (set_col "Location" location' (set_col "Gender" gender' (set_col "Age" age' df)))).
  { repeat apply set_col_rectangular; auto.
    - rewrite (fillna_text_length _ _ _ Hl'). eapply get_col_rectangular; eauto.
    - rewrite (fillna_text_length _ _ _ Hg'). eapply get_col_rectangular; eauto.
    - rewrite (fillna_number_length _ _ _ Ha'). eapply get_col_rectangular; eauto. }
  pose proof (convert_date_columns_rectangular _ _ _ _ _ Hrect1 Hc) as Hrect3.
  unfold drop_duplicates in Hd.
  rewrite (convert_date_columns_other _ _ _ _ "CustomerID" Hc) in Hd
    by (apply not_date_column; reflexivity).
  cols_in Hd. rewrite Hid in Hd. injection Hd as <-.
  assert (Hlen : List.length (first_mask [] (keys ids)) = n).
  { rewrite first_mask_length. destruct ids; cbn; rewrite length_map;
      apply (get_col_rectangular _ _ _ _ Hrect Hid). }
  assert (Hrect4 : rectangular kept (frame_select (first_mask [] (keys ids)) df3)).
  { apply frame_select_rectangular. now rewrite Hlen. }
  assert (Hout : rectangular kept
            (set_col "Monetary_Capped" capped (frame_select (first_mask [] (keys ids)) df3))).
  { apply set_col_rectangular; [|exact Hrect4].
    rewrite (clip_upper_length _ _ _ Hcap). eapply get_col_rectangular; eauto. }
  assert (Hrows : nrows (set_col "Monetary_Capped" capped
                           (frame_select (first_mask [] (keys ids)) df3)) = kept).
  { apply nrows_rectangular; [exact Hout|apply set_col_not_nil]. }
  repeat apply conj; auto.
  - unfold kept. rewrite <- Hlen. apply count_true_le.
  - unfold cleaned_state. cbn [stdout]. now rewrite Hrows.
Qed.

Lemma clean_data_keeps_table_rectangular_witness :
  rectangular 3 Sample.table /\
  rectangular 2 Sample.cleaned /\
  nrows Sample.cleaned = 2%nat.
Proof.
  assert (Hrect : rectangular 3 Sample.table) by (repeat constructor).
  split; [exact Hrect|].
  destruct (clean_data_keeps_table_rectangular Sample.world Sample.table Sample.start
              Sample.cleaned (cleaned_state Sample.start Sample.cleaned) (Int64 [7; 8; 7]) 3
              Hrect ltac:(vm_compute; reflexivity) eq_refl)
    as (H1 & _ & H2 & _).
  split; [exact H1|exact H2].
Defined.

(** ** Revenue tiers *)

Lemma leb_infinity (x : float) : B64.isna x = false -> (x <=? PrimFloat.infinity)%float = true.
Proof.
  intros Hx. apply B64Facts.leb_lex; [exact Hx|reflexivity|].
  change (Prim2SF PrimFloat.infinity) with (S754_infinity false).
  destruct (Prim2SF x) as [s|[] | |[] m e]; cbn; lia.
Qed.

(** X7: the RevenueTier column holds [cut_cell revenue_bins revenue_labels]
    of every Monetary: (0, 100] is Very Low, (100, 500] Low, (500, 1000]
    Medium, (1000, 5000] High, everything above 5000 (plus infinity too) Very
    High, and a Monetary of 0 or less has no tier. *)
Theorem revenue_tier_bins :
  (forall (W : World) (df : DataFrame) (st : state) out st' monetary ms,
      get_col "Monetary" df = Some monetary -> as_floats monetary = Ok ms ->
      add_derived_features W df st = (Ok out, st') ->
      get_col "RevenueTier" out
        = Some (Category revenue_labels (map (cut_cell revenue_bins revenue_labels) ms))) /\
  (forall m : float,
      ((0 <? m)%float = true -> (m <=? 100)%float = true ->
         cut_cell revenue_bins revenue_labels m = Some "Very Low") /\
      ((100 <? m)%float = true -> (m <=? 500)%float = true ->
         cut_cell revenue_bins revenue_labels m = Some "Low") /\
      ((500 <? m)%float = true -> (m <=? 1000)%float = true ->
         cut_cell revenue_bins revenue_labels m = Some "Medium") /\
      ((1000 <? m)%float = true -> (m <=? 5000)%float = true ->
         cut_cell revenue_bins revenue_labels m = Some "High") /\
      ((5000 <? m)%float = true ->
         cut_cell revenue_bins revenue_labels m = Some "Very High") /\
      ((m <=? 0)%float = true ->
         cut_cell revenue_bins revenue_labels m = None)).
Proof.
  split.
  - intros W df st out st' monetary ms Hm Hf Hrun.
    apply add_derived_features_inv in Hrun.
    destruct Hrun as (tenure & days & avg & groups & tiers & clv & -> & _ & _ & _ & _ & Ht & _).
    destruct Ht as (mon0 & Hm0 & Hcut).
    rewrite Hm in Hm0. injection Hm0 as <-.
    unfold cut in Hcut. rewrite Hf in Hcut. cbn [rbind] in Hcut. injection Hcut as <-.
    cols. reflexivity.
  - intros m.
    assert (Hbin : forall lo hi l n,
               (lo <? m)%float = true -> (m <=? hi)%float = true ->
               searchsorted_left revenue_bins m = S n ->
               nth_error revenue_labels n = Some l ->
               cut_cell revenue_bins revenue_labels m = Some l).
    { intros lo hi l n Hlo Hhi Hs Hl. unfold cut_cell.
      destruct (B64Facts.ltb_not_nan _ _ Hlo) as [_ ->].
      rewrite Hs.
      assert (Hn : (n < List.length revenue_labels)%nat)
        by (apply nth_error_Some; rewrite Hl; discriminate).
      cbn in Hn.
      replace (Nat.eqb (S n) 0) with false by reflexivity.
      replace (Nat.eqb (S n) (List.length revenue_bins)) with false
        by (symmetry; apply Nat.eqb_neq; cbn; lia).
      cbn [orb]. now replace (S n - 1)%nat with n by lia. }
    repeat apply conj.
    + intros Hlo Hhi. apply (Hbin _ _ _ 0%nat Hlo Hhi); [|reflexivity].
      cbn [searchsorted_left revenue_bins]. rewrite Hlo.
      now rewrite (B64Facts.leb_ltb_false _ _ Hhi).
    + intros Hlo Hhi. apply (Hbin _ _ _ 1%nat Hlo Hhi); [|reflexivity].
      cbn [searchsorted_left revenue_bins]. bins_below Hlo.
      now rewrite (B64Facts.leb_ltb_false _ _ Hhi).
    + intros Hlo Hhi. apply (Hbin _ _ _ 2%nat Hlo Hhi); [|reflexivity].
      cbn [searchsorted_left revenue_bins]. bins_below Hlo.
      now rewrite (B64Facts.leb_ltb_false _ _ Hhi).
    + intros Hlo Hhi. apply (Hbin _ _ _ 3%nat Hlo Hhi); [|reflexivity].
      cbn [searchsorted_left revenue_bins]. bins_below Hlo.
      now rewrite (B64Facts.leb_ltb_false _ _ Hhi).
    + intros Hlo.
      destruct (B64Facts.ltb_not_nan _ _ Hlo) as [_ Hm].
      apply (Hbin _ _ _ 4%nat Hlo (leb_infinity m Hm)); [|reflexivity].
      cbn [searchsorted_left revenue_bins]. bins_below Hlo.
      now rewrite (B64Facts.leb_ltb_false _ _ (leb_infinity m Hm)).
    + intros Hle. unfold cut_cell.
      destruct (B64Facts.leb_not_nan _ _ Hle) as [-> _].
      cbn [searchsorted_left revenue_bins].
      now rewrite (B64Facts.leb_ltb_false _ _ Hle).
Qed.

Lemma revenue_tier_bins_witness :
  (5000 <? 1e300)%float = true /\
  cut_cell revenue_bins revenue_labels 1e300 = Some "Very High" /\
  get_col "RevenueTier" Sample.derived
    = Some (Category revenue_labels [Some "Very Low"; Some "Low"]).
Proof.
  split; [reflexivity|].
  destruct revenue_tier_bins as [Hcol Hbins].
  split.
  - destruct (Hbins 1e300%float) as (_ & _ & _ & _ & H & _). apply H. reflexivity.
  - apply (Hcol Sample.world Sample.cleaned Sample.start Sample.derived
             (Sample.after 2 ["Adding derived features..."; "Derived features added"])
             (Float64 [100; 250.5]%float) [100; 250.5]%float eq_refl eq_refl).
    vm_compute. reflexivity.
Defined.

(** ** Days since the last purchase *)

Lemma of_uint63_not_nan (n : int) : B64.isna (PrimFloat.of_uint63 n) = false.
Proof.
  apply B64Facts.isna_false. rewrite FloatAxioms.of_uint63_spec.
  unfold binary_normalize.
  destruct (Uint63.to_Z n) as [|p|p]; [discriminate| |];
    unfold binary_round; destruct (shl_align _ _ _);
    apply B64Arith.binary_round_aux_not_nan; lia.
Qed.

Lemma of_Z_not_nan (z : Z) : B64.isna (B64.of_Z z) = false.
Proof.
  unfold B64.of_Z. destruct (z <? 0); [|apply of_uint63_not_nan].
  apply B64Facts.isna_false. rewrite FloatAxioms.opp_spec.
  pose proof (of_uint63_not_nan (Uint63.of_Z (- z))) as H.
  apply B64Facts.isna_false in H.
  destruct (Prim2SF (PrimFloat.of_uint63 (Uint63.of_Z (- z)))); cbn; congruence.
Qed.

(** X8: DaysSinceLastPurchase is the whole number of days between the
    second clock reading and the row's LastPurchaseDate, rounded down. With
    no date missing the column is int64; otherwise it is float64 and
    missing on exactly the rows whose LastPurchaseDate is missing. *)
Theorem days_since_last_purchase_missing_iff
    (W : World) (df : DataFrame) (st : state) out st' ts :
  get_col "LastPurchaseDate" df = Some (Datetime64 ts) ->
  add_derived_features W df st = (Ok out, st') ->
  let t2 := datetime_now W (S (clock_reads st)) in
  (Forall (fun o => o <> None) ts ->
   exists zs,
     get_col "DaysSinceLastPurchase" out = Some (Int64 zs) /\
     Forall2 (fun o z => exists t, o = Some t /\ z = (t2 - t) / ns_per_day) ts zs) /\
  (Exists (fun o => o = None) ts ->
   exists xs,
     get_col "DaysSinceLastPurchase" out = Some (Float64 xs) /\
     Forall2 (fun o x => match o with
                         | None => B64.isna x = true
                         | Some t => x = B64.of_Z ((t2 - t) / ns_per_day) /\
                                     B64.isna x = false
                         end) ts xs).
Proof.
  intros Hl Hrun t2. apply add_derived_features_inv in Hrun.
  destruct Hrun as (tenure & days & avg & groups & tiers & clv & -> & _ & Hd & _).
  destruct Hd as (last & Hl0 & Hd). rewrite Hl in Hl0. injection Hl0 as <-.
  fold t2 in Hd. unfold days_since in Hd. cols. split.
  - intros Hall.
    replace (forallb _ ts) with true in Hd.
    2:{ symmetry. apply forallb_forall. intros o Hin.
        rewrite Forall_forall in Hall. specialize (Hall o Hin). now destruct o. }
    injection Hd as <-. eexists. split; [reflexivity|].
    clear -Hall. induction Hall as [|[t|] r Ho _ IH]; cbn; constructor; eauto.
    congruence.
  - intros Hex.
    replace (forallb _ ts) with false in Hd.
    2:{ symmetry. apply Bool.not_true_is_false. intros Hall.
        rewrite forallb_forall in Hall. apply Exists_exists in Hex.
        destruct Hex as (o & Hin & ->). specialize (Hall None Hin). discriminate. }
    injection Hd as <-. eexists. split; [reflexivity|].
    clear. induction ts as [|[t|] r IH]; cbn; constructor; auto.
    split; [reflexivity|apply of_Z_not_nan].
Qed.

Lemma days_since_last_purchase_missing_iff_witness :
  get_col "LastPurchaseDate" Sample.cleaned
    = Some (Datetime64 [Some 1708387200000000000; None]) /\
  exists xs,
    get_col "DaysSinceLastPurchase" Sample.derived = Some (Float64 xs) /\
    Forall2 (fun o x => match o with
                        | None => B64.isna x = true
                        | Some t => B64.isna x = false
                        end) [Some 1708387200000000000; None] xs.
Proof.
  split; [reflexivity|].
  destruct (days_since_last_purchase_missing_iff Sample.world Sample.cleaned Sample.start
              Sample.derived
              (Sample.after 2 ["Adding derived features..."; "Derived features added"])
              [Some 1708387200000000000; None] eq_refl ltac:(vm_compute; reflexivity))
    as [_ H].
  destruct H as (xs & Hcol & Hrows).
  - apply Exists_cons_tl. apply Exists_cons_hd. reflexivity.
  - exists xs. split; [exact Hcol|].
    clear Hcol. induction Hrows as [|[t|] x r xs' Hx _ IH]; constructor; auto.
    now destruct Hx.
Defined.

(** ** What [add_derived_features] leaves alone *)

Lemma add_derived_features_state (W : World) (df : DataFrame) (st : state) out st' :
  add_derived_features W df st = (Ok out, st') ->
  st' = {| clock_reads := S (S (clock_reads st));
           stdout := (stdout st ++ ["Adding derived features..."; "Derived features added"])%list |}.
Proof.
  intros H. unfold add_derived_features in H. run_inv H.
  unfold ret in H. injection H as _ <-.
  cbn [clock_reads stdout]. now rewrite <- app_assoc.
Qed.

(** X9: [add_derived_features] only adds columns: every column of the input
    other than the six derived names comes out unchanged, the six derived
    columns are present in the result, and a completed run has read the
    clock exactly twice and printed exactly two lines. *)
Theorem add_derived_features_only_adds_columns
    (W : World) (df : DataFrame) (st : state) out st' :
  add_derived_features W df st = (Ok out, st') ->
  (forall n, ~ In n derived_columns -> get_col n out = get_col n df) /\
  (forall n, In n derived_columns -> exists s, get_col n out = Some s) /\
  clock_reads st' = (clock_reads st + 2)%nat /\
  stdout st' = (stdout st ++ ["Adding derived features..."; "Derived features added"])%list.
Proof.
  intros Hrun. pose proof (add_derived_features_state _ _ _ _ _ Hrun) as ->.
  apply add_derived_features_inv in Hrun.
  destruct Hrun as (tenure & days & avg & groups & tiers & clv & -> & _).
  repeat apply conj.
  - intros n Hn. unfold derived_columns in Hn.
    repeat (apply not_in_cons_eqb in Hn; let E := fresh "E" in destruct Hn as [E Hn]).
    now rewrite !get_col_set_col_other by assumption.
  - intros n Hn. unfold derived_columns in Hn. cbn [In] in Hn.
    destruct Hn as [<-|[<-|[<-|[<-|[<-|[<-|[]]]]]]]; cols; eauto.
  - cbn [clock_reads]. lia.
  - reflexivity.
Qed.

Lemma add_derived_features_only_adds_columns_witness :
  get_col "Monetary_Capped" Sample.derived = get_col "Monetary_Capped" Sample.cleaned /\
  exists s, get_col "TenureMonths" Sample.derived = Some s.
Proof.
  destruct (add_derived_features_only_adds_columns Sample.world Sample.cleaned Sample.start
              Sample.derived
              (Sample.after 2 ["Adding derived features..."; "Derived features added"])
              ltac:(vm_compute; reflexivity))
    as (Hsame & Hnew & _).
  split.
  - apply Hsame. cbn. intros H. repeat (destruct H as [H|H]; [discriminate H|]). exact H.
  - apply Hnew. cbn. auto.
Defined.

(** X10: the date columns are optional for [clean_data] only. A table
    without a JoinDate column that [clean_data] returns still has none, and
    [add_derived_features] then raises KeyError 'JoinDate', after one clock
    reading and its first line of output. *)
Theorem join_date_column_required_by_derivation_only
    (W : World) (df : DataFrame) (st : state) out st' :
  clean_data W df st = (Ok out, st') ->
  get_col "JoinDate" df = None ->
  get_col "JoinDate" out = None /\
  add_derived_features W out st'
    = (Raise (KeyError "JoinDate"),
       {| clock_reads := S (clock_reads st');
          stdout := (stdout st' ++ ["Adding derived features..."])%list |}).
Proof.
  intros Hrun Hj.
  destruct (clean_data_columns W df st out st' Hrun)
    as (ids' & age & m & age' & gender & gender' & location & location'
        & monetary & Q1 & Q3 & capped & _ & _ & _ & _ & Hdates & _).
  specialize (Hdates "JoinDate" (or_introl eq_refl)). rewrite Hj in Hdates.
  split; [exact Hdates|].
  unfold add_derived_features, bind, print, now, lift, getitem.
  cbn [clock_reads stdout]. rewrite Hdates. reflexivity.
Qed.

Lemma join_date_column_required_by_derivation_only_witness :
  get_col "JoinDate" Sample.spenders = None /\
  fst (add_derived_features Sample.world Sample.spenders_cleaned
         (cleaned_state Sample.start Sample.spenders_cleaned))
    = Raise (KeyError "JoinDate").
Proof.
  split; [reflexivity|].
  destruct (join_date_column_required_by_derivation_only Sample.world Sample.spenders
              Sample.start Sample.spenders_cleaned
              (cleaned_state Sample.start Sample.spenders_cleaned)
              ltac:(vm_compute; reflexivity) eq_refl) as [_ H].
  now rewrite H.
Defined.

Lemma as_floats_length (s : Series) (xs : list float) :
  as_floats s = Ok xs -> List.length xs = series_len s.
Proof.
  destruct s; cbn; intros H; try discriminate; injection H as <-;
    [reflexivity|apply length_map].
Qed.

Lemma zip_with_length {A B C} (f : A -> B -> C) (xs : list A) (ys : list B) :
  List.length xs = List.length ys ->
  List.length (zip_with f xs ys) = List.length xs.
Proof.
  revert ys. induction xs as [|x r IH]; intros [|y s]; cbn; try discriminate; auto.
Qed.

Lemma trunc_all_length (xs : list float) (zs : list Z) :
  trunc_all xs = Ok zs -> List.length zs = List.length xs.
Proof.
  revert zs. induction xs as [|x r IH]; intros zs H; cbn in H.
  - now injection H as <-.
  - destruct (B64.trunc x); [|discriminate].
    apply rbind_inv in H. destruct H as (zs' & H & [= <-]). cbn. f_equal. auto.
Qed.

Lemma days_since_length (t : Z) (s d : Series) :
  days_since t s = Ok d -> series_len d = series_len s.
Proof.
  destruct s; cbn; intros H; try discriminate.
  destruct (forallb _ xs); injection H as <-; cbn; apply length_map.
Qed.

Lemma series_div_int_length (s d : Series) (k : Z) :
  series_div_int s k = Ok d -> series_len d = series_len s.
Proof.
  unfold series_div_int. intros H. apply rbind_inv in H.
  destruct H as (xs & Hx & [= <-]). cbn. rewrite length_map.
  now apply as_floats_length.
Qed.

Lemma astype_int_length (s d : Series) :
  astype_int s = Ok d -> series_len d = series_len s.
Proof.
  destruct s; cbn; intros H; try discriminate.
  - apply rbind_inv in H. destruct H as (zs & Hz & [= <-]). cbn.
    now apply trunc_all_length.
  - now injection H as <-.
Qed.

Lemma replace_0_1_length (s d : Series) :
  replace_0_1 s = Ok d -> series_len d = series_len s.
Proof.
  destruct s; cbn; intros H; try discriminate; injection H as <-; cbn; apply length_map.
Qed.

Lemma series_div_length (a b d : Series) :
  series_div a b = Ok d -> series_len a = series_len b -> series_len d = series_len a.
Proof.
  unfold series_div. intros H Hlen. apply rbind_inv in H.
  destruct H as (xs & Hx & H). apply rbind_inv in H. destruct H as (ys & Hy & [= <-]).
  apply as_floats_length in Hx, Hy. cbn. rewrite zip_with_length; congruence.
Qed.

Lemma cut_length (s d : Series) bins labels :
  cut s bins labels = Ok d -> series_len d = series_len s.
Proof.
  unfold cut. intros H. apply rbind_inv in H.
  destruct H as (xs & Hx & [= <-]). cbn. rewrite length_map.
  now apply as_floats_length.
Qed.

Lemma series_mul_int_length (s d : Series) (k : Z) :
  series_mul_int s k = Ok d -> series_len d = series_len s.
Proof.
  destruct s; cbn; intros H; try discriminate; injection H as <-; cbn; apply length_map.
Qed.

Lemma series_radd_int_length (s d : Series) (k : Z) :
  series_radd_int k s = Ok d -> series_len d = series_len s.
Proof.
  destruct s; cbn; intros H; try discriminate; injection H as <-; cbn; apply length_map.
Qed.

Lemma series_mul_length (a b d : Series) :
  series_mul a b = Ok d -> series_len a = series_len b -> series_len d = series_len a.
Proof.
  intros H Hlen.
  assert (Hfloat : rbind (as_floats a) (fun xs =>
                   rbind (as_floats b) (fun ys =>
                   Ok (Float64 (zip_with PrimFloat.mul xs ys)))) = Ok d ->
                   series_len d = series_len a).
  { intros H'. apply rbind_inv in H'. destruct H' as (xs & Hx & H').
    apply rbind_inv in H'. destruct H' as (ys & Hy & [= <-]).
    apply as_floats_length in Hx, Hy. cbn. rewrite zip_with_length; congruence. }
  destruct a, b; try (apply Hfloat; exact H).
  cbn in H. injection H as <-. cbn in *. now apply zip_with_length.
Qed.

(** X11: [add_derived_features] keeps the table rectangular: when every
    column of the input has [n] rows, so has every column of the result,
    the six derived columns included. *)
Theorem add_derived_features_keeps_table_rectangular
    (W : World) (df : DataFrame) (st : state) out st' n :
  rectangular n df ->
  add_derived_features W df st = (Ok out, st') ->
  rectangular n out /\ nrows out = n.
Proof.
  intros Hrect Hrun. apply add_derived_features_inv in Hrun.
  destruct Hrun as (tenure & days & avg & groups & tiers & clv & ->
                    & (join & d & m & Hj & Hd & Hm & Ht)
                    & (last & Hl & Hdays)
                    & (lifetime & frequency & replaced & Hlt & Hf & Hr & Havg)
                    & (age & Ha & Hg)
                    & (monetary & Hmon & Htier)
                    & (monetary' & rate & yearly & factor & Hmon' & Hrate & Hy & Hfac & Hclv)).
  pose proof (get_col_rectangular _ _ _ _ Hrect Hj) as Lj.
  pose proof (get_col_rectangular _ _ _ _ Hrect Hl) as Ll.
  pose proof (get_col_rectangular _ _ _ _ Hrect Hlt) as Llt.
  pose proof (get_col_rectangular _ _ _ _ Hrect Hf) as Lf.
  pose proof (get_col_rectangular _ _ _ _ Hrect Ha) as La.
  pose proof (get_col_rectangular _ _ _ _ Hrect Hmon) as Lmon.
  pose proof (get_col_rectangular _ _ _ _ Hrect Hmon') as Lmon'.
  pose proof (get_col_rectangular _ _ _ _ Hrect Hrate) as Lrate.
  assert (Hout : rectangular n
            (set_col "EstimatedCLV" clv
               (set_col "RevenueTier" tiers
                  (set_col "AgeGroup" groups
                     (set_col "AvgDaysBetweenPurchases" avg
                        (set_col "DaysSinceLastPurchase" days
                           (set_col "TenureMonths" tenure df))))))).
  { repeat apply set_col_rectangular; auto.
    - rewrite (series_mul_length _ _ _ Hclv); [exact Lmon'|].
      rewrite (series_radd_int_length _ _ _ Hfac), (series_mul_int_length _ _ _ Hy).
      congruence.
    - now rewrite (cut_length _ _ _ _ Htier).
    - now rewrite (cut_length _ _ _ _ Hg).
    - rewrite (series_div_length _ _ _ Havg); [exact Llt|].
      rewrite (replace_0_1_length _ _ Hr). congruence.
    - now rewrite (days_since_length _ _ _ Hdays).
    - now rewrite (astype_int_length _ _ Ht), (series_div_int_length _ _ _ Hm),
        (days_since_length _ _ _ Hd). }
  split; [exact Hout|].
  apply nrows_rectangular; [exact Hout|apply set_col_not_nil].
Qed.

Lemma add_derived_features_keeps_table_rectangular_witness :
  rectangular 2 Sample.cleaned /\ rectangular 2 Sample.derived.
Proof.
  assert (Hrect : rectangular 2 Sample.cleaned) by (repeat constructor).
  split; [exact Hrect|].
  apply (add_derived_features_keeps_table_rectangular Sample.world Sample.cleaned
           Sample.start Sample.derived
           (Sample.after 2 ["Adding derived features..."; "Derived features added"]) 2
           Hrect ltac:(vm_compute; reflexivity)).
Defined.

(** ** Date conversion, row by row *)

Lemma parse_all_rows (W : World) (xs : list (option string)) ts :
  parse_all W xs = Ok ts ->
  Forall2 (fun o t => match o with
                      | None => t = None
                      | Some text => to_datetime_text W text = Some t
                      end) xs ts.
Proof.
  revert ts. induction xs as [|[text|] r IH]; intros ts H; cbn in H.
  - injection H as <-. constructor.
  - destruct (to_datetime_text W text) as [t|] eqn:E; [|discriminate].
    apply rbind_inv in H. destruct H as (ts' & H & [= <-]). constructor; auto.
  - apply rbind_inv in H. destruct H as (ts' & H & [= <-]). constructor; auto.
Qed.

(** X12: [clean_data] converts a date column of strings row by row: a
    missing entry becomes NaT, a string becomes what the parser reads in it,
    and the rows kept are those of the first occurrences of a CustomerID. *)
Theorem clean_data_converts_dates_row_by_row
    (W : World) (df : DataFrame) (st : state) out st' ids c xs :
  clean_data W df st = (Ok out, st') ->
  get_col "CustomerID" df = Some ids ->
  In c date_columns ->
  get_col c df = Some (Object xs) ->
  exists ts,
    get_col c out = Some (Datetime64 (select (first_mask [] (keys ids)) ts)) /\
    Forall2 (fun o t => match o with
                        | None => t = None
                        | Some text => to_datetime_text W text = Some t
                        end) xs ts.
Proof.
  intros Hrun Hid Hc Hxs.
  destruct (clean_data_columns W df st out st' Hrun)
    as (ids' & age & m & age' & gender & gender' & location & location'
        & monetary & Q1 & Q3 & capped & Hid' & _ & _ & _ & Hdates & _).
  rewrite Hid in Hid'. injection Hid' as <-.
  specialize (Hdates c Hc). rewrite Hxs in Hdates.
  destruct Hdates as (ts & Hts & Hcol). exists ts. split; [exact Hcol|].
  cbn in Hts. apply rbind_inv in Hts. destruct Hts as (ts' & Hp & [= <-]).
  now apply parse_all_rows.
Qed.

Lemma clean_data_converts_dates_row_by_row_witness :
  get_col "LastPurchaseDate" Sample.table
    = Some (Object [Some "2024-02-20"; None; Some "2024-01-05"]) /\
  exists ts,
    get_col "LastPurchaseDate" Sample.cleaned
      = Some (Datetime64 (select (first_mask [] (keys (Int64 [7; 8; 7]))) ts)) /\
    Forall2 (fun o t => match o with
                        | None => t = None
                        | Some text => to_datetime_text Sample.world text = Some t
                        end) [Some "2024-02-20"; None; Some "2024-01-05"] ts.
Proof.
  split; [reflexivity|].
  apply (clean_data_converts_dates_row_by_row Sample.world Sample.table Sample.start
           Sample.cleaned (cleaned_state Sample.start Sample.cleaned) (Int64 [7; 8; 7])
           "LastPurchaseDate" [Some "2024-02-20"; None; Some "2024-01-05"]
           ltac:(vm_compute; reflexivity) eq_refl ltac:(cbn; tauto) eq_refl).
Defined.

(** ** Missing columns in [clean_data] *)

(** X13: [clean_data] raises KeyError for the first required column that is
    missing, in the order Age, Gender, Location, CustomerID, Monetary; it
    has then printed only its first line and returns no table. *)
Theorem clean_data_missing_column (W : World) (df : DataFrame) (st : state) :
  let stopped := printed st ["Cleaning data..."] in
  (get_col "Age" df = None ->
   clean_data W df st = (Raise (KeyError "Age"), stopped)) /\
  (forall age,
      get_col "Age" df = Some age -> is_numeric age = true ->
      get_col "Gender" df = None ->
      clean_data W df st = (Raise (KeyError "Gender"), stopped)) /\
  (forall age gender,
      get_col "Age" df = Some age -> is_numeric age = true ->
      get_col "Gender" df = Some gender -> is_text gender = true ->
      get_col "Location" df = None ->
      clean_data W df st = (Raise (KeyError "Location"), stopped)) /\
  (forall age gender location,
      get_col "Age" df = Some age -> is_numeric age = true ->
      get_col "Gender" df = Some gender -> is_text gender = true ->
      get_col "Location" df = Some location -> is_text location = true ->
      (forall c s, In c date_columns -> get_col c df = Some s ->
                   exists ts, s = Datetime64 ts) ->
      (get_col "CustomerID" df = None ->
       clean_data W df st = (Raise (KeyError "CustomerID"), stopped)) /\
      (forall ids, get_col "CustomerID" df = Some ids ->
                   get_col "Monetary" df = None ->
                   clean_data W df st = (Raise (KeyError "Monetary"), stopped))).
Proof.
  intros stopped. repeat apply conj.
  - intros Ha. unfold clean_data, bind, print, lift, getitem. rewrite Ha. reflexivity.
  - intros age Ha Hna Hg.
    destruct (median_numeric age Hna) as (xs & _ & Hm).
    destruct (fillna_number_numeric age (np_median xs) Hna) as (age' & Ha' & _).
    unfold clean_data, bind, print, lift, getitem.
    run_fwd Ha; run_fwd Hm; run_fwd Ha'; run_fwd Hg. reflexivity.
  - intros age gender Ha Hna Hg Hng Hl.
    destruct (median_numeric age Hna) as (xs & _ & Hm).
    destruct (fillna_number_numeric age (np_median xs) Hna) as (age' & Ha' & _).
    destruct (fillna_text_text gender "Unknown" Hng) as (gender' & Hg' & _).
    unfold clean_data, bind, print, lift, getitem.
    run_fwd Ha; run_fwd Hm; run_fwd Ha'; run_fwd Hg; run_fwd Hg'; run_fwd Hl.
    reflexivity.
  - intros age gender location Ha Hna Hg Hng Hl Hnl Hdates.
    destruct (median_numeric age Hna) as (xs & _ & Hm).
    destruct (fillna_number_numeric age (np_median xs) Hna) as (age' & Ha' & _).
    destruct (fillna_text_text gender "Unknown" Hng) as (gender' & Hg' & _).
    destruct (fillna_text_text location "Unknown" Hnl) as (location' & Hl' & _).
    assert (Hc : convert_date_columns W date_columns
                   (set_col "Location" location' (set_col "Gender" gender'
                      (set_col "Age" age' df)))
                 = Ok (set_col "Location" location' (set_col "Gender" gender'
                         (set_col "Age" age' df)))).
    { apply convert_date_columns_id. intros c s Hin Hs.
      rewrite imputed_date_column in Hs by assumption. eauto. }
    split.
    + intros Hid.
      unfold clean_data, bind, print, lift, getitem, drop_duplicates.
      run_fwd Ha; run_fwd Hm; run_fwd Ha'; run_fwd Hg; run_fwd Hg'; run_fwd Hl;
        run_fwd Hl'; run_fwd Hc; run_fwd Hid. reflexivity.
    + intros ids Hid Hmon.
      unfold clean_data, bind, print, lift, getitem, drop_duplicates.
      run_fwd Ha; run_fwd Hm; run_fwd Ha'; run_fwd Hg; run_fwd Hg'; run_fwd Hl;
        run_fwd Hl'; run_fwd Hc; run_fwd Hid.
      rewrite get_col_frame_select. cols. rewrite Hmon. reflexivity.
Qed.

Lemma clean_data_missing_column_witness :
  get_col "Age" Sample.table_without_age = None /\
  clean_data Sample.world Sample.table_without_age Sample.start
    = (Raise (KeyError "Age"), printed Sample.start ["Cleaning data..."]).
Proof.
  split; [reflexivity|].
  destruct (clean_data_missing_column Sample.world Sample.table_without_age Sample.start)
    as [H _].
  apply H. reflexivity.
Defined.

(** ** The three boundary functions *)

Lemma export_to_csv_returns (W : World) (df : DataFrame) (path : string) (st : state) :
  os_makedirs W (dirname path) = None -> df_to_csv W path df = None ->
  export_to_csv W df path st
    = (Ok tt, printed st ["Data exported successfully to " ++ path]).
Proof.
  intros H H'. unfold export_to_csv, try_except, bind, print, lift, ret.
  rewrite H, H'. reflexivity.
Qed.

(** X14: [create_connection], [fetch_customer_data] and [export_to_csv]
    never raise, whatever the database and the file system do: each returns
    after printing exactly one line, and the first two return None exactly
    when the call they wrap has failed. *)
Theorem boundary_functions_never_raise (W : World) (st : state) :
  (exists conn line,
      create_connection W st = (Ok conn, printed st [line]) /\
      (conn = None <-> pyodbc_connect W <> None)) /\
  (exists fetched line,
      fetch_customer_data W tt st = (Ok fetched, printed st [line]) /\
      match fetched with
      | Some df => exists query, open_read W "src/segmentation_query.sql" = inl query /\
                                 pd_read_sql W query = inl df
      | None => (exists err, open_read W "src/segmentation_query.sql" = inr err) \/
                (exists query err, open_read W "src/segmentation_query.sql" = inl query /\
                                   pd_read_sql W query = inr err)
      end) /\
  (forall df path, exists line,
      export_to_csv W df path st = (Ok tt, printed st [line])).
Proof.
  repeat apply conj.
  - destruct (pyodbc_connect W) as [err|] eqn:E.
    + exists None. eexists. split; [apply (create_connection_raises W st err E)|].
      split; intros; [discriminate|reflexivity].
    + exists (Some tt). eexists. split; [apply (create_connection_returns W st E)|].
      split; intros; [discriminate|congruence].
  - destruct (open_read W "src/segmentation_query.sql") as [query|err] eqn:E.
    + destruct (pd_read_sql W query) as [df|err] eqn:E'.
      * exists (Some df). eexists.
        split; [apply (fetch_customer_data_returns W st query df E E')|eauto].
      * exists None. eexists.
        split; [apply (fetch_customer_data_raises W st err); eauto|eauto 6].
    + exists None. eexists.
      split; [apply (fetch_customer_data_raises W st err); eauto|eauto].
  - intros df path.
    destruct (os_makedirs W (dirname path)) as [err|] eqn:E.
    + eexists. apply (export_to_csv_raises W df path st err). auto.
    + destruct (df_to_csv W path df) as [err|] eqn:E'.
      * eexists. apply (export_to_csv_raises W df path st err). auto.
      * eexists. now apply export_to_csv_returns.
Qed.

(** ** The summary and the whole run *)

Lemma generate_summary_stats_returns (W : World) (df : DataFrame) (st : state)
    segment recency frequency monetary activity r f m :
  get_col "CustomerSegment" df = Some segment ->
  get_col "Recency" df = Some recency -> fmt_mean W recency = Ok r ->
  get_col "Frequency" df = Some frequency -> fmt_mean W frequency = Ok f ->
  get_col "Monetary" df = Some monetary -> fmt_mean W monetary = Ok m ->
  get_col "ActivityStatus" df = Some activity ->
  generate_summary_stats W df st
    = (Ok tt,
       printed st [nl ++ "=== Customer Segmentation Summary ===";
                   "Total Customers: " ++ str_nat (nrows df);
                   nl ++ "Segment Distribution:";
                   str_value_counts W segment;
                   nl ++ "Average Metrics:";
                   "  - Average Recency: " ++ r ++ " days";
                   "  - Average Frequency: " ++ f ++ " purchases";
                   "  - Average Monetary: $" ++ m;
                   nl ++ "Activity Status:";
                   str_value_counts W activity;
                   nl ++ "========================================"]).
Proof.
  intros Hs Hr Hfr Hf Hff Hm Hfm Ha.
  unfold generate_summary_stats, bind, print, lift, getitem.
  run_fwd Hs; run_fwd Hr; run_fwd Hfr; run_fwd Hf; run_fwd Hff; run_fwd Hm;
    run_fwd Hfm; run_fwd Ha.
  unfold printed. cbn [clock_reads stdout]. rewrite <- !app_assoc. reflexivity.
Qed.

(** X15: when the means can be rendered, [generate_summary_stats] raises
    KeyError for the first of CustomerSegment, Recency, Frequency, Monetary,
    ActivityStatus that the table lacks, and with all five present it
    returns after printing eleven lines. *)
Theorem generate_summary_stats_first_missing_column
    (W : World) (df : DataFrame) (st : state) :
  (forall s, exists text, fmt_mean W s = Ok text) ->
  (forall pre c post,
      summary_columns = (pre ++ c :: post)%list ->
      (forall c', In c' pre -> exists s, get_col c' df = Some s) ->
      get_col c df = None ->
      fst (generate_summary_stats W df st) = Raise (KeyError c)) /\
  ((forall c, In c summary_columns -> exists s, get_col c df = Some s) ->
   exists lines,
     generate_summary_stats W df st = (Ok tt, printed st lines) /\
     List.length lines = 11%nat).
Proof.
  intros Hfmt. split.
  - intros pre c post Hsplit Hpre Hc.
    assert (Hget : forall c', In c' pre ->
               exists s text, get_col c' df = Some s /\ fmt_mean W s = Ok text).
    { intros c' Hin. destruct (Hpre c' Hin) as [s Hs].
      destruct (Hfmt s) as [text Ht]. eauto. }
    unfold summary_columns in Hsplit.
    unfold generate_summary_stats, bind, print, lift, getitem.
    destruct pre as [|p1 pre]; cbn in Hsplit; injection Hsplit as <- Hsplit.
    { run_fwd Hc. reflexivity. }
    destruct (Hget "CustomerSegment" (or_introl eq_refl)) as (s1 & _ & H1 & _).
    run_fwd H1.
    destruct pre as [|p2 pre]; cbn in Hsplit; injection Hsplit as <- Hsplit.
    { run_fwd Hc. reflexivity. }
    destruct (Hget "Recency" (or_intror (or_introl eq_refl))) as (s2 & t2 & H2 & F2).
    run_fwd H2. run_fwd F2.
    destruct pre as [|p3 pre]; cbn in Hsplit; injection Hsplit as <- Hsplit.
    { run_fwd Hc. reflexivity. }
    destruct (Hget "Frequency" (or_intror (or_intror (or_introl eq_refl))))
      as (s3 & t3 & H3 & F3).
    run_fwd H3. run_fwd F3.
    destruct pre as [|p4 pre]; cbn in Hsplit; injection Hsplit as <- Hsplit.
    { run_fwd Hc. reflexivity. }
    destruct (Hget "Monetary" (or_intror (or_intror (or_intror (or_introl eq_refl)))))
      as (s4 & t4 & H4 & F4).
    run_fwd H4. run_fwd F4.
    destruct pre as [|p5 pre]; cbn in Hsplit; injection Hsplit as <- Hsplit.
    { run_fwd Hc. reflexivity. }
    destruct pre; discriminate Hsplit.
  - intros Hall.
    destruct (Hall "CustomerSegment") as [s1 H1]; [cbn; tauto|].
    destruct (Hall "Recency") as [s2 H2]; [cbn; tauto|].
    destruct (Hall "Frequency") as [s3 H3]; [cbn; tauto|].
    destruct (Hall "Monetary") as [s4 H4]; [cbn; tauto|].
    destruct (Hall "ActivityStatus") as [s5 H5]; [cbn; tauto|].
    destruct (Hfmt s2) as [t2 F2]. destruct (Hfmt s3) as [t3 F3].
    destruct (Hfmt s4) as [t4 F4].
    eexists. split.
    + apply (generate_summary_stats_returns W df st s1 s2 s3 s4 s5 t2 t3 t4); assumption.
    + reflexivity.
Qed.

Lemma generate_summary_stats_first_missing_column_witness :
  get_col "CustomerSegment" Sample.table_without_segment_derived = None /\
  fst (generate_summary_stats Sample.world Sample.table_without_segment_derived Sample.start)
    = Raise (KeyError "CustomerSegment").
Proof.
  split; [reflexivity|].
  destruct (generate_summary_stats_first_missing_column Sample.world
              Sample.table_without_segment_derived Sample.start) as [H _].
  - intros s. exists "<mean>". reflexivity.
  - apply (H [] "CustomerSegment" ["Recency"; "Frequency"; "Monetary"; "ActivityStatus"]).
    + reflexivity.
    + intros c' [].
    + reflexivity.
Defined.

(** X16: [main] writes the output file before it prints the summary: when
    every stage returns and the write succeeds but the table has no
    CustomerSegment column, the export has been logged as successful and
    [main] then raises KeyError 'CustomerSegment' out of the summary. *)
Theorem main_exports_before_the_summary_fails
    (W : World) (st : state) query df cleaned derived st1 st2 :
  pyodbc_connect W = None ->
  open_read W "src/segmentation_query.sql" = inl query ->
  pd_read_sql W query = inl df ->
  st1 = printed st [banner; "Database connection successful";
                    "Fetched " ++ str_nat (nrows df) ++ " customer records"] ->
  clean_data_steps W df cleaned ->
  add_derived_features W cleaned (cleaned_state st1 cleaned) = (Ok derived, st2) ->
  os_makedirs W (dirname default_output_path) = None ->
  df_to_csv W default_output_path derived = None ->
  get_col "CustomerSegment" derived = None ->
  main W st
    = (Raise (KeyError "CustomerSegment"),
       printed st2 ["Data exported successfully to " ++ default_output_path;
                    nl ++ "=== Customer Segmentation Summary ===";
                    "Total Customers: " ++ str_nat (nrows derived);
                    nl ++ "Segment Distribution:"]).
Proof.
  intros H Ho Hs -> Hc Hd Hmk Hcsv Hseg.
  unfold main.
  rewrite (bind_run _ _ _ _ _ (print_run _ st)).
  rewrite (bind_run _ _ _ _ _ (create_connection_returns W _ H)).
  rewrite (bind_run _ _ _ _ _ (fetch_customer_data_returns W _ query df Ho Hs)).
  rewrite (bind_run _ _ _ _ _ (eq_refl : conn_close tt _ = (Ok tt, _))).
  rewrite (bind_run _ _ _ _ _ (clean_data_run W df _ cleaned Hc)).
  rewrite !printed_printed. cbn [app].
  rewrite (bind_run _ _ _ _ _ Hd).
  rewrite (bind_run _ _ _ _ _ (export_to_csv_returns W derived _ st2 Hmk Hcsv)).
  unfold generate_summary_stats, bind, print, lift, getitem.
  run_fwd Hseg. unfold printed. cbn [clock_reads stdout].
  rewrite <- !app_assoc. reflexivity.
Qed.

(** X17: when every stage returns, the write succeeds and the five summary
    columns are there with means that can be rendered, [main] returns
    normally; after the lines of the stages it has printed the export line,
    the eleven lines of the summary and the two closing lines. *)
Theorem main_completes_with_the_closing_lines
    (W : World) (st : state) query df cleaned derived st1 st2 :
  pyodbc_connect W = None ->
  open_read W "src/segmentation_query.sql" = inl query ->
  pd_read_sql W query = inl df ->
  st1 = printed st [banner; "Database connection successful";
                    "Fetched " ++ str_nat (nrows df) ++ " customer records"] ->
  clean_data_steps W df cleaned ->
  add_derived_features W cleaned (cleaned_state st1 cleaned) = (Ok derived, st2) ->
  os_makedirs W (dirname default_output_path) = None ->
  df_to_csv W default_output_path derived = None ->
  (forall c, In c summary_columns -> exists s, get_col c derived = Some s) ->
  (forall s, exists text, fmt_mean W s = Ok text) ->
  exists summary,
    List.length summary = 11%nat /\
    main W st
      = (Ok tt,
         printed st2
           (("Data exported successfully to " ++ default_output_path)%string
              :: (summary
                    ++ [(nl ++ "Data preparation completed successfully!")%string;
                        "You can now import the output CSV into Power BI."])%list)).
Proof.
  intros H Ho Hs -> Hc Hd Hmk Hcsv Hall Hfmt.
  destruct (Hall "CustomerSegment") as [s1 H1]; [cbn; tauto|].
  destruct (Hall "Recency") as [s2 H2]; [cbn; tauto|].
  destruct (Hall "Frequency") as [s3 H3]; [cbn; tauto|].
  destruct (Hall "Monetary") as [s4 H4]; [cbn; tauto|].
  destruct (Hall "ActivityStatus") as [s5 H5]; [cbn; tauto|].
  destruct (Hfmt s2) as [t2 F2]. destruct (Hfmt s3) as [t3 F3].
  destruct (Hfmt s4) as [t4 F4].
  exists [nl ++ "=== Customer Segmentation Summary ===";
          "Total Customers: " ++ str_nat (nrows derived);
          nl ++ "Segment Distribution:";
          str_value_counts W s1;
          nl ++ "Average Metrics:";
          "  - Average Recency: " ++ t2 ++ " days";
          "  - Average Frequency: " ++ t3 ++ " purchases";
          "  - Average Monetary: $" ++ t4;
          nl ++ "Activity Status:";
          str_value_counts W s5;
          nl ++ "========================================"].
  split; [|unfold main].
  2:{ rewrite (bind_run _ _ _ _ _ (print_run _ st)).
      rewrite (bind_run _ _ _ _ _ (create_connection_returns W _ H)).
      rewrite (bind_run _ _ _ _ _ (fetch_customer_data_returns W _ query df Ho Hs)).
      rewrite (bind_run _ _ _ _ _ (eq_refl : conn_close tt _ = (Ok tt, _))).
      rewrite (bind_run _ _ _ _ _ (clean_data_run W df _ cleaned Hc)).
      rewrite !printed_printed. cbn [app].
      rewrite (bind_run _ _ _ _ _ Hd).
      rewrite (bind_run _ _ _ _ _ (export_to_csv_returns W derived _ st2 Hmk Hcsv)).
      rewrite (bind_run _ _ _ _ _
                 (generate_summary_stats_returns W derived _ s1 s2 s3 s4 s5 t2 t3 t4
                    H1 H2 F2 H3 F3 H4 F4 H5)).
      rewrite (bind_run _ _ _ _ _ (print_run _ _)).
      rewrite print_run, !printed_printed. cbn [app]. reflexivity. }
  reflexivity.
Qed.

Lemma main_exports_before_the_summary_fails_witness :
  get_col "CustomerSegment" Sample.table_without_segment_derived = None /\
  fst (main Sample.no_segment_column Sample.start) = Raise (KeyError "CustomerSegment") /\
  In "Data exported successfully to data/customer_segmentation_output.csv"
     (stdout (snd (main Sample.no_segment_column Sample.start))).
Proof.
  split; [reflexivity|].
  set (st1 := printed Sample.start
                [banner; "Database connection successful";
                 "Fetched " ++ str_nat (nrows Sample.table_without_segment)
                   ++ " customer records"]).
  assert (Hclean : clean_data_steps Sample.no_segment_column Sample.table_without_segment
                     Sample.table_without_segment_cleaned).
  { apply (clean_data_inv Sample.no_segment_column Sample.table_without_segment
             Sample.start _
             (cleaned_state Sample.start Sample.table_without_segment_cleaned)).
    vm_compute. reflexivity. }
  pose proof (main_exports_before_the_summary_fails Sample.no_segment_column Sample.start
                "SELECT * FROM customer_segments" Sample.table_without_segment
                Sample.table_without_segment_cleaned Sample.table_without_segment_derived
                st1
                (snd (add_derived_features Sample.no_segment_column
                        Sample.table_without_segment_cleaned
                        (cleaned_state st1 Sample.table_without_segment_cleaned)))
                eq_refl eq_refl eq_refl eq_refl Hclean
                ltac:(vm_compute; reflexivity) eq_refl eq_refl eq_refl) as Hmain.
  rewrite Hmain. split; [reflexivity|].
  vm_compute. repeat (first [left; reflexivity | right]).
Defined.

Lemma main_completes_with_the_closing_lines_witness :
  pyodbc_connect Sample.world = None /\
  fst (main Sample.world Sample.start) = Ok tt /\
  In "You can now import the output CSV into Power BI."
     (stdout (snd (main Sample.world Sample.start))).
Proof.
  split; [reflexivity|].
  set (st1 := printed Sample.start
                [banner; "Database connection successful";
                 "Fetched " ++ str_nat (nrows Sample.table) ++ " customer records"]).
  assert (Hclean : clean_data_steps Sample.world Sample.table Sample.cleaned).
  { apply (clean_data_inv Sample.world Sample.table Sample.start _
             (cleaned_state Sample.start Sample.cleaned)).
    vm_compute. reflexivity. }
  destruct (main_completes_with_the_closing_lines Sample.world Sample.start
              "SELECT * FROM customer_segments" Sample.table
              Sample.cleaned Sample.derived st1
              (snd (add_derived_features Sample.world Sample.cleaned
                      (cleaned_state st1 Sample.cleaned)))
              eq_refl eq_refl eq_refl eq_refl Hclean
              ltac:(vm_compute; reflexivity) eq_refl eq_refl)
    as (summary & Hlen & Hmain).
  - intros c Hc. cbn in Hc.
    destruct Hc as [<-|[<-|[<-|[<-|[<-|[]]]]]]; eexists; reflexivity.
  - intros s. exists "<mean>". reflexivity.
  - rewrite Hmain. split; [reflexivity|].
    cbn [snd stdout printed]. apply in_or_app. right. right.
    apply in_or_app. right. right. left. reflexivity.
Defined.

(** ** Tenure *)

Lemma trunc_all_rows (xs : list float) (zs : list Z) :
  trunc_all xs = Ok zs -> Forall2 (fun x z => B64.trunc x = Some z) xs zs.
Proof.
  revert zs. induction xs as [|x r IH]; intros zs H; cbn in H.
  - injection H as <-. constructor.
  - destruct (B64.trunc x) as [z|] eqn:E; [|discriminate].
    apply rbind_inv in H. destruct H as (zs' & H & [= <-]). constructor; auto.
Qed.

(** X18: a completed [add_derived_features] has found a JoinDate on every
    row, and TenureMonths is, row by row, the whole days between the first
    clock reading and the JoinDate, divided by 30 in binary64 and truncated
    towards zero. *)
Theorem tenure_months_rows
    (W : World) (df : DataFrame) (st : state) out st' ts :
  get_col "JoinDate" df = Some (Datetime64 ts) ->
  add_derived_features W df st = (Ok out, st') ->
  let t1 := datetime_now W (clock_reads st) in
  Forall (fun o => o <> None) ts /\
  exists zs,
    get_col "TenureMonths" out = Some (Int64 zs) /\
    Forall2 (fun o z =>
               exists t, o = Some t /\
                 B64.trunc (B64.of_Z ((t1 - t) / ns_per_day) / B64.of_Z 30)%float = Some z)
            ts zs.
Proof.
  intros Hj Hrun t1.
  assert (Hall : Forall (fun o : option Z => o <> None) ts).
  { apply Forall_forall. intros o Hin ->.
    pose proof (missing_join_date_raises W df st ts Hj Hin) as Hraise.
    rewrite Hrun in Hraise. discriminate. }
  split; [exact Hall|].
  apply add_derived_features_inv in Hrun.
  destruct Hrun as (tenure & days & avg & groups & tiers & clv & ->
                    & (join & d & m & Hj0 & Hd & Hm & Ht) & _).
  rewrite Hj in Hj0. injection Hj0 as <-. fold t1 in Hd.
  unfold days_since in Hd.
  replace (forallb _ ts) with true in Hd.
  2:{ symmetry. apply forallb_forall. intros o Hin.
      rewrite Forall_forall in Hall. specialize (Hall o Hin). now destruct o. }
  injection Hd as <-. cbn in Hm. injection Hm as <-.
  cbn in Ht. apply rbind_inv in Ht. destruct Ht as (zs & Hz & [= <-]).
  exists zs. cols. split; [reflexivity|].
  apply trunc_all_rows in Hz. clear -Hz Hall.
  revert zs Hz. induction Hall as [|[t|] r Ho _ IH]; intros zs Hz; cbn in Hz;
    inversion Hz; subst; constructor; eauto.
  congruence.
Qed.

Lemma tenure_months_rows_witness :
  get_col "JoinDate" Sample.cleaned
    = Some (Datetime64 [Some 1673740800000000000; Some 1654041600000000000]) /\
  exists zs,
    get_col "TenureMonths" Sample.derived = Some (Int64 zs) /\
    List.length zs = 2%nat.
Proof.
  split; [reflexivity|].
  destruct (tenure_months_rows Sample.world Sample.cleaned Sample.start Sample.derived
              (Sample.after 2 ["Adding derived features..."; "Derived features added"])
              [Some 1673740800000000000; Some 1654041600000000000]
              eq_refl ltac:(vm_compute; reflexivity))
    as (_ & zs & Hcol & Hrows).
  exists zs. split; [exact Hcol|].
  apply Forall2_length in Hrows. now rewrite <- Hrows.
Defined.

(** ** When [clean_data] returns *)

Lemma parse_all_returns (W : World) (xs : list (option string)) :
  (forall text, In (Some text) xs -> to_datetime_text W text <> None) ->
  exists ts, parse_all W xs = Ok ts.
Proof.
  intros H. destruct (parse_all_total W xs) as [Hok|(text & Hin & Hbad & _)]; [exact Hok|].
  elim (H text Hin Hbad).
Qed.

(** A date column that converts: it is already datetime64 or int64, or it
    holds only strings the parser reads. *)
Lemma to_datetime_returns (W : World) (s : Series) :
  is_date_like s = true ->
  (forall xs text, s = Object xs -> In (Some text) xs -> to_datetime_text W text <> None) ->
  exists ts, to_datetime W s = Ok (Datetime64 ts).
Proof.
  intros Hl Hp. destruct s; try discriminate; cbn.
  - eauto.
  - destruct (parse_all_returns W xs) as [ts ->]; [intros text; now apply Hp|].
    cbn. eauto.
  - eauto.
Qed.

Lemma convert_date_columns_returns (W : World) (cols : list string) (df : DataFrame) :
  NoDup cols ->
  (forall c s, In c cols -> get_col c df = Some s ->
               exists ts, to_datetime W s = Ok (Datetime64 ts)) ->
  exists df', convert_date_columns W cols df = Ok df'.
Proof.
  intros Hnd. revert df. induction Hnd as [|c r Hc Hnd IH]; intros df H; cbn.
  - eauto.
  - unfold convert_date_column.
    destruct (get_col c df) as [s|] eqn:E.
    + destruct (H c s (or_introl eq_refl) E) as [ts ->]. cbn.
      apply IH. intros c' s' Hin Hs.
      rewrite get_col_set_col_other in Hs.
      * apply (H c' s'); [now right|exact Hs].
      * apply String.eqb_neq. intros ->. contradiction.
    + cbn. apply IH. intros c' s' Hin. apply H. now right.
Qed.

Lemma clip_upper_numeric (s : Series) (u : float) :
  is_numeric s = true -> exists c, clip_upper s u = Ok c.
Proof.
  destruct s; try discriminate; intros _; cbn; [eauto|].
  destruct (_ || _)%bool; eauto.
Qed.

Lemma series_select_numeric (mask : list bool) (s : Series) :
  is_numeric s = true -> is_numeric (series_select mask s) = true.
Proof. destruct s; auto. Qed.

Lemma quantile_numeric (s : Series) (q : float) :
  is_numeric s = true -> exists v, quantile s q = Ok v.
Proof. destruct s; try discriminate; intros _; cbn; eauto. Qed.

(** X19: [clean_data] returns a table whenever the five columns it needs
    are there with the dtypes of the column contract (Age and Monetary
    numeric, Gender and Location text, CustomerID of any dtype) and every
    date column that is present is datetime64, int64, or strings that the
    parser all reads. *)
Theorem clean_data_returns
    (W : World) (df : DataFrame) (st : state) age gender location ids monetary :
  get_col "Age" df = Some age -> is_numeric age = true ->
  get_col "Gender" df = Some gender -> is_text gender = true ->
  get_col "Location" df = Some location -> is_text location = true ->
  get_col "CustomerID" df = Some ids ->
  get_col "Monetary" df = Some monetary -> is_numeric monetary = true ->
  (forall c s, In c date_columns -> get_col c df = Some s ->
     is_date_like s = true /\
     forall xs text, s = Object xs -> In (Some text) xs -> to_datetime_text W text <> None) ->
  exists out, clean_data W df st = (Ok out, cleaned_state st out).
Proof.
  intros Ha Hna Hg Hng Hl Hnl Hid Hmon Hnm Hdates.
  destruct (median_numeric age Hna) as (xs & _ & Hm).
  destruct (fillna_number_numeric age (np_median xs) Hna) as (age' & Ha' & _).
  destruct (fillna_text_text gender "Unknown" Hng) as (gender' & Hg' & _).
  destruct (fillna_text_text location "Unknown" Hnl) as (location' & Hl' & _).
  destruct (convert_date_columns_returns W date_columns
              (set_col "Location" location' (set_col "Gender" gender' (set_col "Age" age' df)))
              date_columns_NoDup) as [df3 Hc].
  { intros c s Hin Hs. rewrite imputed_date_column in Hs by assumption.
    destruct (Hdates c s Hin Hs) as [Hlike Hparse]. now apply to_datetime_returns. }
  assert (Hother : forall n, ~ In n date_columns ->
             get_col n df3
             = get_col n (set_col "Location" location'
                            (set_col "Gender" gender' (set_col "Age" age' df)))).
  { intros n Hn. apply (convert_date_columns_other _ _ _ _ n Hc Hn). }
  set (mask := first_mask [] (keys ids)).
  assert (Hd : drop_duplicates "CustomerID" df3 = Ok (frame_select mask df3)).
  { unfold drop_duplicates.
    rewrite (Hother "CustomerID") by (apply not_date_column; reflexivity).
    cols. now rewrite Hid. }
  assert (Hmon4 : get_col "Monetary" (frame_select mask df3)
                  = Some (series_select mask monetary)).
  { rewrite get_col_frame_select, Hother by (apply not_date_column; reflexivity).
    cols. now rewrite Hmon. }
  pose proof (series_select_numeric mask monetary Hnm) as Hnm4.
  destruct (quantile_numeric _ 0.25%float Hnm4) as [Q1 HQ1].
  destruct (quantile_numeric _ 0.75%float Hnm4) as [Q3 HQ3].
  destruct (clip_upper_numeric _ (Q3 + 1.5 * (Q3 - Q1))%float Hnm4) as [capped Hcap].
  eexists. apply clean_data_run.
  exists age, (np_median xs), age', gender, gender', location, location', df3,
    (frame_select mask df3), (series_select mask monetary), Q1, Q3, capped.
  cols. repeat apply conj; auto.
Qed.

Lemma clean_data_returns_witness :
  is_numeric (Float64 [30; PrimFloat.nan; 50]%float) = true /\
  exists out,
    clean_data Sample.world Sample.table Sample.start
      = (Ok out, cleaned_state Sample.start out).
Proof.
  split; [reflexivity|].
  apply (clean_data_returns Sample.world Sample.table Sample.start
           (Float64 [30; PrimFloat.nan; 50]%float)
           (Object [Some "F"; None; Some "M"])
           (Object [Some "Pune"; Some "Delhi"; None])
           (Int64 [7; 8; 7]) (Float64 [100; 250.5; 4000]%float)
           eq_refl eq_refl eq_refl eq_refl eq_refl eq_refl eq_refl eq_refl eq_refl).
  intros c s [<-|[<-|[<-|[]]]] H; vm_compute in H; injection H as <-;
    (split; [reflexivity|]); intros xs text [= <-] Hin;
    cbn in Hin; repeat (destruct Hin as [Hin|Hin];
                        [try discriminate Hin; injection Hin as <-; discriminate|]);
    destruct Hin.
Defined.
